(** * cozy-stack: sharing file upload, VFS file creation, revocation

    A shallow embedding of the parts of cozy-stack that implement
    - the swift (v3 layout) object naming         [model/vfs/vfsswift/impl_v3.go]
    - the afero VFS file creation and dir rename  [model/vfs/vfsafero/impl.go]
    - the two sides of the file upload            [model/sharing/upload.go]
    - the revocation by notification              [model/sharing/sharing.go]

    Go code that talks to collaborators (CouchDB, the VFS indexer, the afero
    file system, locks, HTTP peers) is embedded as a program of a small free
    monad [prog]: every call to a collaborator is a node of the program, and
    the answer of the collaborator is chosen by a handler.  Theorems quantify
    over every handler, so they hold whatever the collaborators answer.
    Calls to the logger are left out: they have no effect on the results.  *)

From Stdlib Require Import ZArith Lia Ascii String.
From stdpp Require Import base option list strings gmap.

Set Warnings "-register-all".

Local Open Scope string_scope.
Local Open Scope list_scope.
Local Open Scope Z_scope.

(** ** Errors *)

Module Err.

  (** The error values that the embedded code returns or tests for.  A
      [CouchError] carries the HTTP status that CouchDB answered with and
      whether the reason was "deleted" (both are read by the predicates of
      package couchdb).  [Other] stands for every other error value (I/O
      errors, lock errors, ...). *)
Inductive error : Type :=
  | ErrInvalidHash
  | ErrContentLengthMismatch
  | ErrFileTooBig
  | ErrParentInTrash
  | ErrForbiddenDocMove
  | ErrNonAbsolutePath
  | ErrNotExist            (* os.ErrNotExist *)
  | ErrExist               (* os.ErrExist *)
  | ErrSafety
  | ErrInvalidSharing
  | ErrMissingFileMetadata
  | ErrInternalServerError
  | ErrNotFoundTrigger
  | CouchError (status : Z) (deleted : bool)
  | GoPanic (msg : string)  (* a run-time panic of the Go code, kept as an outcome *)
  | Other (msg : string).

#[global] Instance error_eq_dec : EqDecision error.
  Proof. solve_decision. Defined.

  (** couchdb.IsCouchError *)
Definition IsCouchError (e : error) : bool :=
    match e with CouchError _ _ => true | _ => false end.

  (** couchdb.IsNotFoundError: a CouchDB error with status 404. *)
Definition IsNotFoundError (e : error) : bool :=
    match e with CouchError st _ => bool_decide (st = 404) | _ => false end.

  (** couchdb.IsDeletedError: a not-found error whose reason is "deleted". *)
Definition IsDeletedError (e : error) : bool :=
    match e with CouchError st d => bool_decide (st = 404) && d | _ => false end.

  (** couchdb.IsConflictError: a CouchDB error with status 409. *)
Definition IsConflictError (e : error) : bool :=
    match e with CouchError st _ => bool_decide (st = 409) | _ => false end.

  (** A Go pair [(v, err)]: either the value or the error. *)
Inductive result (A : Type) : Type :=
  | Ok (a : A)
  | Error (e : error).
  #[global] Arguments Ok {A} a.
  #[global] Arguments Error {A} e.

End Err.
Export Err.

(** ** Programs over collaborators *)

Module Prog.

  Section Defs.
    Context {E : Type -> Type}.

    (** A program either returns, or calls a collaborator and goes on with
        the answer. *)
Inductive prog (R : Type) : Type :=
    | Ret (r : R)
    | Vis {X : Type} (e : E X) (k : X -> prog R).
    #[global] Arguments Ret {R} r.
    #[global] Arguments Vis {R X} e k.

Fixpoint bind {A B} (p : prog A) (f : A -> prog B) : prog B :=
      match p with
      | Ret a => f a
      | Vis e k => Vis e (fun x => bind (k x) f)
      end.

Definition call {X} (e : E X) : prog X := Vis e Ret.

    (** One call together with the answer it got. *)
Record event : Type := Ev { ev_type : Type; ev_call : E ev_type; ev_ret : ev_type }.

    (** A handler answers every call, and may keep a state [W] of its own. *)
Definition handler (W : Type) : Type := forall X, E X -> W -> X * W.

    (** Running a program against a handler gives the result, the list of
        the calls made (in order, with their answers) and the final state
        of the handler. *)
Fixpoint run {W R} (h : handler W) (p : prog R) (w : W) : R * list event * W :=
      match p with
      | Ret r => (r, [], w)
      | Vis e k =>
          let '(x, w1) := h _ e w in
          let '(r, t, w2) := run h (k x) w1 in
          (r, Ev _ e x :: t, w2)
      end.

Definition result_of {W R} (h : handler W) (p : prog R) (w : W) : R := (run h p w).1.1.
Definition trace_of {W R} (h : handler W) (p : prog R) (w : W) : list event := (run h p w).1.2.
Definition world_of {W R} (h : handler W) (p : prog R) (w : W) : W := (run h p w).2.

    (** A program that makes no call of a given kind, whatever the answers
        it gets. *)
Inductive avoids (P : event -> bool) {R} : prog R -> Prop :=
    | avoids_ret r : avoids P (Ret r)
    | avoids_vis X (e : E X) k :
        (forall x, P (Ev _ e x) = false) ->
        (forall x, avoids P (k x)) ->
        avoids P (Vis e k).

  End Defs.
  #[global] Arguments prog : clear implicits.
  #[global] Arguments event : clear implicits.
  #[global] Arguments handler : clear implicits.

  Module Notations.
    Notation "x <- p ;; q" := (bind p (fun x => q))
      (at level 62, p at next level, right associativity).
  End Notations.

End Prog.
Import Prog Prog.Notations.

(** ** Go strings and byte slices *)

Module GoStr.

  (** [s[i:j]] on a Go string (a sequence of bytes). *)
Definition slice (s : string) (i j : nat) : string := substring i (j - i) s.

  (** [s[i:]] *)
Definition slice_from (s : string) (i : nat) : string := substring i (String.length s - i) s.

  (** strings.HasPrefix(s, p) *)
Definition HasPrefix (s p : string) : bool := String.prefix p s.

End GoStr.

(** ** Swift back-end, layout v3: object and container names *)

Module Swift.
  Import GoStr.

Definition swiftV3ContainerPrefix : string := "cozy-v3-".

  (** The container of an instance, as [NewV3] builds it from the prefix of
      the instance's databases. *)
Definition container (dbPrefix : string) : string := swiftV3ContainerPrefix +:+ dbPrefix.

Definition MakeObjectNameV3 (docID internalID : string) : string :=
    if negb (String.length docID =? 32)%nat || negb (String.length internalID =? 16)%nat
    then docID +:+ "/" +:+ internalID
    else slice docID 0 22 +:+ "/" +:+ slice docID 22 27 +:+ "/" +:+ slice_from docID 27
           +:+ "/" +:+ internalID.

  (** The layout that the specification gives for every file document. *)
Definition spec_object_name (docID internalID : string) : string :=
    slice docID 0 22 +:+ "/" +:+ slice docID 22 27 +:+ "/" +:+ slice docID 27 32
      +:+ "/" +:+ internalID.

End Swift.


(** ** Package path of the Go library: the cleaning of slash-separated paths *)

Module Path.

  (** The parts of [s] between slashes; [acc] is the part being read. *)
Fixpoint components (s acc : string) : list string :=
    match s with
    | EmptyString => [acc]
    | String c s' =>
        if Ascii.eqb c "/" then acc :: components s' ""
        else components s' (acc +:+ String c EmptyString)
    end.

  (** path.IsAbs *)
Definition IsAbs (p : string) : bool :=
    match p with
    | String c _ => Ascii.eqb c "/"
    | EmptyString => false
    end.

  (** One element of the path is read; [stack] holds the elements kept so
      far, the last one first. *)
Definition clean_step (rooted : bool) (stack : list string) (c : string) : list string :=
    if String.eqb c "" || String.eqb c "." then stack
    else if String.eqb c ".." then
      match stack with
      | top :: rest => if String.eqb top ".." then c :: stack else rest
      | [] => if rooted then [] else [c]
      end
    else c :: stack.

  (** path.Clean: the shortest path equivalent to [p] by purely lexical
      processing. *)
Definition Clean (p : string) : string :=
    if String.eqb p "" then "."
    else
      let rooted := IsAbs p in
      let kept := rev (fold_left (clean_step rooted) (components p "") []) in
      let body := String.concat "/" kept in
      if rooted then "/" +:+ body
      else if String.eqb body "" then "." else body.

  (** path.Join: the non-empty elements joined with slashes, cleaned. *)
Definition Join (elems : list string) : string :=
    match filter (fun e => e <> "") elems with
    | [] => ""
    | ne => Clean (String.concat "/" ne)
    end.

  (** path.Dir: all but the last element of the path, cleaned. *)
Definition Dir (p : string) : string :=
    match rev (components p "") with
    | _ :: (_ :: _) as front => Clean (String.concat "/" (rev front) +:+ "/")
    | _ => Clean ""
    end.

End Path.

(** ** Documents of the virtual file system *)

Module Vfs.

Definition bytes : Type := list Byte.byte.

#[global] Instance byte_eq_dec : EqDecision Byte.byte := Byte.byte_eq_dec.

  (** A Go byte slice that may be nil. *)
Definition slice_nil : Type := option bytes.

  (** [len(b)] *)
Definition len (b : slice_nil) : nat := length (default [] b).

  (** bytes.Equal: a nil slice equals an empty one. *)
Definition bytes_Equal (a b : slice_nil) : bool :=
    bool_decide (default [] a = default [] b).

Record DocReference : Type := { RefID : string; RefType : string }.

#[global] Instance DocReference_eq_dec : EqDecision DocReference.
  Proof. solve_decision. Defined.

  (** vfs.Metadata, a map from keys to values (kept as text). *)
Definition Metadata : Type := gmap string string.

  (** vfs.FileDoc, with the fields that the embedded code reads or writes.
      [fullpath] is the cached path, emptied by [ResetFullpath]. *)
Record FileDoc : Type := {
    DocID : string;
    DocRev : string;
    DocName : string;
    DirID : string;
    ByteSize : Z;
    MD5Sum : slice_nil;
    Mime : string;
Class : string;
    CreatedAt : Z;
    UpdatedAt : Z;
    Executable : bool;
    Trashed : bool;
    Tags : list string;
    ReferencedBy : list DocReference;
    InternalID : string;
    FileMetadata : Metadata;
    fullpath : string
  }.

#[global] Instance FileDoc_eq_dec : EqDecision FileDoc.
  Proof. solve_decision. Defined.

Definition set_DocID (v : string) (d : FileDoc) : FileDoc :=
    {| DocID := v; DocRev := DocRev d; DocName := DocName d; DirID := DirID d;
       ByteSize := ByteSize d; MD5Sum := MD5Sum d; Mime := Mime d; Class := Class d;
       CreatedAt := CreatedAt d; UpdatedAt := UpdatedAt d; Executable := Executable d;
       Trashed := Trashed d; Tags := Tags d; ReferencedBy := ReferencedBy d;
       InternalID := InternalID d; FileMetadata := FileMetadata d; fullpath := fullpath d |}.

Definition set_DocRev (v : string) (d : FileDoc) : FileDoc :=
    {| DocID := DocID d; DocRev := v; DocName := DocName d; DirID := DirID d;
       ByteSize := ByteSize d; MD5Sum := MD5Sum d; Mime := Mime d; Class := Class d;
       CreatedAt := CreatedAt d; UpdatedAt := UpdatedAt d; Executable := Executable d;
       Trashed := Trashed d; Tags := Tags d; ReferencedBy := ReferencedBy d;
       InternalID := InternalID d; FileMetadata := FileMetadata d; fullpath := fullpath d |}.

Definition set_DocName (v : string) (d : FileDoc) : FileDoc :=
    {| DocID := DocID d; DocRev := DocRev d; DocName := v; DirID := DirID d;
       ByteSize := ByteSize d; MD5Sum := MD5Sum d; Mime := Mime d; Class := Class d;
       CreatedAt := CreatedAt d; UpdatedAt := UpdatedAt d; Executable := Executable d;
       Trashed := Trashed d; Tags := Tags d; ReferencedBy := ReferencedBy d;
       InternalID := InternalID d; FileMetadata := FileMetadata d; fullpath := fullpath d |}.

Definition set_DirID (v : string) (d : FileDoc) : FileDoc :=
    {| DocID := DocID d; DocRev := DocRev d; DocName := DocName d; DirID := v;
       ByteSize := ByteSize d; MD5Sum := MD5Sum d; Mime := Mime d; Class := Class d;
       CreatedAt := CreatedAt d; UpdatedAt := UpdatedAt d; Executable := Executable d;
       Trashed := Trashed d; Tags := Tags d; ReferencedBy := ReferencedBy d;
       InternalID := InternalID d; FileMetadata := FileMetadata d; fullpath := fullpath d |}.

Definition set_ByteSize (v : Z) (d : FileDoc) : FileDoc :=
    {| DocID := DocID d; DocRev := DocRev d; DocName := DocName d; DirID := DirID d;
       ByteSize := v; MD5Sum := MD5Sum d; Mime := Mime d; Class := Class d;
       CreatedAt := CreatedAt d; UpdatedAt := UpdatedAt d; Executable := Executable d;
       Trashed := Trashed d; Tags := Tags d; ReferencedBy := ReferencedBy d;
       InternalID := InternalID d; FileMetadata := FileMetadata d; fullpath := fullpath d |}.

Definition set_MD5Sum (v : slice_nil) (d : FileDoc) : FileDoc :=
    {| DocID := DocID d; DocRev := DocRev d; DocName := DocName d; DirID := DirID d;
       ByteSize := ByteSize d; MD5Sum := v; Mime := Mime d; Class := Class d;
       CreatedAt := CreatedAt d; UpdatedAt := UpdatedAt d; Executable := Executable d;
       Trashed := Trashed d; Tags := Tags d; ReferencedBy := ReferencedBy d;
       InternalID := InternalID d; FileMetadata := FileMetadata d; fullpath := fullpath d |}.

Definition set_CreatedAt (v : Z) (d : FileDoc) : FileDoc :=
    {| DocID := DocID d; DocRev := DocRev d; DocName := DocName d; DirID := DirID d;
       ByteSize := ByteSize d; MD5Sum := MD5Sum d; Mime := Mime d; Class := Class d;
       CreatedAt := v; UpdatedAt := UpdatedAt d; Executable := Executable d;
       Trashed := Trashed d; Tags := Tags d; ReferencedBy := ReferencedBy d;
       InternalID := InternalID d; FileMetadata := FileMetadata d; fullpath := fullpath d |}.

Definition set_ReferencedBy (v : list DocReference) (d : FileDoc) : FileDoc :=
    {| DocID := DocID d; DocRev := DocRev d; DocName := DocName d; DirID := DirID d;
       ByteSize := ByteSize d; MD5Sum := MD5Sum d; Mime := Mime d; Class := Class d;
       CreatedAt := CreatedAt d; UpdatedAt := UpdatedAt d; Executable := Executable d;
       Trashed := Trashed d; Tags := Tags d; ReferencedBy := v;
       InternalID := InternalID d; FileMetadata := FileMetadata d; fullpath := fullpath d |}.

Definition set_InternalID (v : string) (d : FileDoc) : FileDoc :=
    {| DocID := DocID d; DocRev := DocRev d; DocName := DocName d; DirID := DirID d;
       ByteSize := ByteSize d; MD5Sum := MD5Sum d; Mime := Mime d; Class := Class d;
       CreatedAt := CreatedAt d; UpdatedAt := UpdatedAt d; Executable := Executable d;
       Trashed := Trashed d; Tags := Tags d; ReferencedBy := ReferencedBy d;
       InternalID := v; FileMetadata := FileMetadata d; fullpath := fullpath d |}.

Definition set_FileMetadata (v : Metadata) (d : FileDoc) : FileDoc :=
    {| DocID := DocID d; DocRev := DocRev d; DocName := DocName d; DirID := DirID d;
       ByteSize := ByteSize d; MD5Sum := MD5Sum d; Mime := Mime d; Class := Class d;
       CreatedAt := CreatedAt d; UpdatedAt := UpdatedAt d; Executable := Executable d;
       Trashed := Trashed d; Tags := Tags d; ReferencedBy := ReferencedBy d;
       InternalID := InternalID d; FileMetadata := v; fullpath := fullpath d |}.

  (** FileDoc.ResetFullpath *)
Definition ResetFullpath (d : FileDoc) : FileDoc :=
    {| DocID := DocID d; DocRev := DocRev d; DocName := DocName d; DirID := DirID d;
       ByteSize := ByteSize d; MD5Sum := MD5Sum d; Mime := Mime d; Class := Class d;
       CreatedAt := CreatedAt d; UpdatedAt := UpdatedAt d; Executable := Executable d;
       Trashed := Trashed d; Tags := Tags d; ReferencedBy := ReferencedBy d;
       InternalID := InternalID d; FileMetadata := FileMetadata d; fullpath := "" |}.

  (** vfs.DirDoc, reduced to what the embedded code reads. *)
Record DirDoc : Type := { DirDocID : string; DirFullpath : string }.

  (** vfs.Version: the snapshot of an older content of a file; its id is
      the id of the file, a slash, and an internal id. *)
Record Version : Type := { VDocID : string; VByteSize : Z; VMD5Sum : slice_nil }.

Inductive VersionAction : Type := KeepCandidateVersion | CleanCandidateVersion.

End Vfs.
Export Vfs.

(** ** The afero back-end of the VFS: file creation handle, directory rename *)

Module Afero.
  Import GoStr Path.

  (** The collaborators of the back-end: the afero file system [afs.fs], the
      temporary file [f.f] of a creation handle, the metadata extractor
      [f.meta], the lock [afs.mu] of the VFS and its indexer. *)
Variant aferoE : Type -> Type :=
  | FsStat (p : string) : aferoE (option error)
  | FsRename (oldpath newpath : string) : aferoE (option error)
  | FsRemove (p : string) : aferoE (option error)
  | FsMkdirAll (p : string) : aferoE (option error)
  | FWrite (p : bytes) : aferoE (Z * option error)
  | FClose : aferoE (option error)
  | MetaWrite (p : bytes) : aferoE (option error)
  | MetaAbort (e : error) : aferoE unit
  | MetaClose : aferoE (result Metadata)
  | MuLock : aferoE (option error)
  | MuUnlock : aferoE unit
  | IxDirChildExists (dirID name : string) : aferoE (result bool)
  | IxFilePath (doc : FileDoc) : aferoE (result string)
  | IxUpdateFileDoc (olddoc newdoc : FileDoc) : aferoE (result FileDoc)
  | IxCreateFileDoc (newdoc : FileDoc) : aferoE (result FileDoc)
  | IxCreateNamedFileDoc (newdoc : FileDoc) : aferoE (result FileDoc)
  | IxDeleteFileDoc (doc : FileDoc) : aferoE (option error)
  | IxCreateVersion (v : Version) : aferoE (option error)
  | IxDeleteVersion (v : Version) : aferoE (option error)
  | FindVersionsToClean (fileID : string) (v : Version) : aferoE (VersionAction * list Version)
  | PushDiskQuotaAlert : aferoE unit.

  (** io.ErrClosedPipe, which [Write] tolerates from the extractor. *)
Definition ErrClosedPipe : error := Other "io: read/write on closed pipe".

  (** aferoFileCreation: a file open for writing.  [hash] holds the bytes
      that were fed to the MD5 hash so far, [meta] tells whether [f.meta]
      is not nil. *)
Record aferoFileCreation : Type := {
    newdoc : FileDoc;
    olddoc : option FileDoc;
    tmppath : string;
    w : Z;
    size : Z;
    maxsize : Z;
    capsize : Z;
    hash : bytes;
    meta : bool;
    err : option error
  }.

Definition set_w (v : Z) (f : aferoFileCreation) : aferoFileCreation :=
    {| newdoc := newdoc f; olddoc := olddoc f; tmppath := tmppath f; w := v;
       size := size f; maxsize := maxsize f; capsize := capsize f; hash := hash f;
       meta := meta f; err := err f |}.

Definition set_hash (v : bytes) (f : aferoFileCreation) : aferoFileCreation :=
    {| newdoc := newdoc f; olddoc := olddoc f; tmppath := tmppath f; w := w f;
       size := size f; maxsize := maxsize f; capsize := capsize f; hash := v;
       meta := meta f; err := err f |}.

Definition set_meta (v : bool) (f : aferoFileCreation) : aferoFileCreation :=
    {| newdoc := newdoc f; olddoc := olddoc f; tmppath := tmppath f; w := w f;
       size := size f; maxsize := maxsize f; capsize := capsize f; hash := hash f;
       meta := v; err := err f |}.

Definition set_err (v : option error) (f : aferoFileCreation) : aferoFileCreation :=
    {| newdoc := newdoc f; olddoc := olddoc f; tmppath := tmppath f; w := w f;
       size := size f; maxsize := maxsize f; capsize := capsize f; hash := hash f;
       meta := meta f; err := v |}.

  Section Impl.
    (** crypto/md5 of the Go library. *)
    Variable md5 : bytes -> bytes.
    (** The constants vfs.TrashDirName and vfs.VersionsDirName. *)
    Variable TrashDirName VersionsDirName : string.
    (** vfs.NewVersion *)
    Variable NewVersion : FileDoc -> Version.
    (** How two metadata maps are merged. *)
    Variable merge_meta : Metadata -> Metadata -> Metadata.

    (** Modelled from the spec: vfs.MergeMetadata, which is not part of the
        sources at hand.  The create-file protocol feeds "a metadata
        extractor (content type sniffing, image dimensions, etc.)"; what it
        extracts is merged into the metadata of the document, the other
        fields are left as they are. *)
Definition MergeMetadata (doc : FileDoc) (m : Metadata) : FileDoc :=
      set_FileMetadata (merge_meta (FileMetadata doc) m) doc.

Definition Write (f : aferoFileCreation) (p : bytes)
      : prog aferoE (aferoFileCreation * (Z * option error)) :=
      f1 <- (if meta f then
               r <- call (MetaWrite p) ;;
               match r with
               | Some e =>
                   if negb (bool_decide (e = ErrClosedPipe)) then
                     _ <- call (MetaAbort e) ;; Ret (set_meta false f)
                   else Ret f
               | None => Ret f
               end
             else Ret f) ;;
      r <- call (FWrite p) ;;
      let n := r.1 in
      match r.2 with
      | Some e => Ret (set_err (Some e) f1, (n, Some e))
      | None =>
          let f2 := set_w (w f1 + n) f1 in
          if (maxsize f2 >=? 0) && (w f2 >? maxsize f2) then
            Ret (set_err (Some ErrFileTooBig) f2, (n, Some ErrFileTooBig))
          else if (size f2 >=? 0) && (w f2 >? size f2) then
            Ret (set_err (Some ErrContentLengthMismatch) f2, (n, Some ErrContentLengthMismatch))
          else
            Ret (set_hash (hash f2 ++ p) f2, (n, None))
      end.

Definition pathForVersions (fileID : string) : string :=
      Join [VersionsDirName; slice fileID 0 4; slice_from fileID 4].

    (** strings.SplitN(s, "/", 2) *)
Fixpoint SplitN2 (s acc : string) : list string :=
      match s with
      | EmptyString => [acc]
      | String c s' =>
          if Ascii.eqb c "/" then [acc; s']
          else SplitN2 s' (acc +:+ String c EmptyString)
      end.

Definition pathForVersion (v : Version) : string :=
      match SplitN2 (VDocID v) "" with
      | fileID :: versionID :: _ => Join [pathForVersions fileID; versionID]
      | fileID :: [] => Join [pathForVersions fileID; fileID]
      | [] => ""
      end.

Definition cleanOldVersion (version : Version) : prog aferoE (option error) :=
      r <- call (IxDeleteVersion version) ;;
      match r with
      | Some e => Ret (Some e)
      | None => call (FsRemove (pathForVersion version))
      end.

Fixpoint cleanOldVersions (toClean : list Version) : prog aferoE unit :=
      match toClean with
      | [] => Ret tt
      | old :: rest => _ <- cleanOldVersion old ;; cleanOldVersions rest
      end.

    (** The part of [Close] that runs with the lock of the VFS taken. *)
Definition Close_locked (f : aferoFileCreation) (nd : FileDoc)
      : prog aferoE (FileDoc * option error) :=
      r0 <- (match olddoc f with
             | None =>
                 ex <- call (IxDirChildExists (DirID nd) (DocName nd)) ;;
                 match ex with
                 | Error e => Ret (Some e)
                 | Ok true => Ret (Some ErrExist)
                 | Ok false => Ret None
                 end
             | Some _ => Ret None
             end) ;;
      match r0 with
      | Some e => Ret (nd, Some e)
      | None =>
      rp <- call (IxFilePath nd) ;;
      match rp with
      | Error e => Ret (nd, Some e)
      | Ok newpath =>
      if HasPrefix newpath (TrashDirName +:+ "/") then Ret (nd, Some ErrParentInTrash)
      else
      let v := (fun od => (od, NewVersion od)) <$> olddoc f in
      ri <- (match olddoc f with
             | Some od => call (IxUpdateFileDoc od nd)
             | None =>
                 if String.eqb (DocID nd) "" then call (IxCreateFileDoc nd)
                 else call (IxCreateNamedFileDoc nd)
             end) ;;
      match ri with
      | Error e => Ret (nd, Some e)
      | Ok nd' =>
      v1 <- (match v with
             | Some (od, ver) =>
                 _ <- call (FsMkdirAll (Dir (pathForVersion ver))) ;;
                 rr <- call (FsRename newpath (pathForVersion ver)) ;;
                 Ret (match rr with Some _ => None | None => Some (od, ver) end)
             | None => Ret None
             end) ;;
      rt <- call (FsRename (tmppath f) newpath) ;;
      match rt with
      | Some e =>
          _ <- (match v1 with
                | Some (_, ver) => _ <- call (FsRename (pathForVersion ver) newpath) ;; Ret tt
                | None => Ret tt
                end) ;;
          Ret (nd', Some e)
      | None =>
          _ <- (match v1 with
                | Some (od, ver) =>
                    r <- call (FindVersionsToClean (DocID nd') ver) ;;
                    let actionV :=
                      if bytes_Equal (MD5Sum nd') (MD5Sum od) then CleanCandidateVersion
                      else r.1 in
                    actionV <- (match actionV with
                                | KeepCandidateVersion =>
                                    errv <- call (IxCreateVersion ver) ;;
                                    Ret (match errv with
                                         | Some _ => CleanCandidateVersion
                                         | None => KeepCandidateVersion
                                         end)
                                | CleanCandidateVersion => Ret CleanCandidateVersion
                                end) ;;
                    _ <- (match actionV with
                          | CleanCandidateVersion =>
                              _ <- call (FsRemove (pathForVersion ver)) ;; Ret tt
                          | KeepCandidateVersion => Ret tt
                          end) ;;
                    cleanOldVersions r.2
                | None => Ret tt
                end) ;;
          _ <- (if (capsize f >? 0) && (size f >=? capsize f)
                then call PushDiskQuotaAlert else Ret tt) ;;
          Ret (nd', None)
      end end end end.

    (** The checks of [Close] on the hash and on the size, followed by the
        locked part; [nd1] is the new document once the extracted metadata
        are merged. *)
Definition Close_checks (f : aferoFileCreation) (nd1 : FileDoc)
      : prog aferoE (FileDoc * option error) :=
      let written := w f in
      let md5sum := md5 (hash f) in
      let nd2 := match MD5Sum nd1 with
                 | None => set_MD5Sum (Some md5sum) nd1
                 | Some _ => nd1
                 end in
      if negb (bytes_Equal (MD5Sum nd2) (Some md5sum)) then Ret (nd2, Some ErrInvalidHash)
      else
        let nd3 := if size f <? 0 then set_ByteSize written nd2 else nd2 in
        if negb (ByteSize nd3 =? written) then Ret (nd3, Some ErrContentLengthMismatch)
        else
          lockerr <- call MuLock ;;
          match lockerr with
          | Some e => Ret (nd3, Some e)
          | None =>
              r <- Close_locked f nd3 ;;
              _ <- call MuUnlock ;;
              Ret r
          end.

    (** [Close] up to the deferred clean-up: the temporary file and the
        extractor are closed, an error of a write or of the close is
        returned, then come the checks. *)
Definition Close_body (f : aferoFileCreation) : prog aferoE (FileDoc * option error) :=
      cerr <- call FClose ;;
      _ <- (match cerr with
            | Some e => if meta f then call (MetaAbort e) else Ret tt
            | None => Ret tt
            end) ;;
      let ferr := match cerr, err f with
                  | Some e, None => Some e
                  | _, o => o
                  end in
      nd1 <- (if meta f then
                r <- call MetaClose ;;
                match r with
                | Ok m => Ret (MergeMetadata (newdoc f) m)
                | Error _ => Ret (newdoc f)
                end
              else Ret (newdoc f)) ;;
      match ferr with
      | Some e => Ret (nd1, Some e)
      | None => Close_checks f nd1
      end.

    (** The deferred function of [Close]: it sees the error that [Close]
        is about to return. *)
Definition Close_deferred (f : aferoFileCreation) (r : FileDoc * option error)
      : prog aferoE (FileDoc * option error) :=
      match r.2 with
      | Some e =>
          _ <- call (FsRemove (tmppath f)) ;;
          match olddoc f with
          | None =>
              if negb (IsCouchError e) then
                _ <- call (IxDeleteFileDoc r.1) ;; Ret r
              else Ret r
          | Some _ => Ret r
          end
      | None => Ret r
      end.

    (** aferoFileCreation.Close; the result is the new document as the
        handle leaves it, and the error. *)
Definition Close (f : aferoFileCreation) : prog aferoE (FileDoc * option error) :=
      r <- Close_body f ;; Close_deferred f r.

Definition safeRenameDir (oldpath newpath : string) : prog aferoE (option error) :=
      let newpath := Clean newpath in
      let oldpath := Clean oldpath in
      if negb (IsAbs newpath) || negb (IsAbs oldpath) then Ret (Some ErrNonAbsolutePath)
      else if HasPrefix newpath (oldpath +:+ "/") then Ret (Some ErrForbiddenDocMove)
      else
        err <- call (FsStat newpath) ;;
        match err with
        | None => Ret (Some ErrExist)
        | Some e =>
            if negb (bool_decide (e = ErrNotExist)) then Ret (Some e)
            else call (FsRename oldpath newpath)
        end.

  End Impl.

  (** The events of a trace that a predicate on calls selects. *)
Definition is_rename (ev : event aferoE) : bool :=
    match ev_call ev with FsRename _ _ => true | _ => false end.

Definition is_remove_of (p : string) (ev : event aferoE) : bool :=
    match ev_call ev with FsRemove q => String.eqb p q | _ => false end.

Definition is_delete_doc (ev : event aferoE) : bool :=
    match ev_call ev with IxDeleteFileDoc _ => true | _ => false end.

Definition is_delete_of (d : FileDoc) (ev : event aferoE) : bool :=
    match ev_call ev with IxDeleteFileDoc d' => bool_decide (d = d') | _ => false end.

End Afero.

(** ** Package sharing: data *)

Module SharingData.

  (** The names of the doctypes (package consts). *)
Definition consts_Files : string := "io.cozy.files".
Definition consts_Shared : string := "io.cozy.shared".
Definition consts_Sharings : string := "io.cozy.sharings".

  (** The [_revisions] of a CouchDB document: a start generation and the
      bodies of the revisions. *)
Record RevsStruct : Type := { RevsStart : Z; RevsIDs : list string }.

  (** A tree of revisions: a revision and the revisions that follow it. *)
Inductive RevsTree : Type :=
  | RevNode (rev : string) (branches : list RevsTree).

  (** Modelled from the spec: RevsTree.Find, which is not part of the
      sources at hand: "Find(tree, rev) -> subtree | nil", the sub-tree
      whose root is the revision, looked for in depth first. *)
Fixpoint Find (rt : RevsTree) (rev : string) : option RevsTree :=
    match rt with
    | RevNode r branches =>
        if String.eqb r rev then Some rt
        else
          (fix find_in (l : list RevsTree) : option RevsTree :=
             match l with
             | [] => None
             | b :: l' =>
                 match Find b rev with
                 | Some sub => Some sub
                 | None => find_in l'
                 end
             end) branches
    end.

Record SharedInfo : Type := {
    InfoRule : Z;
    Binary : bool;
    Removed : bool;
    Dissociated : bool
  }.

  (** The entry of a document in io.cozy.shared.  A stored entry has a
      tree of revisions; [SharedRevisions] is [None] for the fresh entry
      that [UploadNewFile] builds. *)
Record SharedRef : Type := {
    SharedSID : string;
    SharedRevisions : option RevsTree;
    Infos : gmap string SharedInfo
  }.

Definition set_SharedSID (v : string) (r : SharedRef) : SharedRef :=
    {| SharedSID := v; SharedRevisions := SharedRevisions r; Infos := Infos r |}.

Definition set_Infos (v : gmap string SharedInfo) (r : SharedRef) : SharedRef :=
    {| SharedSID := SharedSID r; SharedRevisions := SharedRevisions r; Infos := v |}.

  (** [ref.Revisions.Find(rev)] *)
Definition FindRev (r : SharedRef) (rev : string) : option RevsTree :=
    match SharedRevisions r with
    | Some rt => Find rt rev
    | None => None
    end.

Record Rule : Type := {
    RuleTitle : string;
    RuleDocType : string;
    RuleMime : string;
    RuleSelector : string;
    RuleValues : list string;
    RuleLocal : bool
  }.

Inductive MemberStatus : Type :=
  | MemberStatusOwner | MemberStatusMailNotSent | MemberStatusPendingInvitation
  | MemberStatusSeen | MemberStatusReady | MemberStatusRevoked.

Record Member : Type := {
    MemberStatusOf : MemberStatus;
    MemberName : string;
    MemberEmail : string;
    MemberInstance : string;
    MemberReadOnly : bool
  }.

Definition set_MemberStatus (v : MemberStatus) (m : Member) : Member :=
    {| MemberStatusOf := v; MemberName := MemberName m; MemberEmail := MemberEmail m;
       MemberInstance := MemberInstance m; MemberReadOnly := MemberReadOnly m |}.

  (** The credentials for a peer; [AccessToken] is [None] when the pointer
      to the access token is nil. *)
Record Credentials : Type := {
    XorKey : bytes;
    InboundClientID : string;
    AccessToken : option string
  }.

Record Triggers : Type := {
    TrackID : string;
    TrackIDs : list string;
    ReplicateID : string;
    UploadID : string
  }.

Definition no_triggers : Triggers :=
    {| TrackID := ""; TrackIDs := []; ReplicateID := ""; UploadID := "" |}.

Record Sharing : Type := {
    SID : string;
    SRev : string;
    SharingTriggers : Triggers;
    Active : bool;
    Owner : bool;
    NbFiles : Z;
    Rules : list Rule;
    Members : list Member;
    SharingCredentials : list Credentials
  }.

  (** The payload for synchronizing a file: the document and its
      revisions. *)
Record FileDocWithRevisions : Type := {
    TargetDoc :> FileDoc;
    Revisions : RevsStruct
  }.

Record bulkRevs : Type := { BulkRev : string; BulkRevisions : RevsStruct }.

  (** The indexer that the VFS uses for a document received from a peer:
      the revisions to force, and the shared entry to update. *)
Record sharingIndexer : Type := {
    ixBulkRevs : option bulkRevs;
    ixShared : option SharedRef
  }.

Definition newSharingIndexer (b : bulkRevs) (ref : option SharedRef) : sharingIndexer :=
    {| ixBulkRevs := Some b; ixShared := ref |}.

Inductive conflictStatus : Type := NoConflict | LostConflict | WonConflict.

  (** Values read from JSON. *)
Inductive json : Type :=
  | JNull
  | JBool (b : bool)
  | JNum (n : Z)
  | JStr (s : string)
  | JList (l : list json).

  (** A document as CouchDB gives it: a map from the names of the fields. *)
Definition JSONMap : Type := gmap string json.

Record URL : Type := { Scheme : string; Host : string }.

  (** A file open for writing in the VFS, and a stream to read from. *)
Record File : Type := { file_fd : nat }.
Record Reader : Type := { reader_fd : nat }.

Inductive ReqBody : Type :=
  | BodyBytes (b : bytes)
  | BodyReader (r : Reader).

  (** request.Options *)
Record Options : Type := {
    ReqMethod : string;
    ReqScheme : string;
    ReqDomain : string;
    ReqPath : string;
    ReqQueries : list (string * string);
    ReqHeaders : list (string * string);
    ReqBodyOf : ReqBody
  }.

  (** An HTTP response: its status, and a name for its body. *)
Record Response : Type := { StatusCode : Z; ResBody : nat }.

  (** The functions of the package, and of the Go library, that the
      embedded code calls and that do not talk to a collaborator. *)
Class Helpers : Type := {
    detectConflict : string -> list string -> conflictStatus;
    revsStructToChain : RevsStruct -> list string;
    revsChainToStruct : list string -> RevsStruct;
    conflictID : string -> string -> string;
    copySafeFieldsToFile : FileDoc -> FileDoc -> FileDoc;
    buildReferencedBy : FileDoc -> option FileDoc -> Rule -> list DocReference;
    findRuleForNewFile : Sharing -> FileDoc -> option (Rule * Z);
    hasExplicitRuleForFile : Sharing -> FileDoc -> bool;
    WillResolveConflict : sharingIndexer -> string -> list string -> sharingIndexer;
    IncrementRevision : sharingIndexer -> sharingIndexer;
    StashRevision : sharingIndexer -> bool -> string * sharingIndexer;
    UnstashRevision : sharingIndexer -> string -> sharingIndexer;
    NewFileDoc : string -> string -> Z -> slice_nil -> string -> string -> Z ->
                 bool -> bool -> bool -> list string -> result FileDoc;
    FindCredentials : Sharing -> Member -> option Credentials;
    url_Parse : string -> result URL;
    TransformFileToSent : Sharing -> JSONMap -> bytes -> Z -> JSONMap;
    json_Marshal : JSONMap -> result bytes;
    ContextualDomain : string;
    FirstFilesRule : Sharing -> option Rule;
    FirstBitwardenOrganizationRule : Sharing -> option Rule
  }.

End SharingData.
Export SharingData.

(** ** Package sharing: the upload of files (receiving side, and sender) *)

Module Upload.

  (** The collaborators: the locks, the VFS of the instance (with the
      indexer it is used with, for the calls that write), CouchDB, the store
      of upload keys, the other parts of the sharing, and the peer. *)
Variant upE : Type -> Type :=
  | Lock (name : string) : upE (option error)
  | Unlock (name : string) : upE unit
  | FileByID (id : string) : upE (result FileDoc)
  | DirByID (id : string) : upE (result DirDoc)
  | GetShared (sid : string) : upE (result SharedRef)
  | GetFileJSON (id : string) : upE (option error)
  | StoreSave (target : FileDocWithRevisions) : upE (result string)
  | StoreGet (key : string) : upE (result (option FileDocWithRevisions))
  | GetSharingDir : upE (result DirDoc)
  | recreateParent (dirID : string) : upE (result DirDoc)
  | cleanShortcutID : upE string
  | EnsureSharedWithMeDir : upE (result DirDoc)
  | DocPath (doc : FileDoc) : upE (result string)
  | resolveConflictSamePath (id pth : string) : upE (result string)
  | conflictName (ix : sharingIndexer) (dirID name : string) (isFile : bool) : upE string
  | CreateFile (ix : sharingIndexer) (newdoc : FileDoc) (olddoc : option FileDoc)
    : upE (result File)
  | UpdateFileDoc (ix : sharingIndexer) (olddoc newdoc : FileDoc) : upE (option error)
  | OpenFile (doc : FileDoc) : upE (result Reader)
  | IoCopy (dst : File) (src : Reader) : upE (option error)
    (** [FileClose] answers with the error of [Close] and with the document
        that the handle holds, as the VFS leaves it (its revision and its
        internal id are written by the VFS). *)
  | FileClose (f : File) : upE (FileDoc * option error)
  | ReaderClose (r : Reader) : upE unit
  | countReceivedFiles : upE unit
  | HttpReq (opts : Options) : upE (option Response * option error)
  | RefreshToken (err : option error) (m : Member) (creds : Credentials)
                 (opts : Options) (body : bytes) : upE (option Response * option error)
  | DecodeKey (res : Response) : upE (result string)
  | ResBodyClose (res : Response) : upE unit.

  Section Impl.
    Context {H : Helpers}.

Definition nil_deref : error := GoPanic "invalid memory address or nil pointer dereference".
Definition out_of_range : error := GoPanic "index out of range".
Definition bad_assertion : error := GoPanic "interface conversion".

    (** The zero value of [SharedInfo], which a Go map gives for a key
        that it does not hold. *)
Definition zero_info : SharedInfo :=
      {| InfoRule := 0; Binary := false; Removed := false; Dissociated := false |}.

    (** [l[i]] for a Go int [i]. *)
Definition index {A} (l : list A) (i : Z) : option A :=
      if i <? 0 then None else l !! Z.to_nat i.

    (** The error of [copyFileContent]: the error of the copy, or else
        the error of the close. *)
Definition copyError (err cerr : option error) : option error :=
      match cerr, err with
      | Some c, None => Some c
      | _, _ => err
      end.

    (** copyFileContent: it copies the body to the file and closes the
        file. *)
Definition copyFileContent (file : File) (body : Reader) : prog upE (FileDoc * option error) :=
      err <- call (IoCopy file body) ;;
      c <- call (FileClose file) ;;
      Ret (c.1, copyError err c.2).

Definition createUploadKey (target : FileDocWithRevisions)
      : prog upE (option string * option error) :=
      r <- call (StoreSave target) ;;
      match r with
      | Error e => Ret (None, Some e)
      | Ok key => Ret (Some key, None)
      end.

    (** prepareFileWithAncestors; the document comes back with the parent
        directory that was found or recreated. *)
Definition prepareFileWithAncestors (s : Sharing) (newdoc : FileDoc) (dirID : string)
      : prog upE (FileDoc * option error) :=
      if hasExplicitRuleForFile s newdoc then Ret (newdoc, None)
      else if String.eqb dirID "" then
        r <- call GetSharingDir ;;
        match r with
        | Error e => Ret (newdoc, Some e)
        | Ok parent => Ret (set_DirID (DirDocID parent) newdoc, None)
        end
      else if negb (String.eqb dirID (DirID newdoc)) then
        r <- call (DirByID dirID) ;;
        r' <- (match r with
               | Error e => if bool_decide (e = ErrNotExist) then call (recreateParent dirID)
                            else Ret r
               | Ok _ => Ret r
               end) ;;
        match r' with
        | Error e => Ret (newdoc, Some e)
        | Ok parent => Ret (set_DirID (DirDocID parent) newdoc, None)
        end
      else Ret (newdoc, None).

    (** The second try of [UpdateFileDoc] when the first one found another
        file with the same path. *)
Definition updateAfterExist (indexer : sharingIndexer) (olddoc newdoc : FileDoc)
      : prog upE (option error) :=
      rp <- call (DocPath newdoc) ;;
      match rp with
      | Error errp => Ret (Some errp)
      | Ok pth =>
          rn <- call (resolveConflictSamePath (DocID newdoc) pth) ;;
          match rn with
          | Error errr => Ret (Some errr)
          | Ok name =>
              if negb (String.eqb name "") then
                call (UpdateFileDoc (IncrementRevision indexer) olddoc
                        (ResetFullpath (set_DocName name newdoc)))
              else call (UpdateFileDoc indexer olddoc newdoc)
          end
      end.

Definition updateFileMetadata (s : Sharing) (target : FileDocWithRevisions)
               (newdoc : FileDoc) (ref : SharedRef) : prog upE (option error) :=
      let indexer := newSharingIndexer
                       {| BulkRev := DocRev target; BulkRevisions := Revisions target |}
                       (Some ref) in
      let chain := revsStructToChain (Revisions target) in
      let conflict := detectConflict (DocRev newdoc) chain in
      match conflict with
      | LostConflict => Ret None
      | _ =>
          let indexer := match conflict with
                         | WonConflict => WillResolveConflict indexer (DocRev newdoc) chain
                         | _ => indexer
                         end in
          let olddoc := newdoc in
          let newdoc := set_DocName (DocName target) newdoc in
          rp <- prepareFileWithAncestors s newdoc (DirID target) ;;
          match rp.2 with
          | Some e => Ret (Some e)
          | None =>
              let newdoc := ResetFullpath rp.1 in
              let newdoc := copySafeFieldsToFile target newdoc in
              let infos := default zero_info (Infos ref !! SID s) in
              match index (Rules s) (InfoRule infos) with
              | None => Ret (Some out_of_range)
              | Some rule =>
                  let newdoc :=
                    set_ReferencedBy (buildReferencedBy target (Some newdoc) rule) newdoc in
                  err <- call (UpdateFileDoc indexer olddoc newdoc) ;;
                  if bool_decide (err = Some ErrExist) then updateAfterExist indexer olddoc newdoc
                  else Ret err
              end
          end
      end.

    (** The part of [SyncFile] that runs with the lock of the file taken. *)
Definition SyncFile_locked (s : Sharing) (target : FileDocWithRevisions) (sid : string)
      : prog upE (option string * option error) :=
      rc <- call (FileByID (DocID target)) ;;
      match rc with
      | Error e =>
          if bool_decide (e = ErrNotExist) then
            match findRuleForNewFile s target with
            | None => Ret (None, Some ErrSafety)
            | Some _ => createUploadKey target
            end
          else Ret (None, Some e)
      | Ok current =>
          rr <- call (GetShared sid) ;;
          match rr with
          | Error e =>
              if IsNotFoundError e then Ret (None, Some ErrSafety) else Ret (None, Some e)
          | Ok ref =>
              match Infos ref !! SID s with
              | None => Ret (None, Some ErrSafety)
              | Some infos =>
                  if Removed infos && negb (Dissociated infos) then Ret (None, Some ErrSafety)
                  else
                    match FindRev ref (DocRev target) with
                    | Some _ => Ret (None, None)
                    | None =>
                        if negb (bytes_Equal (MD5Sum target) (MD5Sum current)) then
                          createUploadKey target
                        else
                          e <- updateFileMetadata s target current ref ;; Ret (None, e)
                    end
              end
          end
      end.

    (** SyncFile: the key to upload the content to, if there is one, and
        the error. *)
Definition SyncFile (s : Sharing) (target : FileDocWithRevisions)
      : prog upE (option string * option error) :=
      if (len (MD5Sum target) =? 0)%nat then Ret (None, Some ErrInvalidHash)
      else
        let sid := consts_Files +:+ "/" +:+ DocID target in
        lockerr <- call (Lock ("shared/" +:+ sid)) ;;
        match lockerr with
        | Some e => Ret (None, Some e)
        | None =>
            r <- SyncFile_locked s target sid ;;
            _ <- call (Unlock ("shared/" +:+ sid)) ;;
            Ret r
        end.

    (** uploadLostConflict: the uploaded content goes to a new file. *)
Definition uploadLostConflict (s : Sharing) (target : FileDocWithRevisions)
               (newdoc : FileDoc) (body : Reader) : prog upE (option error) :=
      let rev := DocRev target in
      let indexer := newSharingIndexer
                       {| BulkRev := rev; BulkRevisions := revsChainToStruct [rev] |} None in
      let newdoc := set_DocID (conflictID (DocID newdoc) rev) newdoc in
      r <- call (FileByID (DocID newdoc)) ;;
      match r with
      | Ok _ => _ <- call (ReaderClose body) ;; Ret None
      | Error e =>
          if negb (bool_decide (e = ErrNotExist)) then Ret (Some e)
          else
            name <- call (conflictName indexer (DirID newdoc) (DocName newdoc) true) ;;
            let newdoc := ResetFullpath (set_DocRev "" (set_DocName name newdoc)) in
            rf <- call (CreateFile indexer newdoc None) ;;
            match rf with
            | Error e => Ret (Some e)
            | Ok file => c <- copyFileContent file body ;; Ret c.2
            end
      end.

    (** uploadWonConflict: the existing file is copied to a new file. *)
Definition uploadWonConflict (s : Sharing) (src : FileDoc) : prog upE (option error) :=
      let rev := DocRev src in
      let indexer := newSharingIndexer
                       {| BulkRev := rev; BulkRevisions := revsChainToStruct [rev] |} None in
      let dst := set_DocID (conflictID (DocID src) rev) src in
      r <- call (FileByID (DocID dst)) ;;
      match r with
      | Ok _ => Ret None
      | Error e =>
          if negb (bool_decide (e = ErrNotExist)) then Ret (Some e)
          else
            name <- call (conflictName indexer (DirID dst) (DocName dst) true) ;;
            let dst := ResetFullpath (set_DocName name dst) in
            rc <- call (OpenFile src) ;;
            match rc with
            | Error e => Ret (Some e)
            | Ok content =>
                rf <- call (CreateFile indexer dst None) ;;
                r <- (match rf with
                      | Error e => Ret (Some e)
                      | Ok file => c <- copyFileContent file content ;; Ret c.2
                      end) ;;
                _ <- call (ReaderClose content) ;;
                Ret r
            end
      end.

    (** The end of [UploadExistingFile], when the name or the directory has
        changed: the content is written first, then the file is renamed. *)
Definition uploadThenRename (indexer : sharingIndexer) (olddoc newdoc : FileDoc)
               (body : Reader) : prog upE (option error) :=
      let st := StashRevision indexer false in
      let stash := st.1 in
      let indexer := st.2 in
      let tmpdoc := ResetFullpath (set_DirID (DirID olddoc) (set_DocName (DocName olddoc) newdoc)) in
      rf <- call (CreateFile indexer tmpdoc (Some olddoc)) ;;
      match rf with
      | Error e => Ret (Some e)
      | Ok file =>
          c <- copyFileContent file body ;;
          match c.2 with
          | Some e => Ret (Some e)
          | None =>
              let tmpdoc := c.1 in
              let indexer := UnstashRevision indexer stash in
              let newdoc := set_InternalID (InternalID tmpdoc) (set_DocRev (DocRev tmpdoc) newdoc) in
              err <- call (UpdateFileDoc indexer tmpdoc newdoc) ;;
              if bool_decide (err = Some ErrExist) then updateAfterExist indexer tmpdoc newdoc
              else Ret err
          end
      end.

    (** The end of [UploadExistingFile]: the content is written to the
        file, in one step when the name and the directory are the same
        (the easy case), else before the file is renamed. *)
Definition acceptContent (indexer : sharingIndexer) (olddoc newdoc : FileDoc)
               (body : Reader) : prog upE (option error) :=
      if String.eqb (DocName newdoc) (DocName olddoc)
         && String.eqb (DirID newdoc) (DirID olddoc)
      then
        rf <- call (CreateFile indexer newdoc (Some olddoc)) ;;
        match rf with
        | Error errf => Ret (Some errf)
        | Ok file => c <- copyFileContent file body ;; Ret c.2
        end
      else uploadThenRename indexer olddoc newdoc body.

    (** The document that [UploadExistingFile] builds from the local file
        and the target, before it looks for the parent directory. *)
Definition mergedDoc (target : FileDocWithRevisions) (current : FileDoc) (rule : Rule)
      : FileDoc :=
      set_DocName (DocName target)
        (copySafeFieldsToFile target
           (set_ReferencedBy (buildReferencedBy target (Some current) rule) current)).

    (** The same document once the parent directory [dirID] is known;
        the size and the hash of the target are declared on it. *)
Definition declaredDoc (target : FileDocWithRevisions) (prepared : FileDoc) : FileDoc :=
      set_MD5Sum (MD5Sum target) (set_ByteSize (ByteSize target) (ResetFullpath prepared)).

    (** What [UploadExistingFile] does once the new document is ready: it
        looks for a conflict between the revision of the local file and
        the revisions of the target, and applies the upload. *)
Definition applyUpload (s : Sharing) (target : FileDocWithRevisions)
               (indexer : sharingIndexer) (olddoc newdoc : FileDoc) (body : Reader)
      : prog upE (option error) :=
      let chain := revsStructToChain (Revisions target) in
      let conflict := detectConflict (DocRev newdoc) chain in
      match conflict with
      | LostConflict => uploadLostConflict s target newdoc body
      | _ =>
          rw <- (match conflict with
                 | WonConflict => uploadWonConflict s olddoc
                 | _ => Ret None
                 end) ;;
          match rw with
          | Some e => Ret (Some e)
          | None =>
              acceptContent (WillResolveConflict indexer (DocRev newdoc) chain)
                olddoc newdoc body
          end
      end.

    (** UploadExistingFile: new content is received for an existing file. *)
Definition UploadExistingFile (s : Sharing) (target : FileDocWithRevisions)
               (newdoc : FileDoc) (body : Reader) : prog upE (option error) :=
      rr <- call (GetShared (consts_Files +:+ "/" +:+ DocID target)) ;;
      match rr with
      | Error e => if IsNotFoundError e then Ret (Some ErrSafety) else Ret (Some e)
      | Ok ref =>
          let indexer := newSharingIndexer
                           {| BulkRev := DocRev target; BulkRevisions := Revisions target |}
                           (Some ref) in
          let olddoc := newdoc in
          match Infos ref !! SID s with
          | None => Ret (Some ErrSafety)
          | Some infos =>
          if Removed infos && negb (Dissociated infos) then Ret (Some ErrSafety)
          else
          match index (Rules s) (InfoRule infos) with
          | None => Ret (Some out_of_range)
          | Some rule =>
          rp <- prepareFileWithAncestors s (mergedDoc target newdoc rule) (DirID target) ;;
          match rp.2 with
          | Some e => Ret (Some e)
          | None =>
              applyUpload s target indexer olddoc (declaredDoc target rp.1) body
          end end end
      end.

    (** The second try of [CreateFile] in [UploadNewFile], when the first
        one found another file with the same path. *)
Definition createAfterExist (indexer : sharingIndexer) (newdoc : FileDoc)
      : prog upE (result File) :=
      rp <- call (DocPath newdoc) ;;
      match rp with
      | Error errp => Ret (Error errp)
      | Ok pth =>
          rn <- call (resolveConflictSamePath (DocID newdoc) pth) ;;
          match rn with
          | Error errr => Ret (Error errr)
          | Ok name =>
              if negb (String.eqb name "") then
                call (CreateFile (IncrementRevision indexer)
                        (ResetFullpath (set_DocName name newdoc)) None)
              else call (CreateFile indexer newdoc None)
          end
      end.

    (** The parent directory of a new file, and whether the file must be
        referenced by the sharing. *)
Definition parentOfNewFile (s : Sharing) (target : FileDocWithRevisions) (rule : Rule)
      : prog upE (result DirDoc * bool) :=
      if negb (String.eqb (DirID target) "") then
        r <- call (DirByID (DirID target)) ;;
        r' <- (match r with
               | Error e => if bool_decide (e = ErrNotExist)
                            then call (recreateParent (DirID target)) else Ret r
               | Ok _ => Ret r
               end) ;;
        Ret (r', false)
      else
        match RuleValues rule with
        | [] => Ret (Error out_of_range, false)
        | v0 :: _ =>
            if String.eqb (DocID target) v0 then
              parentID <- call cleanShortcutID ;;
              r <- (if negb (String.eqb parentID "") then call (DirByID parentID)
                    else call EnsureSharedWithMeDir) ;;
              Ret (r, true)
            else
              r <- call GetSharingDir ;; Ret (r, false)
        end.

    (** UploadNewFile: a new file is received. *)
Definition UploadNewFile (s : Sharing) (target : FileDocWithRevisions) (body : Reader)
      : prog upE (option error) :=
      let ref := {| SharedSID := ""; SharedRevisions := None; Infos := ∅ |} in
      let bulk := {| BulkRev := DocRev target; BulkRevisions := Revisions target |} in
      match findRuleForNewFile s target with
      | None => Ret (Some ErrSafety)
      | Some (rule, ruleIndex) =>
          pr <- parentOfNewFile s target rule ;;
          match pr.1 with
          | Error e => Ret (Some e)
          | Ok parent =>
              let addReferencedBy := pr.2 in
              fake <- call (GetFileJSON (DocID target)) ;;
              let incr := match fake with Some e => IsDeletedError e | None => false end in
              match NewFileDoc (DocName target) (DirDocID parent) (ByteSize target)
                      (MD5Sum target) (Mime target) (Class target) (CreatedAt target)
                      (Executable target) false false (Tags target) with
              | Error e => Ret (Some e)
              | Ok newdoc =>
                  let newdoc := set_DocID (DocID target) newdoc in
                  let ref := set_SharedSID (consts_Files +:+ "/" +:+ DocID newdoc) ref in
                  let newdoc := copySafeFieldsToFile target newdoc in
                  let ref := set_Infos
                               (<[SID s := {| InfoRule := ruleIndex; Binary := true;
                                              Removed := false; Dissociated := false |}]>
                                  (Infos ref)) ref in
                  let newdoc := set_ReferencedBy (buildReferencedBy target None rule) newdoc in
                  let newdoc :=
                    if addReferencedBy then
                      set_ReferencedBy
                        (ReferencedBy newdoc ++ [{| RefID := SID s; RefType := consts_Sharings |}])
                        newdoc
                    else newdoc in
                  let indexer := newSharingIndexer bulk (Some ref) in
                  let indexer := if incr then IncrementRevision indexer else indexer in
                  rf <- call (CreateFile indexer newdoc None) ;;
                  rf <- (match rf with
                         | Error e => if bool_decide (e = ErrExist)
                                      then createAfterExist indexer newdoc else Ret rf
                         | Ok _ => Ret rf
                         end) ;;
                  match rf with
                  | Error e => Ret (Some e)
                  | Ok file =>
                      c <- copyFileContent file body ;;
                      _ <- (if NbFiles s >? 0 then call countReceivedFiles else Ret tt) ;;
                      Ret c.2
                  end
              end
          end
      end.

    (** HandleFileUpload: a file is received, after the metadata was not
        enough. *)
Definition HandleFileUpload (s : Sharing) (key : string) (body : Reader)
      : prog upE (option error) :=
      rt <- (call (StoreGet key) : prog upE (result (option FileDocWithRevisions))) ;;
      r <- (match rt with
            | Error e => Ret (Some e)
            | Ok None => Ret (Some ErrMissingFileMetadata)
            | Ok (Some target) =>
                let sid := consts_Files +:+ "/" +:+ DocID target in
                lockerr <- call (Lock ("shared/" +:+ sid)) ;;
                match lockerr with
                | Some e => Ret (Some e)
                | None =>
                    rc <- call (FileByID (DocID target)) ;;
                    r <- (match rc with
                          | Error e =>
                              if negb (bool_decide (e = ErrNotExist)) then Ret (Some e)
                              else UploadNewFile s target body
                          | Ok current => UploadExistingFile s target current body
                          end) ;;
                    _ <- call (Unlock ("shared/" +:+ sid)) ;;
                    Ret r
                end
            end) ;;
      _ <- call (ReaderClose body) ;;
      Ret r.

  End Impl.
End Upload.

(** ** Package sharing: the sender of a file *)

Module Sender.
  Import Upload.

  Section Impl.
    Context {H : Helpers}.

    (** [trashed, _ := file["trashed"].(bool)] *)
Definition trashed_of (file : JSONMap) : bool :=
      match file !! "trashed" with
      | Some (JBool b) => b
      | _ => false
      end.

    (** [file[k].(string)], which panics when the value is not a string. *)
Definition string_of (file : JSONMap) (k : string) : option string :=
      match file !! k with
      | Some (JStr v) => Some v
      | _ => None
      end.

Definition status_class (res : Response) : Z := StatusCode res ÷ 100.

    (** The error that [uploadFile] returns for a failed request. *)
Definition requestError (res : option Response) (e : error) : error :=
      match res with
      | Some r => if status_class r =? 5 then ErrInternalServerError else e
      | None => e
      end.

    (** The second request of [uploadFile]: the content is sent to the key
        that the peer gave. *)
Definition sendContent (s : Sharing) (u : URL) (token origFileID key : string)
      : prog upE (option error) :=
      rf <- call (FileByID origFileID) ;;
      match rf with
      | Error e => Ret (Some e)
      | Ok fileDoc =>
          rc <- call (OpenFile fileDoc) ;;
          match rc with
          | Error e => Ret (Some e)
          | Ok content =>
              let opts2 :=
                {| ReqMethod := "PUT"; ReqScheme := Scheme u; ReqDomain := Host u;
                   ReqPath := "/sharings/" +:+ SID s +:+ "/io.cozy.files/" +:+ key;
                   ReqQueries := [("from", ContextualDomain)];
                   ReqHeaders := [("Content-Type", Mime fileDoc);
                                  ("Authorization", "Bearer " +:+ token)];
                   ReqBodyOf := BodyReader content |} in
              r2 <- call (HttpReq opts2) ;;
              r <- (match r2.2 with
                    | Some e => Ret (Some (requestError r2.1 e))
                    | None =>
                        match r2.1 with
                        | None => Ret (Some nil_deref)
                        | Some res2 => _ <- call (ResBodyClose res2) ;; Ret None
                        end
                    end) ;;
              _ <- call (ReaderClose content) ;;
              Ret r
          end
      end.

    (** uploadFile: the metadata is sent first and, if the peer asks for
        it, the content. *)
Definition uploadFile (s : Sharing) (m : Member) (file : JSONMap) (ruleIndex : Z)
      : prog upE (option error) :=
      if trashed_of file then Ret None
      else
      match FindCredentials s m with
      | None => Ret (Some ErrInvalidSharing)
      | Some creds =>
      match url_Parse (MemberInstance m) with
      | Error e => Ret (Some e)
      | Ok u =>
      match string_of file "_id" with
      | None => Ret (Some bad_assertion)
      | Some origFileID =>
      let file := TransformFileToSent s file (XorKey creds) ruleIndex in
      match string_of file "_id" with
      | None => Ret (Some bad_assertion)
      | Some xoredFileID =>
      match json_Marshal file with
      | Error e => Ret (Some e)
      | Ok body =>
      match AccessToken creds with
      | None => Ret (Some nil_deref)
      | Some token =>
      let opts :=
        {| ReqMethod := "PUT"; ReqScheme := Scheme u; ReqDomain := Host u;
           ReqPath := "/sharings/" +:+ SID s +:+ "/io.cozy.files/" +:+ xoredFileID
                        +:+ "/metadata";
           ReqQueries := [("from", ContextualDomain)];
           ReqHeaders := [("Accept", "application/json");
                          ("Content-Type", "application/json");
                          ("Authorization", "Bearer " +:+ token)];
           ReqBodyOf := BodyBytes body |} in
      r <- call (HttpReq opts) ;;
      r <- (match r.1 with
            | Some res =>
                if status_class res =? 4 then call (RefreshToken r.2 m creds opts body)
                else Ret r
            | None => Ret r
            end) ;;
      match r.2 with
      | Some e => Ret (Some (requestError r.1 e))
      | None =>
          match r.1 with
          | None => Ret (Some nil_deref)
          | Some res =>
              out <- (if StatusCode res =? 204 then Ret None
                      else
                        k <- call (DecodeKey res) ;;
                        match k with
                        | Error e => Ret (Some e)
                        | Ok key => sendContent s u token origFileID key
                        end) ;;
              _ <- call (ResBodyClose res) ;;
              Ret out
          end
      end
      end end end end end end.

  End Impl.

  (** The calls that send a request to the peer. *)
Definition is_request (ev : event upE) : bool :=
    match ev_call ev with
    | HttpReq _ => true
    | RefreshToken _ _ _ _ _ => true
    | _ => false
    end.

End Sender.

(** ** Package sharing: the revocation of a sharing *)

Module Revoke.

  (** The collaborators of a revocation: the OAuth clients, the triggers of
      the job system, the sequence numbers, the shared entries, the
      directory of the sharing, the bitwarden organizations, and the
      document of the sharing in CouchDB. *)
Variant revE : Type -> Type :=
  | DeleteOAuthClient (m : Member) (c : Credentials) : revE (option error)
  | DeleteTrigger (triggerID : string) : revE (option error)
  | ClearLastSequenceNumbers (m : Member) : revE (option error)
  | RemoveSharedRefs (sid : string) : revE (option error)
  | RemoveSharingDir : revE (option error)
  | GetOrganization (orgID : string) : revE (option error)
  | DeleteOrganization (orgID : string) : revE (option error)
    (** couchdb.UpdateDoc on the sharing: the new revision, or the error *)
  | UpdateSharing (s : Sharing) : revE (result string)
    (** couchdb.GetDoc of the sharing *)
  | GetSharing (id : string) : revE (result Sharing).

Definition set_SRev (v : string) (s : Sharing) : Sharing :=
    {| SID := SID s; SRev := v; SharingTriggers := SharingTriggers s; Active := Active s;
       Owner := Owner s; NbFiles := NbFiles s; Rules := Rules s; Members := Members s;
       SharingCredentials := SharingCredentials s |}.

Definition set_Triggers (v : Triggers) (s : Sharing) : Sharing :=
    {| SID := SID s; SRev := SRev s; SharingTriggers := v; Active := Active s;
       Owner := Owner s; NbFiles := NbFiles s; Rules := Rules s; Members := Members s;
       SharingCredentials := SharingCredentials s |}.

  (** The first member after the owner that has an instance is marked as
      revoked; [i] is the index of the head of [ms]. *)
Fixpoint revokeFirstRecipient (i : nat) (ms : list Member) : list Member :=
    match ms with
    | [] => []
    | m :: rest =>
        if (0 <? i)%nat && negb (String.eqb (MemberInstance m) "")
        then set_MemberStatus MemberStatusRevoked m :: rest
        else m :: revokeFirstRecipient (S i) rest
    end.

  (** What an iteration of the loop of [RevokeByNotification] writes on the
      sharing before it saves it. *)
Definition markRevoked (s : Sharing) : Sharing :=
    {| SID := SID s; SRev := SRev s; SharingTriggers := no_triggers; Active := false;
       Owner := Owner s; NbFiles := NbFiles s; Rules := Rules s;
       Members := revokeFirstRecipient 0 (Members s);
       SharingCredentials := [] |}.

  Section Impl.
    Context {H : Helpers}.

Definition removeSharingTrigger (triggerID : string) : prog revE (option error) :=
      if negb (String.eqb triggerID "") then
        err <- call (DeleteTrigger triggerID) ;;
        match err with
        | Some e => if negb (bool_decide (e = ErrNotFoundTrigger)) then Ret (Some e) else Ret None
        | None => Ret None
        end
      else Ret None.

Fixpoint removeSharingTriggers (ids : list string) : prog revE (option error) :=
      match ids with
      | [] => Ret None
      | id :: rest =>
          err <- removeSharingTrigger id ;;
          match err with
          | Some e => Ret (Some e)
          | None => removeSharingTriggers rest
          end
      end.

    (** RemoveTriggers; the sharing comes back without its triggers when
        all of them were removed. *)
Definition RemoveTriggers (s : Sharing) : prog revE (Sharing * option error) :=
      let tr := SharingTriggers s in
      err <- removeSharingTriggers (TrackID tr :: TrackIDs tr ++ [ReplicateID tr; UploadID tr]) ;;
      match err with
      | Some e => Ret (s, Some e)
      | None => Ret (set_Triggers no_triggers s, None)
      end.

Definition RemoveBitwardenOrganization (orgID : string) : prog revE (option error) :=
      err <- call (GetOrganization orgID) ;;
      match err with
      | Some e => if IsNotFoundError e then Ret None else Ret (Some e)
      | None => call (DeleteOrganization orgID)
      end.

    (** The loop of [RevokeByNotification], with [n] iterations left. *)
Fixpoint updateLoop (n : nat) (s : Sharing) : prog revE Sharing :=
      match n with
      | O => Ret s
      | S n' =>
          let s := markRevoked s in
          r <- call (UpdateSharing s) ;;
          match r with
          | Ok rev => Ret (set_SRev rev s)
          | Error e =>
              if negb (IsConflictError e) then Ret s
              else
                g <- call (GetSharing (SID s)) ;;
                match g with
                | Error _ => Ret s
                | Ok s' => updateLoop n' s'
                end
          end
      end.

    (** The steps of [RevokeByNotification] before its loop. *)
Definition revokeSteps (s : Sharing) : prog revE (Sharing * option error) :=
      match Members s, SharingCredentials s with
      | m0 :: _, c0 :: _ =>
          e1 <- call (DeleteOAuthClient m0 c0) ;;
          match e1 with
          | Some e => Ret (s, Some e)
          | None =>
          rt <- RemoveTriggers s ;;
          match rt.2 with
          | Some e => Ret rt
          | None =>
          let s := rt.1 in
          e2 <- call (ClearLastSequenceNumbers m0) ;;
          match e2 with
          | Some e => Ret (s, Some e)
          | None =>
          e3 <- call (RemoveSharedRefs (SID s)) ;;
          match e3 with
          | Some e => Ret (s, Some e)
          | None =>
          e4 <- (match FirstFilesRule s with
                 | Some rule => if String.eqb (RuleMime rule) "" then call RemoveSharingDir
                                else Ret None
                 | None => Ret None
                 end) ;;
          match e4 with
          | Some e => Ret (s, Some e)
          | None =>
          e5 <- (match FirstBitwardenOrganizationRule s with
                 | Some rule =>
                     match RuleValues rule with
                     | v0 :: _ => RemoveBitwardenOrganization v0
                     | [] => Ret None
                     end
                 | None => Ret None
                 end) ;;
          Ret (s, e5)
          end end end end end
      | _, _ => Ret (s, Some (GoPanic "index out of range"))
      end.

    (** RevokeByNotification.  The error that the function returns after
        its loop is the variable [err] declared before the loop, which no
        iteration assigns (each one declares its own): it is nil. *)
Definition RevokeByNotification (s : Sharing) : prog revE (Sharing * option error) :=
      if Owner s then Ret (s, Some ErrInvalidSharing)
      else
        r <- revokeSteps s ;;
        match r.2 with
        | Some e => Ret r
        | None => s' <- updateLoop 3 r.1 ;; Ret (s', None)
        end.

  End Impl.

  (** Reading a trace of a revocation. *)
Definition is_update (ev : event revE) : bool :=
    match ev_call ev with UpdateSharing _ => true | _ => false end.

Definition is_reload (ev : event revE) : bool :=
    match ev_call ev with GetSharing _ => true | _ => false end.




Definition is_ok {A} (r : result A) : bool :=
    match r with Ok _ => true | Error _ => false end.

  (** The updates and the reloads of the sharing document in a trace. *)
Definition is_doc_event (ev : event revE) : bool := is_update ev || is_reload ev.

Definition doc_events (t : list (event revE)) : list (event revE) :=
    filter (fun ev => is_doc_event ev = true) t.

Definition updates (t : list (event revE)) : list (event revE) :=
    filter (fun ev => is_update ev = true) t.


End Revoke.

(** ** Reading the traces of the upload *)

Module UploadTrace.
  Import Upload.

#[global] Instance File_eq_dec : EqDecision File.
  Proof. solve_decision. Defined.

#[global] Instance Reader_eq_dec : EqDecision Reader.
  Proof. solve_decision. Defined.

  (** The calls that change something on the instance: the store of the
      upload keys, the directories, the files and their documents. *)
Definition writes (ev : event upE) : bool :=
    match ev_call ev with
    | StoreSave _ | recreateParent _ | EnsureSharedWithMeDir | resolveConflictSamePath _ _
    | CreateFile _ _ _ | UpdateFileDoc _ _ _ | IoCopy _ _ | FileClose _
    | countReceivedFiles => true
    | _ => false
    end.




  (** A call without its answer. *)
Definition call_of (ev : event upE) : {X : Type & upE X} := existT _ (ev_call ev).

  (** A short text for a call, to show the traces of the examples. *)
Definition label (ev : event upE) : string :=
    match ev_call ev with
    | Lock _ => "Lock"
    | Unlock _ => "Unlock"
    | FileByID id => "FileByID " +:+ id
    | DirByID id => "DirByID " +:+ id
    | GetShared _ => "GetShared"
    | GetFileJSON _ => "GetFileJSON"
    | StoreSave _ => "StoreSave"
    | StoreGet _ => "StoreGet"
    | GetSharingDir => "GetSharingDir"
    | recreateParent _ => "recreateParent"
    | cleanShortcutID => "cleanShortcutID"
    | EnsureSharedWithMeDir => "EnsureSharedWithMeDir"
    | DocPath _ => "DocPath"
    | resolveConflictSamePath _ _ => "resolveConflictSamePath"
    | conflictName _ _ name _ => "conflictName " +:+ name
    | CreateFile _ d None => "CreateFile " +:+ DocID d +:+ " " +:+ DocName d
    | CreateFile _ d (Some o) => "CreateFile " +:+ DocName d +:+ " over " +:+ DocID o
    | UpdateFileDoc _ o n => "UpdateFileDoc " +:+ DocName o +:+ " to " +:+ DocName n
    | OpenFile d => "OpenFile " +:+ DocID d
    | IoCopy _ _ => "IoCopy"
    | FileClose _ => "FileClose"
    | ReaderClose _ => "ReaderClose"
    | countReceivedFiles => "countReceivedFiles"
    | HttpReq o => ReqMethod o +:+ " " +:+ ReqPath o
    | RefreshToken _ _ _ _ _ => "RefreshToken"
    | DecodeKey _ => "DecodeKey"
    | ResBodyClose _ => "ResBodyClose"
    end.


  (** The answer of CouchDB for the shared entry of a file refuses the
      sharing [sharingID]: there is no entry, or the entry does not know
      the sharing, or it is removed and not dissociated for it. *)
Definition refused (sharingID : string) (r : result SharedRef) : bool :=
    match r with
    | Error e => IsNotFoundError e
    | Ok ref =>
        match Infos ref !! sharingID with
        | None => true
        | Some infos => Removed infos && negb (Dissociated infos)
        end
    end.






End UploadTrace.

(** ** Monitors of traces *)

Module Monitor.
  Section Defs.
    Context {E : Type -> Type} {S : Type}.
    Variable step : S -> event E -> option S.

    (** The state of a monitor after a trace, if the monitor accepts every
        call of it. *)
Fixpoint monitor (s : S) (t : list (event E)) : option S :=
      match t with
      | [] => Some s
      | ev :: t' =>
          match step s ev with
          | Some s' => monitor s' t'
          | None => None
          end
      end.

    (** Whatever the answers, the monitor accepts the calls of the program
        from the state [s], and the state reached and the result satisfy
        [Q]. *)
Inductive follows {R} (Q : S -> R -> Prop) : S -> prog E R -> Prop :=
    | follows_ret s r : Q s r -> follows Q s (Ret r)
    | follows_vis s X (e : E X) k :
        (forall x, step s (Ev _ e x) <> None) ->
        (forall x s', step s (Ev _ e x) = Some s' -> follows Q s' (k x)) ->
        follows Q s (Vis e k).

  End Defs.
End Monitor.
Import Monitor.

(** ** Swift back-end, layout v3: from the name of an object to the ids *)

Module SwiftV3.
  Import GoStr Swift.

  (** makeDocIDV3: the id of the document and the internal id, from the
      name of an object. *)
Definition makeDocIDV3 (objName : string) : string * string :=
    if negb (String.length objName =? 51)%nat then
      match Afero.SplitN2 objName "" with
      | a :: b :: _ => (a, b)
      | _ => (objName, "")
      end
    else (slice objName 0 22 +:+ slice objName 23 28 +:+ slice objName 29 34,
          slice_from objName 35).

  (** strings.Contains(s, "/") *)
Fixpoint has_slash (s : string) : bool :=
    match s with
    | EmptyString => false
    | String c s' => Ascii.eqb c "/" || has_slash s'
    end.

End SwiftV3.

(** ** The afero back-end: renaming a file, writing, and the traces of [Close] *)

Module AferoMore.
  Import GoStr Path Afero.

  (** safeRenameFile *)
Definition safeRenameFile (oldpath newpath : string) : prog aferoE (option error) :=
    let newpath := Clean newpath in
    let oldpath := Clean oldpath in
    if negb (IsAbs newpath) || negb (IsAbs oldpath) then Ret (Some ErrNonAbsolutePath)
    else
      err <- call (FsStat newpath) ;;
      match err with
      | None => Ret (Some ErrExist)
      | Some e =>
          if negb (bool_decide (e = ErrNotExist)) then Ret (Some e)
          else call (FsRename oldpath newpath)
      end.

  (** A client of a handle: it writes the chunks one after the other,
      whatever [Write] returns. *)
Fixpoint WriteAll (f : aferoFileCreation) (ps : list bytes) : prog aferoE aferoFileCreation :=
    match ps with
    | [] => Ret f
    | p :: rest => r <- Write f p ;; WriteAll r.1 rest
    end.

  Section Impl.
    Variable md5 : bytes -> bytes.
    Variable TrashDirName VersionsDirName : string.
    Variable NewVersion : FileDoc -> Version.
    Variable merge_meta : Metadata -> Metadata -> Metadata.

    (** The same client, which closes the handle after the last chunk. *)
Definition WriteAllClose (f : aferoFileCreation) (ps : list bytes)
      : prog aferoE (FileDoc * option error) :=
      f' <- WriteAll f ps ;;
      Close md5 TrashDirName VersionsDirName NewVersion merge_meta f'.

    (** The document carries the hash and the size of what was written to
        the handle [f]. *)
Definition as_written (f : aferoFileCreation) (d : FileDoc) : bool :=
      bytes_Equal (MD5Sum d) (Some (md5 (hash f))) && (ByteSize d =? w f).

  End Impl.

  (** The number of bytes that the temporary file took, along a trace. *)
Fixpoint accepted (t : list (event aferoE)) : Z :=
    match t with
    | [] => 0
    | Ev _ (FWrite _) (n, None) :: t' => n + accepted t'
    | _ :: t' => accepted t'
    end.


  (** The handle is within the limits that it was opened with. *)
Definition within_limits (f : aferoFileCreation) : Prop :=
    (0 <= maxsize f -> w f <= maxsize f) /\ (0 <= size f -> w f <= size f).

  (** The document that a call hands to the index, to be created or
      updated. *)
Definition indexed_doc (ev : event aferoE) : option FileDoc :=
    match ev_call ev with
    | IxUpdateFileDoc _ d | IxCreateFileDoc d | IxCreateNamedFileDoc d => Some d
    | _ => None
    end.

  (** A call that hands to the index a document whose hash or size is not
      the one of what was written to the handle [f]. *)
Definition badly_indexed (md5 : bytes -> bytes) (f : aferoFileCreation)
    (ev : event aferoE) : bool :=
    match indexed_doc ev with
    | Some d => negb (as_written md5 f d)
    | None => false
    end.

  (** The calls that create or update something in the index, or that
      move a file. *)
Definition publishes (ev : event aferoE) : bool :=
    match ev_call ev with
    | IxUpdateFileDoc _ _ | IxCreateFileDoc _ | IxCreateNamedFileDoc _
    | IxCreateVersion _ | IxDeleteVersion _ | FsRename _ _ | FsMkdirAll _ => true
    | _ => false
    end.



  (** A rename that is safe: the destination was looked at just before and
      does not exist, and both paths are clean and absolute. *)
Definition renamed_safely (oldpath newpath : string) (t : list (event aferoE))
    (r : option error) : Prop :=
    t = [Ev _ (FsStat (Clean newpath)) (Some ErrNotExist);
         Ev _ (FsRename (Clean oldpath) (Clean newpath)) r]
    /\ IsAbs (Clean oldpath) = true /\ IsAbs (Clean newpath) = true.

  (** Where [Close] stands with the moves of the files: none yet; the old
      content was sent to its version path from [np] (and [moved] tells
      whether it went); the temporary file could not take the place of the
      old content, which must come back to [np]; all the moves are made. *)
Inductive moves : Type :=
  | NoMove
  | Versioned (np : string) (moved : bool)
  | MoveBack (np : string)
  | Moved.


  Section Moves.
    Variable VersionsDirName : string.
    Variable NewVersion : FileDoc -> Version.

    (** One call is read, for the handle [f]; [None] when a file is moved
        out of turn, or when the old content is not moved back at once. *)
Definition moves_step (f : aferoFileCreation) (st : moves) (ev : event aferoE)
      : option moves :=
      match ev with
      | Ev _ (FsRename a b) r =>
          match st with
          | NoMove =>
              match olddoc f with
              | Some od =>
                  if String.eqb b (pathForVersion VersionsDirName (NewVersion od))
                  then Some (Versioned a (bool_decide (r = None))) else None
              | None =>
                  if String.eqb a (tmppath f) then Some Moved else None
              end
          | Versioned np moved =>
              if String.eqb a (tmppath f) && String.eqb b np
              then Some (match r with
                         | Some _ => if moved then MoveBack np else Moved
                         | None => Moved
                         end)
              else None
          | MoveBack np =>
              match olddoc f with
              | Some od =>
                  if String.eqb a (pathForVersion VersionsDirName (NewVersion od))
                     && String.eqb b np
                  then Some Moved else None
              | None => None
              end
          | Moved => None
          end
      | _ => match st with MoveBack _ => None | _ => Some st end
      end.

  End Moves.

End AferoMore.

(** ** Package sharing: the traces of the receiving side *)

Module UploadMore.
  Import Upload.

  (** The name of the lock that protects the shared entry of a file. *)
Definition lock_name (target : FileDoc) : string :=
    "shared/" +:+ consts_Files +:+ "/" +:+ DocID target.

  (** The calls that take or release a lock, or read the store of the
      upload keys. *)
Definition is_lock (ev : event upE) : bool :=
    match ev_call ev with Lock _ | Unlock _ | StoreGet _ => true | _ => false end.

  (** The calls that are made without the lock of the file: the store of
      the upload keys is read, the body of the request is closed. *)
Definition unguarded (ev : event upE) : bool :=
    match ev_call ev with StoreGet _ | ReaderClose _ => true | _ => false end.

  (** The lock of a file along a trace.  The state is the name of the lock
      of the file, once it is known, and whether the lock is held.  The name
      comes with the target that the store of the upload keys gives; the lock
      taken and released is the one of this name; it is not taken twice;
      and every call but those of [unguarded] is made with the lock held. *)
Definition filelock_step (st : option string * bool) (ev : event upE)
    : option (option string * bool) :=
    match ev with
    | Ev _ (StoreGet _) r =>
        if st.2 then None
        else match r with
             | Ok (Some target) => Some (Some (lock_name target), false)
             | _ => Some st
             end
    | Ev _ (Lock n) r =>
        if st.2 then None
        else if bool_decide (st.1 = Some n) then Some (st.1, bool_decide (r = None))
        else None
    | Ev _ (Unlock n) _ =>
        if st.2 && bool_decide (st.1 = Some n) then Some (st.1, false) else None
    | _ => if unguarded ev || st.2 then Some st else None
    end.

  (** The handle of a file along a trace: none is open, or the file [f]
      is open, or the content was copied to [f]. *)
Inductive handle : Type :=
  | NoHandle
  | Open (f : File)
  | Filled (f : File).

  (** One call is read: a file is opened when no other is, the content is
      copied to the file that is open, at once, and the file is closed
      next, whatever the copy gave. *)
Definition handle_step (st : handle) (ev : event upE) : option handle :=
    match ev with
    | Ev _ (CreateFile _ _ _) r =>
        match st, r with
        | NoHandle, Ok f => Some (Open f)
        | NoHandle, Error _ => Some NoHandle
        | _, _ => None
        end
    | Ev _ (IoCopy f _) _ =>
        match st with
        | Open f' => if bool_decide (f = f') then Some (Filled f) else None
        | _ => None
        end
    | Ev _ (FileClose f) _ =>
        match st with
        | Filled f' => if bool_decide (f = f') then Some NoHandle else None
        | _ => None
        end
    | _ => match st with NoHandle => Some NoHandle | _ => None end
    end.

  (** The calls on the handle of a file. *)
Definition uses_handle (ev : event upE) : bool :=
    match ev_call ev with
    | CreateFile _ _ _ | IoCopy _ _ | FileClose _ => true
    | _ => false
    end.



End UploadMore.

(** ** Package sharing: the traces of the sender *)

Module SenderMore.
  Import GoStr Upload Sender.

#[global] Instance ReqBody_eq_dec : EqDecision ReqBody.
  Proof. solve_decision. Defined.

#[global] Instance Options_eq_dec : EqDecision Options.
  Proof. solve_decision. Defined.

#[global] Instance Response_eq_dec : EqDecision Response.
  Proof. solve_decision. Defined.

  (** The answer to a request. *)
Definition answer : Type := (option Response * option error)%type.

  (** Where [uploadFile] stands with the peer: nothing was sent; the
      metadata were sent with [opts], and the last answer is [ans]
      ([refreshed] tells whether the token was refreshed); the peer gave a
      key to send the content to; the file is open for reading; the content
      was sent; the exchange is over. *)
Inductive sending : Type :=
  | NothingSent
  | MetaSent (opts : Options) (refreshed : bool) (ans : answer)
  | KeyGiven (key : string)
  | Reading (key : string) (content : Reader)
  | ContentSent (content : Reader)
  | Finished.

Definition is_bytes (b : ReqBody) : bool :=
    match b with BodyBytes _ => true | BodyReader _ => false end.

  (** The path of the requests about the files of a sharing. *)
Definition files_path (s : Sharing) : string := "/sharings/" +:+ SID s +:+ "/io.cozy.files/".

  (** One call of [uploadFile] is read.  The first request is a PUT of
      bytes under the path of the files of the sharing; the token is only
      refreshed after an answer of status 4xx, once, for the same request;
      a key is only decoded from an answer without error whose status is not
      204; the file is only opened once the key is known; the second request
      is a PUT of the open file to the key; and the open file is closed
      after it. *)
Definition sending_step (s : Sharing) (st : sending) (ev : event upE) : option sending :=
    match ev with
    | Ev _ (HttpReq opts) r =>
        match st with
        | NothingSent =>
            if String.eqb (ReqMethod opts) "PUT" && is_bytes (ReqBodyOf opts)
               && HasPrefix (ReqPath opts) (files_path s)
            then Some (MetaSent opts false r) else None
        | Reading key content =>
            if String.eqb (ReqMethod opts) "PUT"
               && bool_decide (ReqBodyOf opts = BodyReader content)
               && String.eqb (ReqPath opts) (files_path s +:+ key)
            then Some (ContentSent content) else None
        | _ => None
        end
    | Ev _ (RefreshToken _ _ _ opts _) r =>
        match st with
        | MetaSent opts' false (Some res, _) =>
            if bool_decide (opts = opts') && (status_class res =? 4)
            then Some (MetaSent opts true r) else None
        | _ => None
        end
    | Ev _ (DecodeKey res) r =>
        match st with
        | MetaSent _ _ (Some res', None) =>
            if bool_decide (res = res') && negb (StatusCode res =? 204)
            then Some (match r with Ok key => KeyGiven key | Error _ => Finished end)
            else None
        | _ => None
        end
    | Ev _ (FileByID _) _ =>
        match st with KeyGiven _ => Some st | _ => None end
    | Ev _ (OpenFile _) r =>
        match st with
        | KeyGiven key => Some (match r with Ok c => Reading key c | Error _ => Finished end)
        | _ => None
        end
    | Ev _ (ReaderClose c) _ =>
        match st with
        | ContentSent c' => if bool_decide (c = c') then Some Finished else None
        | _ => None
        end
    | Ev _ (ResBodyClose _) _ =>
        match st with Reading _ _ => None | _ => Some st end
    | _ => None
    end.

  (** No file is left open for reading. *)
Definition no_reader (st : sending) : bool :=
    match st with Reading _ _ | ContentSent _ => false | _ => true end.

  (** What [uploadFile] returns after the last answer [ans] of the peer. *)
Definition result_after (ans : answer) (r : option error) : Prop :=
    match ans with
    | (Some res, Some e) =>
        r = Some (if status_class res =? 5 then ErrInternalServerError else e)
    | (None, Some e) => r = Some e
    | (Some res, None) => StatusCode res = 204 -> r = None
    | (None, None) => r = Some nil_deref
    end.

Definition after_last (st : option answer) (r : option error) : Prop :=
    match st with
    | Some ans => result_after ans r
    | None => True
    end.

  (** The last answer of the peer is kept. *)
Definition answer_step (st : option answer) (ev : event upE) : option (option answer) :=
    match ev with
    | Ev _ (HttpReq _) r => Some (Some r)
    | Ev _ (RefreshToken _ _ _ _ _) r => Some (Some r)
    | _ => Some st
    end.

End SenderMore.

(** ** Package sharing: the revocation of a sharing *)

Module RevokeMore.
  Import Revoke.

#[global] Instance MemberStatus_eq_dec : EqDecision MemberStatus.
  Proof. solve_decision. Defined.

#[global] Instance Member_eq_dec : EqDecision Member.
  Proof. solve_decision. Defined.

#[global] Instance Credentials_eq_dec : EqDecision Credentials.
  Proof. solve_decision. Defined.

#[global] Instance Triggers_eq_dec : EqDecision Triggers.
  Proof. solve_decision. Defined.

#[global] Instance Rule_eq_dec : EqDecision Rule.
  Proof. solve_decision. Defined.

#[global] Instance Sharing_eq_dec : EqDecision Sharing.
  Proof. solve_decision. Defined.

Definition set_Active (v : bool) (s : Sharing) : Sharing :=
    {| SID := SID s; SRev := SRev s; SharingTriggers := SharingTriggers s; Active := v;
       Owner := Owner s; NbFiles := NbFiles s; Rules := Rules s; Members := Members s;
       SharingCredentials := SharingCredentials s |}.

  (** The loop of [ReadOnlyFlag]; [i] is the index of the head of [ms]. *)
Fixpoint readOnlyOfFirstRecipient (i : nat) (ms : list Member) : bool :=
    match ms with
    | [] => false
    | m :: rest =>
        if (i =? 0)%nat then readOnlyOfFirstRecipient (S i) rest
        else if negb (String.eqb (MemberInstance m) "") then MemberReadOnly m
        else readOnlyOfFirstRecipient (S i) rest
    end.

Definition ReadOnlyFlag (s : Sharing) : bool :=
    if negb (Owner s) then readOnlyOfFirstRecipient 0 (Members s) else false.

  (** The loop of [NoMoreRecipient]: a member is ready. *)
Fixpoint hasReadyMember (ms : list Member) : bool :=
    match ms with
    | [] => false
    | m :: rest =>
        if bool_decide (MemberStatusOf m = MemberStatusReady) then true
        else hasReadyMember rest
    end.

  (** couchdb.UpdateDoc on the sharing, which takes its new revision. *)
Definition updateDoc (s : Sharing) : prog revE (Sharing * option error) :=
    r <- call (UpdateSharing s) ;;
    match r with
    | Ok rev => Ret (set_SRev rev s, None)
    | Error e => Ret (s, Some e)
    end.

Definition NoMoreRecipient (s : Sharing) : prog revE (Sharing * option error) :=
    if hasReadyMember (Members s) then updateDoc s
    else
      rt <- RemoveTriggers s ;;
      match rt.2 with
      | Some e => Ret rt
      | None =>
          let s := set_Active false rt.1 in
          ru <- updateDoc s ;;
          match ru.2 with
          | Some e => Ret ru
          | None =>
              let s := ru.1 in
              err <- call (RemoveSharedRefs (SID s)) ;;
              Ret (s, err)
          end
      end.

  (** The identifiers that [RemoveTriggers] goes through, in its order. *)
Definition trigger_ids (s : Sharing) : list string :=
    let tr := SharingTriggers s in
    TrackID tr :: TrackIDs tr ++ [ReplicateID tr; UploadID tr].

  (** The deletion of a trigger, with its answer. *)
Definition deletion (c : string * option error) : event revE := Ev _ (DeleteTrigger c.1) c.2.

  (** An answer to the deletion of a trigger that lets the removal go on. *)
Definition tolerated (a : option error) : bool :=
    match a with
    | None => true
    | Some e => bool_decide (e = ErrNotFoundTrigger)
    end.

  (** What a sharing must look like when [RevokeByNotification] saves it. *)
Definition saved_revoked (ev : event revE) : bool :=
    match ev_call ev with
    | UpdateSharing s' =>
        negb (Active s') && bool_decide (SharingCredentials s' = [])
        && bool_decide (SharingTriggers s' = no_triggers)
    | _ => true
    end.

  (** Where [NoMoreRecipient] stands: it has not saved the sharing yet; it
      has saved it closed (inactive and without triggers); it has removed
      the shared references; it has saved the sharing as it was, or failed
      to save it. *)
Inductive closing : Type := Cleaning | Closed | RefsGone | Left.

  (** One call of [NoMoreRecipient] on [s] is read.  A trigger is only
      deleted before the sharing is saved, when no member of [s] is ready;
      the sharing is saved once: as it is when a member is ready, inactive
      and without triggers otherwise; the shared references of [s] are only
      removed after the sharing was saved closed. *)
Definition closing_step (s : Sharing) (st : closing) (ev : event revE) : option closing :=
    match ev with
    | Ev _ (DeleteTrigger id) _ =>
        match st with
        | Cleaning =>
            if negb (hasReadyMember (Members s)) && bool_decide (id <> "")
               && bool_decide (id ∈ trigger_ids s)
            then Some Cleaning else None
        | _ => None
        end
    | Ev _ (UpdateSharing s') r =>
        match st with
        | Cleaning =>
            if hasReadyMember (Members s) then
              if bool_decide (s' = s) then Some Left else None
            else if bool_decide (s' = set_Active false (set_Triggers no_triggers s))
            then Some (if is_ok r then Closed else Left)
            else None
        | _ => None
        end
    | Ev _ (RemoveSharedRefs sid) _ =>
        match st with
        | Closed => if String.eqb sid (SID s) then Some RefsGone else None
        | _ => None
        end
    | _ => None
    end.

  (** How [NoMoreRecipient] on [s] ends: with nil only after it has saved
      the sharing, and removed the shared references when no member is
      ready. *)
Definition closing_end (s : Sharing) (st : closing) (r : Sharing * option error) : Prop :=
    match r.2 with
    | None => if hasReadyMember (Members s) then st = Left else st = RefsGone
    | Some _ => True
    end.

  (** Where [RevokeByNotification] stands. *)
Inductive revoking : Type :=
  | Begin | ClientDeleted | Cleared | RefsRemoved | DirRemoved
  | OrgFound (orgID : string) | OrgGone | Saving | Stopped (e : error).

  (** The sharing may be saved from here. *)
Definition can_save (st : revoking) : bool :=
    match st with
    | RefsRemoved | DirRemoved | OrgGone | Saving => true
    | _ => false
    end.

  (** After a step that answered [a]. *)
Definition after (a : option error) (st : revoking) : revoking :=
    match a with
    | Some e => Stopped e
    | None => st
    end.

  Section Order.
    Context {H : Helpers}.

    (** The sharing has a directory to remove. *)
Definition has_sharing_dir (s : Sharing) : bool :=
      match FirstFilesRule s with
      | Some rule => String.eqb (RuleMime rule) ""
      | None => false
      end.

    (** The organization to remove, if the sharing has one. *)
Definition organization_of (s : Sharing) : option string :=
      match FirstBitwardenOrganizationRule s with
      | Some rule => head (RuleValues rule)
      | None => None
      end.

    (** One call of [RevokeByNotification] on [s] is read.  The steps come
        in one order, each one after the success of the one before: the
        OAuth client of the first member, the triggers, the sequence
        numbers, the shared references, the directory of the sharing, the
        organization, the document of the sharing.  Nothing follows a step
        that failed.  A trigger that was not found is no failure, nor is an
        organization that was not found. *)
Definition revoking_step (s : Sharing) (st : revoking) (ev : event revE) : option revoking :=
      match ev with
      | Ev _ (DeleteOAuthClient m c) a =>
          match st with
          | Begin =>
              if bool_decide (head (Members s) = Some m)
                 && bool_decide (head (SharingCredentials s) = Some c)
              then Some (after a ClientDeleted) else None
          | _ => None
          end
      | Ev _ (DeleteTrigger id) a =>
          match st with
          | ClientDeleted =>
              if bool_decide (id <> "") && bool_decide (id ∈ trigger_ids s)
              then Some (if tolerated a then ClientDeleted else after a ClientDeleted)
              else None
          | _ => None
          end
      | Ev _ (ClearLastSequenceNumbers m) a =>
          match st with
          | ClientDeleted =>
              if bool_decide (head (Members s) = Some m) then Some (after a Cleared) else None
          | _ => None
          end
      | Ev _ (RemoveSharedRefs sid) a =>
          match st with
          | Cleared => if String.eqb sid (SID s) then Some (after a RefsRemoved) else None
          | _ => None
          end
      | Ev _ RemoveSharingDir a =>
          match st with
          | RefsRemoved =>
              if has_sharing_dir (set_Triggers no_triggers s)
              then Some (after a DirRemoved) else None
          | _ => None
          end
      | Ev _ (GetOrganization orgID) a =>
          match st with
          | RefsRemoved | DirRemoved =>
              if bool_decide (organization_of (set_Triggers no_triggers s) = Some orgID)
              then Some (match a with
                         | Some e => if IsNotFoundError e then OrgGone else Stopped e
                         | None => OrgFound orgID
                         end)
              else None
          | _ => None
          end
      | Ev _ (DeleteOrganization orgID) a =>
          match st with
          | OrgFound orgID' =>
              if String.eqb orgID orgID' then Some (after a OrgGone) else None
          | _ => None
          end
      | Ev _ (UpdateSharing _) _ | Ev _ (GetSharing _) _ =>
          if can_save st then Some Saving else None
      end.

    (** How [RevokeByNotification] ends: with the error of the step that
        failed, with an error before any step, or with nil once it has
        tried to save the sharing. *)
Definition revoking_end (st : revoking) (r : Sharing * option error) : Prop :=
      match r.2 with
      | Some e =>
          st = Stopped e
          \/ (st = Begin /\ (e = ErrInvalidSharing \/ e = GoPanic "index out of range"))
      | None => st = Saving
      end.

  End Order.

End RevokeMore.

(** ** Package center: the channels of a notification *)

Module Center.

  (** The loop of [ensureMailFallback] over [rest], the channels that are
      still to look at. *)
Fixpoint ensureMailFallback_from (rest channels : list string) : list string :=
    match rest with
    | [] => channels ++ ["mail"]
    | c :: rest' =>
        if String.eqb c "mail" then channels else ensureMailFallback_from rest' channels
    end.

Definition ensureMailFallback (channels : list string) : list string :=
    ensureMailFallback_from channels channels.

End Center.

(** ** Package sharing: what SyncFile does for a file *)

Module SyncMore.
  Import Upload.

#[global] Instance RevsStruct_eq_dec : EqDecision RevsStruct.
  Proof. solve_decision. Defined.

#[global] Instance FileDocWithRevisions_eq_dec : EqDecision FileDocWithRevisions.
  Proof. solve_decision. Defined.

  (** What [SyncFile] has done for its target: nothing yet but look; it
      has asked the store of the upload keys for a key, and got [r]; it has
      updated the document, and the last update answered [a]. *)
Inductive syncing : Type :=
  | Deciding
  | KeyAsked (r : result string)
  | Updated (a : option error).

  (** The last update found another file at the path of the document. *)
Definition path_taken (st : syncing) : bool :=
    match st with
    | Updated (Some e) => bool_decide (e = ErrExist)
    | _ => false
    end.

  (** One call of [SyncFile] on [target] is read.  The file, its shared
      entry and its parent directory are only looked for before anything
      is written; a key is asked once, for [target], and only the lock is
      released after; the document is updated a second time only when the
      path was taken the first time, once the path is resolved; and no
      file is created, opened, written or closed. *)
Definition syncing_step (target : FileDocWithRevisions) (st : syncing) (ev : event upE)
    : option syncing :=
    match ev with
    | Ev _ (Lock _) _ | Ev _ (Unlock _) _ => Some st
    | Ev _ (FileByID _) _ | Ev _ (GetShared _) _ | Ev _ GetSharingDir _
    | Ev _ (DirByID _) _ | Ev _ (recreateParent _) _ =>
        match st with Deciding => Some st | _ => None end
    | Ev _ (StoreSave t) r =>
        match st with
        | Deciding => if bool_decide (t = target) then Some (KeyAsked r) else None
        | _ => None
        end
    | Ev _ (UpdateFileDoc _ _ _) a =>
        match st with
        | Deciding => Some (Updated a)
        | _ => if path_taken st then Some (Updated a) else None
        end
    | Ev _ (DocPath _) _ | Ev _ (resolveConflictSamePath _ _) _ =>
        if path_taken st then Some st else None
    | _ => None
    end.

  (** How [SyncFile] ends: with a key exactly when the store gave this
      key, and then without error; with the error of the store when it gave
      none; and, after an update of the document, with nil only if the last
      update succeeded. *)
Definition syncing_end (st : syncing) (r : option string * option error) : Prop :=
    match st with
    | Deciding => r.1 = None
    | KeyAsked (Ok key) => r = (Some key, None)
    | KeyAsked (Error e) => r = (None, Some e)
    | Updated a => r.1 = None /\ (r.2 = None -> a = None)
    end.

End SyncMore.

(** * Instances for the examples

    The sharings, the files, the peers and the collaborators on which the
    properties below are run. *)

(** ** A file system, and handles of file creations *)

Module AferoSamples.
  Import GoStr Path Afero.

  (** In the examples the hash of some bytes is the bytes in reverse
      order; it stands for crypto/md5. *)
Definition toy_md5 (b : bytes) : bytes := rev b.

Definition sample_version (d : FileDoc) : Version :=
    {| VDocID := DocID d +:+ "/" +:+ InternalID d; VByteSize := ByteSize d;
       VMD5Sum := MD5Sum d |}.

Definition sample_merge (a b : Metadata) : Metadata := b ∪ a.

Definition sample_Close : aferoFileCreation -> prog aferoE (FileDoc * option error) :=
    Close toy_md5 "/.cozy_trash" "/.cozy_versions" sample_version sample_merge.

Definition sample_Write : aferoFileCreation -> bytes -> prog aferoE (aferoFileCreation * (Z * option error)) :=
    Write.

  (** Every call succeeds; the indexer gives a revision to the document. *)
Definition fine : handler aferoE unit :=
    fun X e w =>
      match e in aferoE X return X * unit with
      | FsStat _ => (Some ErrNotExist, w)
      | FsRename _ _ => (None, w)
      | FsRemove _ => (None, w)
      | FsMkdirAll _ => (None, w)
      | FWrite p => ((Z.of_nat (length p), None), w)
      | FClose => (None, w)
      | MetaWrite _ => (None, w)
      | MetaAbort _ => (tt, w)
      | MetaClose => (Ok ∅, w)
      | MuLock => (None, w)
      | MuUnlock => (tt, w)
      | IxDirChildExists _ _ => (Ok false, w)
      | IxFilePath d => (Ok ("/docs/" +:+ DocName d), w)
      | IxUpdateFileDoc _ n => (Ok (set_DocRev "2-b" n), w)
      | IxCreateFileDoc n => (Ok (set_DocRev "1-a" (set_DocID "generated" n)), w)
      | IxCreateNamedFileDoc n => (Ok (set_DocRev "1-a" n), w)
      | IxDeleteFileDoc _ => (None, w)
      | IxCreateVersion _ => (None, w)
      | IxDeleteVersion _ => (None, w)
      | FindVersionsToClean _ _ => ((KeepCandidateVersion, []), w)
      | PushDiskQuotaAlert => (tt, w)
      end.

  (** The same, but CouchDB refuses the new document with a conflict. *)
Definition index_conflict : handler aferoE unit :=
    fun X e w =>
      match e in aferoE X return X * unit with
      | IxCreateNamedFileDoc _ => (Error (CouchError 409 false), w)
      | e' => fine _ e' w
      end.

Definition hello : bytes := [Byte.x68; Byte.x65; Byte.x6c; Byte.x6c; Byte.x6f].

  (** The document of a new file "hello.txt" with the hash [md5] and the
      size [n] declared. *)
Definition hello_doc (md5 : slice_nil) (n : Z) : FileDoc :=
    {| DocID := "f1"; DocRev := ""; DocName := "hello.txt"; DirID := "d1";
       ByteSize := n; MD5Sum := md5; Mime := "text/plain"; Class := "text";
       CreatedAt := 0; UpdatedAt := 0; Executable := false; Trashed := false;
       Tags := []; ReferencedBy := []; InternalID := ""; FileMetadata := ∅;
       fullpath := "" |}.

  (** The handle of a creation of "hello.txt", once "hello" is written. *)
Definition hello_handle (md5 : slice_nil) (n : Z) : aferoFileCreation :=
    {| newdoc := hello_doc md5 n; olddoc := None; tmppath := "/hello.txt123";
       w := 5; size := n; maxsize := -1; capsize := 0; hash := hello;
       meta := false; err := None |}.

  (** The handle of a creation limited to 3 bytes, before anything is
      written, and after "hello" is written to it. *)
Definition small_handle : aferoFileCreation :=
    {| newdoc := hello_doc (Some hello) 5; olddoc := None; tmppath := "/hello.txt123";
       w := 0; size := 5; maxsize := 3; capsize := 0; hash := [];
       meta := false; err := None |}.

Definition small_handle_written : aferoFileCreation :=
    {| newdoc := hello_doc (Some hello) 5; olddoc := None; tmppath := "/hello.txt123";
       w := 5; size := 5; maxsize := 3; capsize := 0; hash := [];
       meta := false; err := Some ErrFileTooBig |}.

End AferoSamples.

(** ** A sharing, its files and its peers *)

Module UploadSamples.
  Import GoStr Upload UploadTrace.

Definition sample_copySafeFieldsToFile (target file : FileDoc) : FileDoc :=
    {| DocID := DocID file; DocRev := DocRev file; DocName := DocName file;
       DirID := DirID file; ByteSize := ByteSize file; MD5Sum := MD5Sum file;
       Mime := Mime target; Class := Class target; CreatedAt := CreatedAt target;
       UpdatedAt := UpdatedAt target; Executable := Executable target;
       Trashed := Trashed file; Tags := Tags target; ReferencedBy := ReferencedBy file;
       InternalID := InternalID file; FileMetadata := FileMetadata target;
       fullpath := fullpath file |}.

  (** In the examples a revision that is not in the chain wins against the
      chain when it is greater than its last revision. *)
Definition sample_detectConflict (rev : string) (chain : list string) : conflictStatus :=
    if bool_decide (rev ∈ chain) then NoConflict
    else match last chain with
         | None => LostConflict
         | Some l => if String.ltb rev l then WonConflict else LostConflict
         end.

Definition sample_NewFileDoc (name dirID : string) (size : Z) (md5 : slice_nil)
    (mime class : string) (cdate : Z) (exec trashed encrypted : bool) (tags : list string)
    : result FileDoc :=
    if String.eqb name "" then Error (Other "Invalid filename")
    else Ok {| DocID := ""; DocRev := ""; DocName := name; DirID := dirID;
               ByteSize := size; MD5Sum := md5; Mime := mime; Class := class;
               CreatedAt := cdate; UpdatedAt := cdate; Executable := exec;
               Trashed := trashed; Tags := tags; ReferencedBy := [];
               InternalID := ""; FileMetadata := ∅; fullpath := "" |}.

Definition sample_helpers : Helpers :=
    {| detectConflict := sample_detectConflict;
       revsStructToChain := RevsIDs;
       revsChainToStruct := fun l => {| RevsStart := Z.of_nat (length l); RevsIDs := l |};
       conflictID := fun id rev => id +:+ "-" +:+ rev;
       copySafeFieldsToFile := sample_copySafeFieldsToFile;
       buildReferencedBy := fun _ _ _ => [];
       findRuleForNewFile := fun s _ => match Rules s with r :: _ => Some (r, 0) | [] => None end;
       hasExplicitRuleForFile := fun _ _ => false;
       WillResolveConflict := fun ix _ _ => ix;
       IncrementRevision := fun ix => ix;
       StashRevision := fun ix _ => ("", ix);
       UnstashRevision := fun ix _ => ix;
       NewFileDoc := sample_NewFileDoc;
       FindCredentials := fun s _ => head (SharingCredentials s);
       url_Parse := fun u => Ok {| Scheme := "https"; Host := u |};
       TransformFileToSent := fun _ file _ _ => file;
       json_Marshal := fun _ => Ok [];
       ContextualDomain := "alice.example.net";
       FirstFilesRule := fun s => head (Rules s);
       FirstBitwardenOrganizationRule := fun _ => None |}.

Definition sample_rule : Rule :=
    {| RuleTitle := "Photos"; RuleDocType := consts_Files; RuleMime := "";
       RuleSelector := ""; RuleValues := ["d0"]; RuleLocal := false |}.

Definition owner : Member :=
    {| MemberStatusOf := MemberStatusOwner; MemberName := "Alice"; MemberEmail := "";
       MemberInstance := "alice.example.net"; MemberReadOnly := false |}.

Definition recipient : Member :=
    {| MemberStatusOf := MemberStatusReady; MemberName := "Bob"; MemberEmail := "";
       MemberInstance := "bob.example.net"; MemberReadOnly := false |}.

Definition sample_sharing : Sharing :=
    {| SID := "s1"; SRev := "1-s"; SharingTriggers := no_triggers; Active := true;
       Owner := false; NbFiles := 0; Rules := [sample_rule];
       Members := [owner; recipient];
       SharingCredentials := [{| XorKey := []; InboundClientID := "c1";
                                 AccessToken := Some "token" |}] |}.

  (** A file "hello.txt" in the directory [dir], at the revision [rev],
      with the content hash [md5]. *)
Definition file_doc (name dir rev : string) (md5 : slice_nil) : FileDoc :=
    {| DocID := "f1"; DocRev := rev; DocName := name; DirID := dir;
       ByteSize := 5; MD5Sum := md5; Mime := "text/plain"; Class := "text";
       CreatedAt := 0; UpdatedAt := 0; Executable := false; Trashed := false;
       Tags := []; ReferencedBy := []; InternalID := "i1"; FileMetadata := ∅;
       fullpath := "" |}.

Definition md5_a : slice_nil := Some [Byte.x0a].
Definition md5_b : slice_nil := Some [Byte.x0b].

  (** The payload of a peer for the file: its document and its chain of
      revisions. *)
Definition payload (name dir rev : string) (md5 : slice_nil) (chain : list string)
    : FileDocWithRevisions :=
    {| TargetDoc := file_doc name dir rev md5;
       Revisions := {| RevsStart := Z.of_nat (length chain); RevsIDs := chain |} |}.

  (** The shared entry of the file, with the revisions [revs] in a line. *)
Fixpoint line (revs : list string) : option RevsTree :=
    match revs with
    | [] => None
    | r :: rest => Some (RevNode r (match line rest with Some t => [t] | None => [] end))
    end.

Definition shared_entry (revs : list string) (removed dissociated : bool) : SharedRef :=
    {| SharedSID := consts_Files +:+ "/f1"; SharedRevisions := line revs;
       Infos := {[ "s1" := {| InfoRule := 0; Binary := true; Removed := removed;
                              Dissociated := dissociated |} ]} |}.

  (** The answers of an instance: [local] is the file "f1" if it exists,
      [entry] its shared entry; no other file and no other entry exist; the
      directories exist; everything else succeeds. *)
Definition instance_with (local : option FileDoc) (entry : option SharedRef)
    : handler upE unit :=
    fun X e w =>
      match e in upE X return X * unit with
      | Lock _ => (None, w)
      | Unlock _ => (tt, w)
      | FileByID id =>
          (match local with
           | Some d => if String.eqb id (DocID d) then Ok d else Error ErrNotExist
           | None => Error ErrNotExist
           end, w)
      | DirByID id => (Ok {| DirDocID := id; DirFullpath := "/" +:+ id |}, w)
      | GetShared _ =>
          (match entry with
           | Some r => Ok r
           | None => Error (CouchError 404 false)
           end, w)
      | GetFileJSON _ => (Some (CouchError 404 false), w)
      | StoreSave _ => (Ok "key1", w)
      | StoreGet _ => (Ok None, w)
      | GetSharingDir => (Ok {| DirDocID := "d0"; DirFullpath := "/Photos" |}, w)
      | recreateParent id => (Ok {| DirDocID := id; DirFullpath := "/" +:+ id |}, w)
      | cleanShortcutID => ("", w)
      | EnsureSharedWithMeDir => (Ok {| DirDocID := "swm"; DirFullpath := "/Inbox" |}, w)
      | DocPath d => (Ok ("/" +:+ DirID d +:+ "/" +:+ DocName d), w)
      | resolveConflictSamePath _ _ => (Ok "", w)
      | conflictName _ _ name _ => (name +:+ " (conflict)", w)
      | CreateFile _ _ _ => (Ok {| file_fd := 3 |}, w)
      | UpdateFileDoc _ _ _ => (None, w)
      | OpenFile _ => (Ok {| reader_fd := 4 |}, w)
      | IoCopy _ _ => (None, w)
      | FileClose _ => ((file_doc "hello.txt" "d0" "3-c" md5_b, None), w)
      | ReaderClose _ => (tt, w)
      | countReceivedFiles => (tt, w)
      | HttpReq _ => ((Some {| StatusCode := 204; ResBody := 0 |}, None), w)
      | RefreshToken _ _ _ _ _ => ((Some {| StatusCode := 204; ResBody := 0 |}, None), w)
      | DecodeKey _ => (Ok "key1", w)
      | ResBodyClose _ => (tt, w)
      end.


  (** The body of the request of a peer. *)
Definition body : Reader := {| reader_fd := 1 |}.

  (** The local file is at the revision "2-b"; its shared entry knows the
      revisions "1-a" and "2-b". *)
Definition local_file : FileDoc := file_doc "hello.txt" "d0" "2-b" md5_a.
Definition local_entry : SharedRef := shared_entry ["1-a"; "2-b"] false false.
Definition bob : handler upE unit := instance_with (Some local_file) (Some local_entry).

Definition won_upload : FileDocWithRevisions := payload "hi.txt" "d0" "2-c" md5_b ["1-a"; "2-c"].
Definition next_upload : FileDocWithRevisions :=
    payload "hi.txt" "d0" "3-c" md5_b ["1-a"; "2-b"; "3-c"].

Definition sample_UploadExistingFile : FileDocWithRevisions -> FileDoc -> Reader -> prog upE (option error) :=
    UploadExistingFile (H := sample_helpers) sample_sharing.

Definition sample_SyncFile : Sharing -> FileDocWithRevisions -> prog upE (option string * option error) :=
    SyncFile (H := sample_helpers).


  (** A sharing without any rule claims no new file. *)
Definition no_rule_sharing : Sharing :=
    {| SID := "s2"; SRev := "1-s"; SharingTriggers := no_triggers; Active := true;
       Owner := false; NbFiles := 0; Rules := []; Members := [owner; recipient];
       SharingCredentials := [] |}.

End UploadSamples.

(** ** Files to send *)

Module SenderSamples.
  Import Upload Sender.

  (** The document of a file in the trash, and the same file out of it. *)
Definition trashed_file : JSONMap :=
    <["trashed" := JBool true]> (<["_id" := JStr "f1"]> (<["name" := JStr "hello.txt"]> ∅)).

Definition kept_file : JSONMap :=
    <["trashed" := JBool false]> (<["_id" := JStr "f1"]> (<["name" := JStr "hello.txt"]> ∅)).

  (** A peer that has the content already: it answers 204 to the metadata. *)
Definition peer_has_content : handler upE unit :=
    fun X e w =>
      match e in upE X return X * unit with
      | HttpReq _ => ((Some {| StatusCode := 204; ResBody := 0 |}, None), w)
      | e' => UploadSamples.instance_with None None _ e' w
      end.

End SenderSamples.

(** ** An instance where the document of the sharing is contended *)

Module RevokeSamples.
  Import Revoke.

  (** An instance where the document of the sharing is in conflict for the
      next [w] updates, and where everything else succeeds. *)
Definition contended : handler revE nat :=
    fun X e w =>
      match e in revE X return X * nat with
      | DeleteOAuthClient _ _ => (None, w)
      | DeleteTrigger _ => (None, w)
      | ClearLastSequenceNumbers _ => (None, w)
      | RemoveSharedRefs _ => (None, w)
      | RemoveSharingDir => (None, w)
      | GetOrganization _ => (None, w)
      | DeleteOrganization _ => (None, w)
      | UpdateSharing s =>
          match w with
          | O => (Ok "2-s", O)
          | S w' => (Error (CouchError 409 false), w')
          end
      | GetSharing _ => (Ok UploadSamples.sample_sharing, w)
      end.

Definition revoke_label (ev : event revE) : string :=
    match ev_call ev with
    | DeleteOAuthClient _ _ => "DeleteOAuthClient"
    | DeleteTrigger _ => "DeleteTrigger"
    | ClearLastSequenceNumbers _ => "ClearLastSequenceNumbers"
    | RemoveSharedRefs _ => "RemoveSharedRefs"
    | RemoveSharingDir => "RemoveSharingDir"
    | GetOrganization _ => "GetOrganization"
    | DeleteOrganization _ => "DeleteOrganization"
    | UpdateSharing _ => "UpdateSharing"
    | GetSharing _ => "GetSharing"
    end.

Definition sample_revoke (conflicts : nat) : Sharing * option error * list string * nat :=
    let r := run contended
               (RevokeByNotification (H := UploadSamples.sample_helpers) UploadSamples.sample_sharing)
               conflicts in
    (r.1.1, map revoke_label (doc_events r.1.2), r.2).

End RevokeSamples.

(** ** Handles of file creations, before anything is written *)

Module AferoMoreSamples.
  Import GoStr Path Afero AferoMore AferoSamples.

Definition sample_WriteAllClose
    : aferoFileCreation -> list bytes -> prog aferoE (FileDoc * option error) :=
    WriteAllClose toy_md5 "/.cozy_trash" "/.cozy_versions" sample_version sample_merge.

  (** The handle of a creation of "hello.txt" with the hash of "hello" and
      5 bytes declared. *)
Definition fresh_handle : aferoFileCreation :=
    {| newdoc := hello_doc (Some (toy_md5 hello)) 5; olddoc := None;
       tmppath := "/hello.txt123"; w := 0; size := 5; maxsize := -1; capsize := 0;
       hash := []; meta := false; err := None |}.

  (** "hello" in two chunks. *)
Definition hello_chunks : list bytes :=
    [[Byte.x68; Byte.x65]; [Byte.x6c; Byte.x6c; Byte.x6f]].

  (** The file "hello.txt" as it is before a new content is written. *)
Definition old_hello : FileDoc :=
    {| DocID := "0123456789abcdef0123456789abcdef"; DocRev := "1-a";
       DocName := "hello.txt"; DirID := "d1";
       ByteSize := 3; MD5Sum := Some [Byte.x01]; Mime := "text/plain"; Class := "text";
       CreatedAt := 0; UpdatedAt := 0; Executable := false; Trashed := false;
       Tags := []; ReferencedBy := []; InternalID := "ABCDEFGHIJKLMNOP";
       FileMetadata := ∅; fullpath := "" |}.

  (** The handle of a new content, "hello", for this file. *)
Definition update_handle : aferoFileCreation :=
    {| newdoc := set_MD5Sum (Some (toy_md5 hello)) (set_ByteSize 5 old_hello);
       olddoc := Some old_hello;
       tmppath := "/hello.txt123"; w := 5; size := 5; maxsize := -1; capsize := 0;
       hash := hello; meta := false; err := None |}.

  (** A file system where the temporary file cannot be moved. *)
Definition stuck_tmp : handler aferoE unit :=
    fun X e w =>
      match e in aferoE X return X * unit with
      | FsRename a b =>
          (if String.eqb a "/hello.txt123" then Some (Other "rename failed") else None, w)
      | e' => fine _ e' w
      end.

  (** A file system where every path is taken. *)
Definition occupied : handler aferoE unit :=
    fun X e w =>
      match e in aferoE X return X * unit with
      | FsStat _ => (None, w)
      | e' => fine _ e' w
      end.

Definition afero_label (ev : event aferoE) : string :=
    match ev_call ev with
    | FsStat p => "Stat " +:+ p
    | FsRename a b => "Rename " +:+ a +:+ " " +:+ b
    | FsRemove p => "Remove " +:+ p
    | FsMkdirAll p => "MkdirAll " +:+ p
    | FWrite _ => "Write"
    | FClose => "Close"
    | MetaWrite _ => "MetaWrite"
    | MetaAbort _ => "MetaAbort"
    | MetaClose => "MetaClose"
    | MuLock => "Lock"
    | MuUnlock => "Unlock"
    | IxDirChildExists _ _ => "DirChildExists"
    | IxFilePath _ => "FilePath"
    | IxUpdateFileDoc _ _ => "UpdateFileDoc"
    | IxCreateFileDoc _ => "CreateFileDoc"
    | IxCreateNamedFileDoc _ => "CreateNamedFileDoc"
    | IxDeleteFileDoc _ => "DeleteFileDoc"
    | IxCreateVersion _ => "CreateVersion"
    | IxDeleteVersion _ => "DeleteVersion"
    | FindVersionsToClean _ _ => "FindVersionsToClean"
    | PushDiskQuotaAlert => "PushDiskQuotaAlert"
    end.

End AferoMoreSamples.

(** ** An instance that holds an upload key *)

Module UploadMoreSamples.
  Import GoStr Upload UploadTrace UploadSamples.

  (** The instance [instance_with local entry], where the store of the
      upload keys holds [target] for every key. *)
Definition with_key (target : FileDocWithRevisions) (local : option FileDoc)
    (entry : option SharedRef) : handler upE unit :=
    fun X e w =>
      match e in upE X return X * unit with
      | StoreGet _ => (Ok (Some target), w)
      | e' => instance_with local entry _ e' w
      end.

  (** The same instance, where the path of every new file is taken at the
      first try, and free under the name "hi (2).txt". *)
Definition crowded (target : FileDocWithRevisions) : handler upE unit :=
    fun X e w =>
      match e in upE X return X * unit with
      | CreateFile _ d _ =>
          (if String.eqb (DocName d) "hi (2).txt" then Ok {| file_fd := 3 |}
           else Error ErrExist, w)
      | resolveConflictSamePath _ _ => (Ok "hi (2).txt", w)
      | e' => with_key target None None _ e' w
      end.

  (** A sharing in its initial synchronization. *)
Definition initial_sharing : Sharing :=
    {| SID := "s1"; SRev := "1-s"; SharingTriggers := no_triggers; Active := true;
       Owner := false; NbFiles := 3; Rules := [sample_rule];
       Members := [owner; recipient];
       SharingCredentials := [{| XorKey := []; InboundClientID := "c1";
                                 AccessToken := Some "token" |}] |}.

Definition sample_HandleFileUpload : Sharing -> string -> Reader -> prog upE (option error) :=
    HandleFileUpload (H := sample_helpers).

End UploadMoreSamples.

(** ** Peers *)

Module SenderMoreSamples.
  Import GoStr Upload Sender SenderSamples.

  (** A peer that asks for the content: it answers 200 to the metadata,
      with a key, and 204 to the content. *)
Definition peer_wants_content : handler upE unit :=
    fun X e w =>
      match e in upE X return X * unit with
      | HttpReq opts =>
          ((Some {| StatusCode := match ReqBodyOf opts with
                                  | BodyBytes _ => 200
                                  | BodyReader _ => 204
                                  end;
                    ResBody := 0 |}, None), w)
      | FileByID id => (Ok (UploadSamples.file_doc "hello.txt" "d0" "2-b" UploadSamples.md5_a), w)
      | e' => UploadSamples.instance_with None None _ e' w
      end.

  (** A peer in trouble: it answers 503. *)
Definition peer_unavailable : handler upE unit :=
    fun X e w =>
      match e in upE X return X * unit with
      | HttpReq _ =>
          ((Some {| StatusCode := 503; ResBody := 0 |}, Some (Other "503 Service Unavailable")),
           w)
      | e' => UploadSamples.instance_with None None _ e' w
      end.

Definition sample_uploadFile : JSONMap -> prog upE (option error) :=
    fun file => uploadFile (H := UploadSamples.sample_helpers) UploadSamples.sample_sharing
                  UploadSamples.owner file 0.

End SenderMoreSamples.

(** ** Sharings to revoke *)

Module RevokeMoreSamples.
  Import Revoke RevokeMore RevokeSamples.

  (** A sharing with three triggers; two of its identifiers are empty. *)
Definition with_triggers : Sharing :=
    set_Triggers {| TrackID := "t1"; TrackIDs := ["t2"; ""]; ReplicateID := "r1";
                    UploadID := "" |}
      UploadSamples.sample_sharing.

  (** The same sharing once its recipient is revoked. *)
Definition without_recipient : Sharing :=
    {| SID := SID with_triggers; SRev := SRev with_triggers;
       SharingTriggers := SharingTriggers with_triggers; Active := true;
       Owner := true; NbFiles := 0; Rules := Rules with_triggers;
       Members := [UploadSamples.owner;
                   set_MemberStatus MemberStatusRevoked UploadSamples.recipient];
       SharingCredentials := SharingCredentials with_triggers |}.

  (** An instance where the deletion of the trigger [t2] answers [a], and
      where everything else succeeds. *)
Definition trigger_answers (a : option error) : handler revE unit :=
    fun X e w =>
      match e in revE X return X * unit with
      | DeleteTrigger id => (if String.eqb id "t2" then a else None, w)
      | DeleteOAuthClient _ _ => (None, w)
      | ClearLastSequenceNumbers _ => (None, w)
      | RemoveSharedRefs _ => (None, w)
      | RemoveSharingDir => (None, w)
      | GetOrganization _ => (None, w)
      | DeleteOrganization _ => (None, w)
      | UpdateSharing s => (Ok "2-s", w)
      | GetSharing _ => (Ok UploadSamples.sample_sharing, w)
      end.

Definition step_label (ev : event revE) : string :=
    match ev_call ev with
    | DeleteTrigger id => "DeleteTrigger " +:+ id
    | _ => revoke_label ev
    end.

Definition sample_RemoveTriggers (a : option error) : Sharing * option error * list string :=
    let r := run (trigger_answers a) (RemoveTriggers with_triggers) tt in
    (r.1.1, map step_label r.1.2).

Definition sample_NoMoreRecipient (s : Sharing) : option error * list string :=
    let r := run (trigger_answers None) (NoMoreRecipient s) tt in
    (r.1.1.2, map step_label r.1.2).

Definition sample_RevokeByNotification (a : option error) : option error * list string :=
    let r := run (trigger_answers a)
               (RevokeByNotification (H := UploadSamples.sample_helpers) with_triggers) tt in
    (r.1.1.2, map step_label r.1.2).

End RevokeMoreSamples.

(** * Properties *)

(** ** Running programs *)

Module ProgFacts.
  Section Facts.
    Context {E : Type -> Type}.


Lemma run_vis {W R X} (h : handler E W) (e : E X) (k : X -> prog E R) w :
      run h (Vis e k) w =
        (let '(r, t, w2) := run h (k (h _ e w).1) (h _ e w).2 in
         (r, Ev _ e (h _ e w).1 :: t, w2)).
    Proof. simpl. destruct (h X e w) as [x w1]. reflexivity. Qed.

Lemma run_bind {W A B} (h : handler E W) (p : prog E A) (f : A -> prog E B) w :
      run h (bind p f) w =
        (let '(a, t1, w1) := run h p w in
         let '(b, t2, w2) := run h (f a) w1 in
         (b, t1 ++ t2, w2)).
    Proof.
      revert w. induction p as [a | X e k IH]; intros w.
      - simpl. destruct (run h (f a) w) as [[b t2] w2]. reflexivity.
      - simpl. destruct (h X e w) as [x w1]. rewrite IH.
        destruct (run h (k x) w1) as [[a t1] w2].
        destruct (run h (f a) w2) as [[b t2] w3]. reflexivity.
    Qed.

Lemma run_call {W X} (h : handler E W) (e : E X) w :
      run h (call e) w = ((h _ e w).1, [Ev _ e (h _ e w).1], (h _ e w).2).
    Proof. unfold call. simpl. destruct (h X e w) as [x w1]. reflexivity. Qed.

Lemma avoids_bind P {A B} (p : prog E A) (f : A -> prog E B) :
      avoids P p -> (forall a, avoids P (f a)) -> avoids P (bind p f).
    Proof.
      intros Hp Hf. induction Hp as [r | X e k He Hk IH]; simpl.
      - apply Hf.
      - constructor; [exact He | exact IH].
    Qed.

Lemma avoids_impl (P Q : event E -> bool) {R} (p : prog E R) :
      (forall ev, Q ev = true -> P ev = true) -> avoids P p -> avoids Q p.
    Proof.
      intros HQ Hp. induction Hp as [r | X e k He Hk IH]; constructor; [| exact IH].
      intros x. destruct (Q (Ev X e x)) eqn:Hq; [| reflexivity].
      apply HQ in Hq. rewrite He in Hq. discriminate.
    Qed.

Lemma avoids_filter P {W R} (h : handler E W) (p : prog E R) w :
      avoids P p -> filter (fun ev => P ev = true) (run h p w).1.2 = [].
    Proof.
      intros Hp. revert w. induction Hp as [r | X e k He Hk IH]; intros w.
      - reflexivity.
      - simpl. destruct (h X e w) as [x w1]. specialize (IH x w1).
        destruct (run h (k x) w1) as [[r t] w2]. simpl in *.
        rewrite filter_cons. rewrite He. simpl. exact IH.
    Qed.

  End Facts.
End ProgFacts.
Import ProgFacts.

(** ** Names of the objects in Swift *)

Module SwiftFacts.
  Import GoStr Swift.

Lemma object_name_v3_split (docID internalID : string) :
    String.length docID = 32%nat ->
    String.length internalID = 16%nat ->
    MakeObjectNameV3 docID internalID = spec_object_name docID internalID.
  Proof.
    intros Hdoc Hint.
    unfold MakeObjectNameV3, spec_object_name, slice_from, slice.
    rewrite Hdoc, Hint. reflexivity.
  Qed.

  (** C8, as the code has it.  For a document id of 32 bytes and an
      internal id of 16 bytes the name of the object is
      docid[0:22]/docid[22:27]/docid[27:32]/internal-id, and the container
      of the instance starts with "cozy-v3-". *)
Theorem object_name_v3 (docID internalID dbPrefix : string)
    (Hdoc : String.length docID = 32%nat)
    (Hint : String.length internalID = 16%nat) :
    MakeObjectNameV3 docID internalID = spec_object_name docID internalID
    /\ HasPrefix (container dbPrefix) "cozy-v3-" = true.
  Proof.
    split.
    - apply object_name_v3_split; assumption.
    - unfold HasPrefix, container, swiftV3ContainerPrefix.
      destruct dbPrefix; reflexivity.
  Qed.

Lemma object_name_v3_witness :
    MakeObjectNameV3 "0123456789abcdef0123456789abcdef" "ABCDEFGHIJKLMNOP"
    = "0123456789abcdef012345/6789a/bcdef/ABCDEFGHIJKLMNOP"
    /\ HasPrefix (container "cozy1a2b") "cozy-v3-" = true.
  Proof.
    exact (object_name_v3 "0123456789abcdef0123456789abcdef" "ABCDEFGHIJKLMNOP" "cozy1a2b"
             eq_refl eq_refl).
  Defined.

  (** For the other lengths the name is the document id, a slash, and the
      internal id. *)
Lemma object_name_v3_other (docID internalID : string) :
    String.length docID <> 32%nat \/ String.length internalID <> 16%nat ->
    MakeObjectNameV3 docID internalID = docID +:+ "/" +:+ internalID.
  Proof.
    intros Hlen. unfold MakeObjectNameV3.
    destruct (Nat.eqb_spec (String.length docID) 32);
      destruct (Nat.eqb_spec (String.length internalID) 16); simpl; try reflexivity.
    destruct Hlen; contradiction.
  Qed.

Lemma append_assoc (a b c : string) : (a +:+ b) +:+ c = a +:+ (b +:+ c).
  Proof.
    induction a as [| x a IH]; [reflexivity |].
    change (String x ((a +:+ b) +:+ c) = String x (a +:+ (b +:+ c))).
    f_equal. exact IH.
  Qed.

  (** Two versions of a file share the part of the name that comes from
      the id of the file. *)
Lemma object_name_v3_versions (docID i1 i2 : string) :
    String.length docID = 32%nat ->
    String.length i1 = 16%nat -> String.length i2 = 16%nat ->
    exists folder,
      MakeObjectNameV3 docID i1 = folder +:+ i1 /\ MakeObjectNameV3 docID i2 = folder +:+ i2.
  Proof.
    intros Hd H1 H2.
    exists (slice docID 0 22 +:+ "/" +:+ slice docID 22 27 +:+ "/" +:+ slice docID 27 32 +:+ "/").
    rewrite (object_name_v3_split docID i1 Hd H1).
    rewrite (object_name_v3_split docID i2 Hd H2).
    unfold spec_object_name. rewrite !append_assoc. split; reflexivity.
  Qed.

  (** C8 as stated fails: an id of 36 bytes (a UUID with dashes) is not
      split, while the specification splits every id. *)
Lemma object_name_v3_not_always :
    MakeObjectNameV3 "123e4567-e89b-12d3-a456-426614174000" "ABCDEFGHIJKLMNOP"
    = "123e4567-e89b-12d3-a456-426614174000/ABCDEFGHIJKLMNOP"
    /\ spec_object_name "123e4567-e89b-12d3-a456-426614174000" "ABCDEFGHIJKLMNOP"
       = "123e4567-e89b-12d3-a45/6-426/61417/ABCDEFGHIJKLMNOP"
    /\ MakeObjectNameV3 "123e4567-e89b-12d3-a456-426614174000" "ABCDEFGHIJKLMNOP"
       <> spec_object_name "123e4567-e89b-12d3-a456-426614174000" "ABCDEFGHIJKLMNOP".
  Proof.
    split; [reflexivity | split; [reflexivity |]].
    intros Heq. vm_compute in Heq. discriminate Heq.
  Qed.

End SwiftFacts.

(** ** The afero back-end *)

Module AferoFacts.
  Import GoStr Path Afero AferoSamples.

Example Clean_dots : Clean "/a//b/../c/." = "/a/c".
  Proof. reflexivity. Qed.

Example Clean_root : Clean "/.." = "/" /\ Clean "" = "." /\ Clean "a/../.." = "..".
  Proof. repeat split. Qed.

Example Dir_of_version : Dir "/.cozy_versions/abcd/efgh/v1" = "/.cozy_versions/abcd/efgh".
  Proof. reflexivity. Qed.




  (** Without a descendant, an absolute rename asks the file system. *)
Example safeRenameDir_sibling :
    safeRenameDir "/photos" "/pictures"
    = Vis (FsStat "/pictures")
        (fun err => match err with
                    | None => Ret (Some ErrExist)
                    | Some e => if negb (bool_decide (e = ErrNotExist)) then Ret (Some e)
                                else call (FsRename "/photos" "/pictures")
                    end).
  Proof. reflexivity. Qed.

  (** *** Closing a file creation handle *)

Section CloseFacts.
    Variable md5 : bytes -> bytes.
    Variable TrashDirName VersionsDirName : string.
    Variable NewVersion : FileDoc -> Version.
    Variable merge_meta : Metadata -> Metadata -> Metadata.

Let Close := Close md5 TrashDirName VersionsDirName NewVersion merge_meta.
Let Close_body := Close_body md5 TrashDirName VersionsDirName NewVersion merge_meta.
Let Close_checks := Close_checks md5 TrashDirName VersionsDirName NewVersion.
Let Close_locked := Close_locked TrashDirName VersionsDirName NewVersion.

  (** A write that reports no error feeds the hash with the bytes and
      counts what the file took. *)
Lemma Write_feeds_hash W (h : handler aferoE W) w f p f' n :
    (run h (Write f p) w).1.1 = (f', (n, None)) ->
    hash f' = hash f ++ p /\ Afero.w f' = Afero.w f + n /\ err f' = err f.
  Proof.
    unfold Write. rewrite run_bind.
    destruct (run h _ w) as [[f1 t1] w1] eqn:Hmeta.
    assert (Hf1 : hash f1 = hash f /\ Afero.w f1 = Afero.w f /\ err f1 = err f
                  /\ maxsize f1 = maxsize f /\ size f1 = size f).
    { destruct (meta f); simpl in Hmeta.
      - destruct (h _ (MetaWrite p) w) as [[e|] w2]; simpl in Hmeta.
        + destruct (bool_decide (e = ErrClosedPipe)); simpl in Hmeta.
          * injection Hmeta as <- _ _. repeat split.
          * destruct (h _ (MetaAbort e) w2). injection Hmeta as <- _ _. repeat split.
        + injection Hmeta as <- _ _. repeat split.
      - injection Hmeta as <- _ _. repeat split. }
    destruct Hf1 as (Hh & Hw & He & Hm & Hs).
    simpl. destruct (h _ (FWrite p) w1) as [[n0 [e|]] w2]; simpl.
    - discriminate.
    - destruct ((maxsize f1 >=? 0) && (Afero.w f1 + n0 >? maxsize f1)); simpl; [discriminate |].
      destruct ((size f1 >=? 0) && (Afero.w f1 + n0 >? size f1)); simpl; [discriminate |].
      intros [= <- <-]. simpl. rewrite Hh, Hw, He. repeat split.
  Qed.

Lemma Close_result W (h : handler aferoE W) w f :
    (run h (Close f) w).1.1 = (run h (Close_body f) w).1.1.
  Proof.
    unfold Close, Afero.Close. rewrite run_bind. fold Close_body.
    destruct (run h (Close_body f) w) as [[r t] w1].
    unfold Close_deferred. destruct r as [nd [e|]]; simpl.
    - destruct (h _ (FsRemove (tmppath f)) w1) as [x w2].
      destruct (olddoc f); simpl; [reflexivity|].
      destruct (IsCouchError e); simpl; [reflexivity|].
      destruct (h _ (IxDeleteFileDoc nd) w2). reflexivity.
    - reflexivity.
  Qed.

Lemma bytes_Equal_Some a b : bytes_Equal (Some a) (Some b) = bool_decide (a = b).
  Proof. reflexivity. Qed.

Lemma checks_hash W (h : handler aferoE W) w f nd1 d :
    MD5Sum nd1 = Some d -> d <> md5 (hash f) ->
    run h (Close_checks f nd1) w = ((nd1, Some ErrInvalidHash), [], w).
  Proof.
    intros Hd Hne. unfold Close_checks, Afero.Close_checks.
    rewrite Hd. rewrite Hd. rewrite bytes_Equal_Some.
    rewrite bool_decide_eq_false_2 by exact Hne. reflexivity.
  Qed.

Lemma checks_size W (h : handler aferoE W) w f nd1 :
    MD5Sum nd1 = None \/ MD5Sum nd1 = Some (md5 (hash f)) ->
    0 <= size f -> ByteSize nd1 <> Afero.w f ->
    (run h (Close_checks f nd1) w).1.1.2 = Some ErrContentLengthMismatch.
  Proof.
    intros Hd Hs Hne. unfold Close_checks, Afero.Close_checks.
    assert (Hlt : (size f <? 0) = false) by lia.
    rewrite Hlt.
    destruct Hd as [Hd | Hd]; rewrite Hd; simpl.
    - rewrite bytes_Equal_Some, bool_decide_eq_true_2 by reflexivity. simpl.
      assert (Hb : (ByteSize nd1 =? Afero.w f) = false) by lia.
      rewrite Hb. reflexivity.
    - rewrite Hd, bytes_Equal_Some, bool_decide_eq_true_2 by reflexivity. simpl.
      assert (Hb : (ByteSize nd1 =? Afero.w f) = false) by lia.
      rewrite Hb. reflexivity.
  Qed.

  (** Without an error of a write or of the close, [Close] gets to the
      checks, with the hash and the size that were declared. *)
Lemma body_reaches_checks W (h : handler aferoE W) w f :
    err f = None -> (h _ FClose w).1 = None ->
    exists nd1 w1,
      MD5Sum nd1 = MD5Sum (newdoc f) /\ ByteSize nd1 = ByteSize (newdoc f)
      /\ (run h (Close_body f) w).1.1 = (run h (Close_checks f nd1) w1).1.1.
  Proof.
    intros He Hc. unfold Close_body, Afero.Close_body. fold Close_checks.
    simpl. destruct (h _ FClose w) as [cerr w1]. simpl in Hc. subst cerr. simpl.
    rewrite He. destruct (meta f); simpl.
    - destruct (h _ MetaClose w1) as [[m | e] w2]; simpl.
      + exists (MergeMetadata merge_meta (newdoc f) m), w2. repeat split.
        destruct (run h _ w2) as [[r t] w3]. reflexivity.
      + exists (newdoc f), w2. repeat split.
        destruct (run h _ w2) as [[r t] w3]. reflexivity.
    - exists (newdoc f), w1. repeat split.
      destruct (run h _ w1) as [[r t] w3]. reflexivity.
  Qed.

Ltac avoid_step :=
    first
      [ apply avoids_ret
      | apply avoids_bind
      | apply avoids_vis; [intros; reflexivity | intros]
      | match goal with
        | |- avoids _ (match ?x with _ => _ end) => destruct x
        | |- avoids _ (if ?x then _ else _) => destruct x
        end
      | intros ].

Lemma cleanOldVersions_no_delete l :
    avoids is_delete_doc (cleanOldVersions VersionsDirName l).
  Proof.
    induction l as [| v l IH]; simpl.
    - apply avoids_ret.
    - unfold cleanOldVersion, call. simpl.
      repeat first [ exact IH | progress avoid_step ].
  Qed.

Lemma Close_locked_no_delete f nd : avoids is_delete_doc (Close_locked f nd).
  Proof.
    unfold Close_locked, Afero.Close_locked, call.
    repeat first [ apply cleanOldVersions_no_delete | progress avoid_step ].
  Qed.

  (** Before its deferred function, [Close] never deletes a document from
      the index. *)
Lemma Close_body_no_delete f : avoids is_delete_doc (Close_body f).
  Proof.
    unfold Close_body, Afero.Close_body, Afero.Close_checks, call.
    fold Close_locked.
    repeat first [ apply Close_locked_no_delete | progress avoid_step ].
  Qed.

Lemma Close_cleanup W (h : handler aferoE W) w f e0 :
    (run h (Close f) w).1.1.2 = Some e0 ->
    let nd := (run h (Close f) w).1.1.1 in
    let t := (run h (Close f) w).1.2 in
    match olddoc f, IsCouchError e0 with
    | None, false =>
        exists pre r1 r2,
          t = pre ++ [Ev _ (FsRemove (tmppath f)) r1; Ev _ (IxDeleteFileDoc nd) r2]
    | _, _ =>
        (exists pre r1, t = pre ++ [Ev _ (FsRemove (tmppath f)) r1])
        /\ filter (fun ev => is_delete_doc ev = true) t = []
    end.
  Proof.
    unfold Close, Afero.Close. rewrite run_bind. fold Close_body.
    pose proof (avoids_filter is_delete_doc h (Close_body f) w (Close_body_no_delete f)) as Hav.
    destruct (run h (Close_body f) w) as [[r t] w1]. simpl in Hav.
    unfold Close_deferred. destruct r as [nd [e|]]; simpl.
    - destruct (h _ (FsRemove (tmppath f)) w1) as [x w2] eqn:Hx.
      destruct (olddoc f); simpl.
      + intros [= ->]. split; [eauto |].
        rewrite filter_app, Hav. reflexivity.
      + destruct (IsCouchError e) eqn:Hce; simpl.
        * intros [= ->]. rewrite Hce. split; [eauto |].
          rewrite filter_app, Hav. reflexivity.
        * destruct (h _ (IxDeleteFileDoc nd) w2) as [y w3]. simpl.
          intros [= ->]. rewrite Hce. eauto.
    - discriminate.
  Qed.

  (** C5, as the code has it.  When no write and no close of the temporary
      file has failed, [Close] fails with ErrInvalidHash if a hash was
      declared and differs from the hash of the written bytes, and with
      ErrContentLengthMismatch if the hash check passes and a declared size
      differs from the number of bytes written.  Whatever error [Close]
      returns, its last calls remove the temporary file and, for a new file
      (no old document) and an error that is not a CouchDB error, delete
      the document from the index; for a CouchDB error or an existing file
      no document is deleted from the index. *)
Theorem Close_errors W (h : handler aferoE W) (w : W) (f : aferoFileCreation) :
    let out := run h (Close f) w in
    (err f = None -> (h _ FClose w).1 = None ->
       (forall d, MD5Sum (newdoc f) = Some d -> d <> md5 (hash f) ->
                  out.1.1.2 = Some ErrInvalidHash)
       /\ ((MD5Sum (newdoc f) = None \/ MD5Sum (newdoc f) = Some (md5 (hash f))) ->
           0 <= size f -> ByteSize (newdoc f) <> Afero.w f ->
           out.1.1.2 = Some ErrContentLengthMismatch))
    /\ (forall e0, out.1.1.2 = Some e0 ->
          match olddoc f, IsCouchError e0 with
          | None, false =>
              exists pre r1 r2,
                out.1.2 = pre ++ [Ev _ (FsRemove (tmppath f)) r1;
                                  Ev _ (IxDeleteFileDoc out.1.1.1) r2]
          | _, _ =>
              (exists pre r1, out.1.2 = pre ++ [Ev _ (FsRemove (tmppath f)) r1])
              /\ filter (fun ev => is_delete_doc ev = true) out.1.2 = []
          end).
  Proof.
    intros out. subst out. split.
    - intros He Hc.
      destruct (body_reaches_checks W h w f He Hc) as (nd1 & w1 & Hm & Hb & Hr).
      rewrite Close_result, Hr. split.
      + intros d Hd Hne. rewrite (checks_hash W h w1 f nd1 d); [reflexivity | congruence | exact Hne].
      + intros Hd Hs Hne. apply checks_size; [| exact Hs | congruence].
        rewrite Hm. exact Hd.
    - intros e0 He0. exact (Close_cleanup W h w f e0 He0).
  Qed.

End CloseFacts.

  (** *** Runs of [Close] against a file system where everything succeeds *)

Lemma Close_errors_witness :
    (run fine (sample_Close (hello_handle (Some hello) 5)) tt).1.1.2 = Some ErrInvalidHash
    /\ (run fine (sample_Close (hello_handle None 7)) tt).1.1.2 = Some ErrContentLengthMismatch.
  Proof.
    split.
    - apply (proj1 (proj1 (Close_errors toy_md5 "/.cozy_trash" "/.cozy_versions" sample_version
                             sample_merge unit fine tt (hello_handle (Some hello) 5))
                      eq_refl eq_refl) hello eq_refl).
      discriminate.
    - apply (proj2 (proj1 (Close_errors toy_md5 "/.cozy_trash" "/.cozy_versions" sample_version
                             sample_merge unit fine tt (hello_handle None 7))
                      eq_refl eq_refl)).
      + left. reflexivity.
      + discriminate.
      + discriminate.
  Defined.

  (** C5 as stated fails in three ways.  (1) A new file whose document
      CouchDB refuses with a conflict: [Close] returns the error and no call
      deletes the document from the index.  (2) A declared size that differs
      from the bytes written, with a declared hash that differs too: the
      error is ErrInvalidHash, not ErrContentLengthMismatch.  (3) A write
      that went over the maximal size: [Close] returns ErrFileTooBig, though
      the declared hash differs from the hash of what was written. *)
Lemma Close_not_always :
    (olddoc (hello_handle (Some (toy_md5 hello)) 5) = None
     /\ (run index_conflict (sample_Close (hello_handle (Some (toy_md5 hello)) 5)) tt).1.1.2
        = Some (CouchError 409 false)
     /\ filter (fun ev => is_delete_doc ev = true)
          (run index_conflict (sample_Close (hello_handle (Some (toy_md5 hello)) 5)) tt).1.2
        = [])
    /\ (ByteSize (newdoc (hello_handle (Some hello) 7)) <> w (hello_handle (Some hello) 7)
        /\ (run fine (sample_Close (hello_handle (Some hello) 7)) tt).1.1.2
           = Some ErrInvalidHash)
    /\ ((run fine (sample_Write small_handle hello) tt).1.1
        = (small_handle_written, (5, Some ErrFileTooBig))
        /\ MD5Sum (newdoc small_handle_written) <> Some (toy_md5 (hash small_handle_written))
        /\ (run fine (sample_Close small_handle_written) tt).1.1.2 = Some ErrFileTooBig).
  Proof.
    split; [| split].
    - split; [reflexivity | split; vm_compute; reflexivity].
    - split; [discriminate | vm_compute; reflexivity].
    - split; [vm_compute; reflexivity | split; [discriminate | vm_compute; reflexivity]].
  Qed.

End AferoFacts.

(** ** The upload of files *)

Module UploadFacts.
  Import GoStr Upload UploadTrace UploadSamples.

Ltac avoid_step :=
    first
      [ apply avoids_ret
      | apply avoids_bind
      | apply avoids_vis; [intros; reflexivity | intros]
      | match goal with
        | |- avoids _ (match ?x with _ => _ end) => destruct x
        | |- avoids _ (if ?x then _ else _) => destruct x
        end
      | intros ].

Section Generic.
    Context {H : Helpers}.

  (** C10.  A target without a hash makes [SyncFile] return ErrInvalidHash
      at once: no call is made (no lock is taken, nothing is read), and the
      collaborators are left as they were. *)
Theorem SyncFile_empty_hash (s : Sharing) (target : FileDocWithRevisions)
    (Hempty : len (MD5Sum target) = 0%nat) :
    forall W (h : handler upE W) (w : W),
      run h (SyncFile s target) w = ((None, Some ErrInvalidHash), [], w).
  Proof.
    intros W h w. unfold SyncFile. rewrite Hempty. reflexivity.
  Qed.

End Generic.


  (** *** The parts of the upload, run against any instance *)

Section Parts.
    Context {H : Helpers}.
    Variables (W : Type) (h : handler upE W).








End Parts.

  (** *** The content first, then the rename *)

Section Order.
    Context {H : Helpers}.
    Variables (W : Type) (h : handler upE W).








End Order.

  (** *** The probe of the metadata *)

Section Sync.
    Context {H : Helpers}.
    Variables (s : Sharing) (target : FileDocWithRevisions).
    Variables (W : Type) (h : handler upE W).
    Hypothesis Hhash : len (MD5Sum target) <> 0%nat.
    Hypothesis Hlock :
      forall w, (h _ (Lock ("shared/" +:+ consts_Files +:+ "/" +:+ DocID target)) w).1 = None.

Let sid := consts_Files +:+ "/" +:+ DocID target.

  (** With a hash and with the lock, [SyncFile] is its locked part between
      the lock and the unlock. *)
Lemma SyncFile_run w :
    run h (SyncFile s target) w =
      (let l := h _ (Lock ("shared/" +:+ sid)) w in
       let '(r, t, w1) := run h (SyncFile_locked s target sid) l.2 in
       let u := h _ (Unlock ("shared/" +:+ sid)) w1 in
       (r, Ev _ (Lock ("shared/" +:+ sid)) None :: t ++ [Ev _ (Unlock ("shared/" +:+ sid)) u.1],
        u.2)).
  Proof.
    unfold SyncFile. fold sid.
    destruct (Nat.eqb_spec (len (MD5Sum target)) 0) as [E | _]; [contradiction |].
    rewrite run_bind, run_call.
    pose proof (Hlock w) as Hl. fold sid in Hl.
    destruct (h _ (Lock ("shared/" +:+ sid)) w) as [x w0]. simpl in Hl. subst x. cbn [fst snd].
    rewrite run_bind. destruct (run h (SyncFile_locked s target sid) w0) as [[r t] w1]. simpl.
    destruct (h _ (Unlock ("shared/" +:+ sid)) w1) as [u w2]. reflexivity.
  Qed.

  (** What the locked part returns and writes is what [SyncFile] returns
      and writes. *)
Lemma SyncFile_of_locked w :
    exists w0,
      (run h (SyncFile s target) w).1.1 = (run h (SyncFile_locked s target sid) w0).1.1
      /\ (forall P : event upE -> bool,
            P (Ev _ (Lock ("shared/" +:+ sid)) None) = false ->
            (forall u, P (Ev _ (Unlock ("shared/" +:+ sid)) u) = false) ->
            filter (fun ev => P ev = true) (run h (SyncFile s target) w).1.2
            = filter (fun ev => P ev = true) (run h (SyncFile_locked s target sid) w0).1.2)
      /\ (forall ev, ev ∈ (run h (SyncFile_locked s target sid) w0).1.2 ->
                     ev ∈ (run h (SyncFile s target) w).1.2).
  Proof.
    rewrite SyncFile_run. exists (h _ (Lock ("shared/" +:+ sid)) w).2. cbv zeta.
    destruct (run h (SyncFile_locked s target sid) (h _ (Lock ("shared/" +:+ sid)) w).2)
      as [[r t] w1]. cbn [fst snd].
    split; [reflexivity | split].
    - intros P Hl Hu. rewrite filter_cons, Hl. simpl.
      rewrite filter_app, filter_cons, Hu. simpl. rewrite app_nil_r. reflexivity.
    - intros ev Hev. apply elem_of_cons. right. apply elem_of_app. left. exact Hev.
  Qed.

Lemma locked_new_unclaimed w :
    (forall w', (h _ (FileByID (DocID target)) w').1 = Error ErrNotExist) ->
    findRuleForNewFile s target = None ->
    exists w1, run h (SyncFile_locked s target sid) w
               = ((None, Some ErrSafety), [Ev _ (FileByID (DocID target)) (Error ErrNotExist)], w1).
  Proof.
    intros Hf Hr. specialize (Hf w). unfold SyncFile_locked. simpl.
    destruct (h _ (FileByID (DocID target)) w) as [x w1]. simpl in Hf. subst x. simpl.
    rewrite Hr. eauto.
  Qed.

Lemma locked_refused w current r :
    (forall w', (h _ (FileByID (DocID target)) w').1 = Ok current) ->
    (forall w', (h _ (GetShared sid) w').1 = r) ->
    refused (SID s) r = true ->
    exists w1, run h (SyncFile_locked s target sid) w
               = ((None, Some ErrSafety),
                  [Ev _ (FileByID (DocID target)) (Ok current); Ev _ (GetShared sid) r], w1).
  Proof.
    intros Hf Hg Hr. specialize (Hf w). unfold SyncFile_locked. simpl.
    destruct (h _ (FileByID (DocID target)) w) as [x w1]. simpl in Hf. subst x. simpl.
    specialize (Hg w1).
    destruct (h _ (GetShared sid) w1) as [x w2]. simpl in Hg. subst x.
    destruct r as [ref | e]; simpl in *.
    - destruct (Infos ref !! SID s) as [infos|]; [rewrite Hr |]; eauto.
    - rewrite Hr. eauto.
  Qed.






Section Entry.
      Variables (current : FileDoc) (ref : SharedRef) (infos : SharedInfo).
      Hypothesis Hfile : forall w, (h _ (FileByID (DocID target)) w).1 = Ok current.
      Hypothesis Href :
        forall w, (h _ (GetShared (consts_Files +:+ "/" +:+ DocID target)) w).1 = Ok ref.
      Hypothesis Hinfo : Infos ref !! SID s = Some infos.
      Hypothesis Hkept : Removed infos && negb (Dissociated infos) = false.



End Entry.
End Sync.

  (** *** The conflicts of a received content *)

Section Conflicts.
  Context {H : Helpers}.
  Variables (W : Type) (h : handler upE W).
  Variables (s : Sharing) (target : FileDocWithRevisions) (current : FileDoc) (body : Reader).
  Variables (ref : SharedRef) (infos : SharedInfo) (rule : Rule) (nd0 : FileDoc).
  Hypothesis Hsafe_id : forall t f, DocID (copySafeFieldsToFile t f) = DocID f.
  Hypothesis Hsafe_rev : forall t f, DocRev (copySafeFieldsToFile t f) = DocRev f.
  Hypothesis Href : forall w, (h _ (GetShared (consts_Files +:+ "/" +:+ DocID target)) w).1 = Ok ref.
  Hypothesis Hinfo : Infos ref !! SID s = Some infos.
  Hypothesis Hkept : Removed infos && negb (Dissociated infos) = false.
  Hypothesis Hrule : index (Rules s) (InfoRule infos) = Some rule.
  Hypothesis Hprep : forall w,
    (run h (prepareFileWithAncestors s (mergedDoc target current rule) (DirID target)) w).1.1
    = (nd0, None).

Let sid := consts_Files +:+ "/" +:+ DocID target.
Let ix := newSharingIndexer {| BulkRev := DocRev target; BulkRevisions := Revisions target |} (Some ref).
Let chain := revsStructToChain (Revisions target).
Let nd := declaredDoc target nd0.



Let conflict := detectConflict (DocRev current) chain.





End Conflicts.

  (** *** The safety guards *)

Section Safety.
    Context {H : Helpers}.
    Variables (W : Type) (h : handler upE W).
    Variables (s : Sharing) (target : FileDocWithRevisions).

Lemma UploadNewFile_unclaimed body w :
    findRuleForNewFile s target = None ->
    run h (UploadNewFile s target body) w = (Some ErrSafety, [], w).
  Proof. intros Hr. unfold UploadNewFile. rewrite Hr. reflexivity. Qed.

Lemma UploadExistingFile_refused current body r w :
    (forall w', (h _ (GetShared (consts_Files +:+ "/" +:+ DocID target)) w').1 = r) ->
    refused (SID s) r = true ->
    (run h (UploadExistingFile s target current body) w).1.1 = Some ErrSafety
    /\ filter (fun ev => writes ev = true)
         (run h (UploadExistingFile s target current body) w).1.2 = [].
  Proof.
    intros Hg Hr. specialize (Hg w). unfold UploadExistingFile. rewrite run_bind, run_call.
    destruct (h _ (GetShared _) w) as [x w1]. cbn [fst snd] in *. subst x.
    destruct r as [ref | e]; simpl in Hr.
    - destruct (Infos ref !! SID s) as [infos |]; [rewrite Hr |]; split; reflexivity.
    - rewrite Hr. split; reflexivity.
  Qed.

  (** C3, as the code has it.  [SyncFile], for a target with a hash and
      once the lock is taken, fails with ErrSafety and writes nothing when
      the file is new and matches no rule, and when the file exists and its
      shared entry refuses the sharing (no entry, no information for the
      sharing, or removed and not dissociated).  [UploadNewFile] fails with
      ErrSafety, without any call, for a file that matches no rule.
      [UploadExistingFile] fails with ErrSafety and writes nothing when the
      shared entry refuses the sharing. *)
Theorem safety_guard :
    let sid := consts_Files +:+ "/" +:+ DocID target in
    (len (MD5Sum target) <> 0%nat ->
     (forall w, (h _ (Lock ("shared/" +:+ sid)) w).1 = None) ->
     ((forall w, (h _ (FileByID (DocID target)) w).1 = Error ErrNotExist) ->
      findRuleForNewFile s target = None ->
      forall w,
        (run h (SyncFile s target) w).1.1 = (None, Some ErrSafety)
        /\ filter (fun ev => writes ev = true) (run h (SyncFile s target) w).1.2 = [])
     /\ (forall current r,
           (forall w, (h _ (FileByID (DocID target)) w).1 = Ok current) ->
           (forall w, (h _ (GetShared sid) w).1 = r) ->
           refused (SID s) r = true ->
           forall w,
             (run h (SyncFile s target) w).1.1 = (None, Some ErrSafety)
             /\ filter (fun ev => writes ev = true) (run h (SyncFile s target) w).1.2 = []))
    /\ (forall body, findRuleForNewFile s target = None ->
          forall w, run h (UploadNewFile s target body) w = (Some ErrSafety, [], w))
    /\ (forall current body r,
          (forall w, (h _ (GetShared sid) w).1 = r) ->
          refused (SID s) r = true ->
          forall w,
            (run h (UploadExistingFile s target current body) w).1.1 = Some ErrSafety
            /\ filter (fun ev => writes ev = true)
                 (run h (UploadExistingFile s target current body) w).1.2 = []).
  Proof.
    intros sid. split; [| split].
    - intros Hhash Hlock. split.
      + intros Hf Hr w.
        destruct (SyncFile_of_locked s target W h Hhash Hlock w) as (w0 & -> & Hfilter & _).
        rewrite Hfilter by (intros; reflexivity).
        destruct (locked_new_unclaimed s target W h w0 Hf Hr) as (w1 & ->).
        split; reflexivity.
      + intros current r Hf Hg Hr w.
        destruct (SyncFile_of_locked s target W h Hhash Hlock w) as (w0 & -> & Hfilter & _).
        rewrite Hfilter by (intros; reflexivity).
        destruct (locked_refused s target W h w0 current r Hf Hg Hr) as (w1 & ->).
        split; reflexivity.
    - intros body Hr w. apply UploadNewFile_unclaimed. exact Hr.
    - intros current body r Hg Hr w. apply UploadExistingFile_refused with (r := r); assumption.
  Qed.

End Safety.

Lemma SyncFile_empty_hash_witness :
    run (instance_with None None)
      (SyncFile (H := sample_helpers) sample_sharing (payload "hello.txt" "d0" "1-a" None ["1-a"]))
      tt
    = ((None, Some ErrInvalidHash), [], tt).
  Proof.
    exact (SyncFile_empty_hash (H := sample_helpers) sample_sharing
             (payload "hello.txt" "d0" "1-a" None ["1-a"]) eq_refl unit
             (instance_with None None) tt).
  Defined.


  (** *** Runs on an instance where Bob has the file "hello.txt" *)

  (** A renamed file with a new content: the content is written under the
      old name, then the file is renamed. *)
Example content_before_rename_run :
    (run bob (sample_UploadExistingFile next_upload local_file body) tt).1.1 = None
    /\ map label (run bob (sample_UploadExistingFile next_upload local_file body) tt).1.2
       = ["GetShared"; "CreateFile hello.txt over f1"; "IoCopy"; "FileClose";
          "UpdateFileDoc hello.txt to hi.txt"].
  Proof. split; vm_compute; reflexivity. Qed.





Lemma safety_guard_witness :
    (run (instance_with None None) (sample_SyncFile no_rule_sharing next_upload) tt).1.1
    = (None, Some ErrSafety)
    /\ filter (fun ev => writes ev = true)
         (run (instance_with None None) (sample_SyncFile no_rule_sharing next_upload) tt).1.2
       = [].
  Proof.
    apply (proj1 (proj1 (@safety_guard sample_helpers unit (instance_with None None)
                           no_rule_sharing next_upload)
                    ltac:(discriminate) (fun _ => eq_refl))
             (fun _ => eq_refl) eq_refl tt).
  Defined.

  (** C3 as stated fails for a probe without a hash: the file is new and
      no rule claims it, and [SyncFile] returns ErrInvalidHash. *)
Lemma safety_guard_after_hash :
    findRuleForNewFile (Helpers := sample_helpers) no_rule_sharing
      (payload "hello.txt" "d0" "1-a" None ["1-a"]) = None
    /\ (instance_with None None _ (FileByID "f1") tt).1 = Error ErrNotExist
    /\ run (instance_with None None)
         (sample_SyncFile no_rule_sharing (payload "hello.txt" "d0" "1-a" None ["1-a"])) tt
       = ((None, Some ErrInvalidHash), [], tt).
  Proof. repeat split. Qed.

End UploadFacts.

(** ** The sender of a file *)

Module SenderFacts.
  Import Upload Sender SenderSamples.

  Section Trashed.
    Context {H : Helpers}.

Lemma trashed_flag (file : JSONMap) :
      file !! "trashed" = Some (JBool true) -> trashed_of file = true.
    Proof. intros Hf. unfold trashed_of. rewrite Hf. reflexivity. Qed.

    (** C9.  For a file whose document has the flag "trashed" set to true,
        [uploadFile] returns nil at once: whatever the sharing, the member
        and the instance, it calls nothing, so it sends neither the metadata
        nor the content to the peer, and the instance is left as it was. *)
Theorem uploadFile_trashed (s : Sharing) (m : Member) (file : JSONMap) (ruleIndex : Z)
      (Htrashed : file !! "trashed" = Some (JBool true)) :
      forall (W : Type) (h : handler upE W) (w : W),
        run h (uploadFile s m file ruleIndex) w = (None, [], w).
    Proof.
      intros W h w. unfold uploadFile.
      rewrite (trashed_flag file Htrashed). reflexivity.
    Qed.

    (** A run of [uploadFile] that sent a request was for a file that is not
        flagged as trashed. *)
Lemma uploadFile_request (s : Sharing) (m : Member) (file : JSONMap) (ruleIndex : Z)
      (W : Type) (h : handler upE W) (w : W) :
      filter (fun ev => is_request ev = true) (run h (uploadFile s m file ruleIndex) w).1.2 <> [] ->
      trashed_of file = false.
    Proof.
      intros Hreq. destruct (trashed_of file) eqn:Ht; [| reflexivity].
      exfalso. apply Hreq. unfold uploadFile. rewrite Ht. reflexivity.
    Qed.

  End Trashed.

Lemma uploadFile_trashed_witness :
    trashed_file !! "trashed" = Some (JBool true)
    /\ run peer_has_content
         (uploadFile (H := UploadSamples.sample_helpers) UploadSamples.sample_sharing
            UploadSamples.owner trashed_file 0) tt
       = (None, [], tt).
  Proof.
    split; [reflexivity |].
    apply (@uploadFile_trashed UploadSamples.sample_helpers UploadSamples.sample_sharing
             UploadSamples.owner trashed_file 0 eq_refl unit peer_has_content tt).
  Defined.

  (** The same file out of the trash is sent to the peer. *)
Example uploadFile_kept :
    map UploadTrace.label
      (run peer_has_content
         (uploadFile (H := UploadSamples.sample_helpers) UploadSamples.sample_sharing
            UploadSamples.owner kept_file 0) tt).1.2
    = ["PUT /sharings/s1/io.cozy.files/f1/metadata"; "ResBodyClose"].
  Proof. vm_compute. reflexivity. Qed.

End SenderFacts.

(** ** The revocation by a notification *)

Module RevokeFacts.
  Import Revoke RevokeSamples.

Ltac avoid_step :=
    first
      [ apply avoids_ret
      | apply avoids_bind
      | apply avoids_vis; [intros; reflexivity | intros]
      | match goal with
        | |- avoids _ (match ?x with _ => _ end) => destruct x
        | |- avoids _ (if ?x then _ else _) => destruct x
        end
      | intros ].

  Section Retry.
    Context {H : Helpers}.
    Variables (W : Type) (h : handler revE W).

Lemma triggers_no_doc ids : avoids is_doc_event (removeSharingTriggers ids).
    Proof.
      induction ids as [| id ids IH]; simpl; [apply avoids_ret |].
      unfold removeSharingTrigger, call.
      repeat first [ exact IH | progress avoid_step ].
    Qed.

    (** The steps before the loop do not touch the document of the
        sharing. *)
Lemma steps_no_doc s : avoids is_doc_event (revokeSteps s).
    Proof.
      unfold revokeSteps, RemoveTriggers, RemoveBitwardenOrganization, call.
      repeat first [ apply triggers_no_doc | progress avoid_step ].
    Qed.

Lemma steps_no_update s : avoids is_update (revokeSteps s).
    Proof.
      apply (avoids_impl is_doc_event); [| apply steps_no_doc].
      intros ev Hu. unfold is_doc_event. rewrite Hu. reflexivity.
    Qed.



  End Retry.

  (** One conflict: the second update succeeds and ends the loop. *)
Example revoke_one_conflict :
    (sample_revoke 1).1.2 = ["UpdateSharing"; "GetSharing"; "UpdateSharing"]
    /\ (sample_revoke 1).1.1.2 = None.
  Proof. vm_compute. split; reflexivity. Qed.

  (** Five conflicts: the loop gives up after three updates, two conflicts
      are left, and the function returns nil all the same. *)
Example revoke_exhausted :
    (sample_revoke 5).1.2
    = ["UpdateSharing"; "GetSharing"; "UpdateSharing"; "GetSharing";
       "UpdateSharing"; "GetSharing"]
    /\ (sample_revoke 5).2 = 2%nat
    /\ (sample_revoke 5).1.1.2 = None.
  Proof. vm_compute. repeat split; reflexivity. Qed.

End RevokeFacts.

(** ** Monitors of traces *)

Module MonitorFacts.
  Section Facts.
    Context {E : Type -> Type} {S : Type}.
    Variable step : S -> event E -> option S.

Lemma monitor_app s t1 t2 :
      monitor step s (t1 ++ t2) = monitor step s t1 ≫= fun s' => monitor step s' t2.
    Proof.
      revert s. induction t1 as [| ev t1 IH]; intros s; [reflexivity |].
      simpl. destruct (step s ev) as [s' |]; [apply IH | reflexivity].
    Qed.

Lemma follows_bind {A B} (Q1 : S -> A -> Prop) (Q2 : S -> B -> Prop) s
        (p : prog E A) (f : A -> prog E B) :
      follows step Q1 s p ->
      (forall s' a, Q1 s' a -> follows step Q2 s' (f a)) ->
      follows step Q2 s (bind p f).
    Proof.
      intros Hp Hf. induction Hp as [s r Hq | s X e k Hd Hk IH]; simpl.
      - apply Hf. exact Hq.
      - apply follows_vis; [exact Hd | exact IH].
    Qed.

Lemma follows_weaken {R} (Q1 Q2 : S -> R -> Prop) s (p : prog E R) :
      (forall s' r, Q1 s' r -> Q2 s' r) -> follows step Q1 s p -> follows step Q2 s p.
    Proof.
      intros HQ Hp. induction Hp as [s r Hq | s X e k Hd Hk IH].
      - apply follows_ret. apply HQ. exact Hq.
      - apply follows_vis; [exact Hd | exact IH].
    Qed.

    (** What [follows] gives for a run. *)
Lemma follows_run {R} (Q : S -> R -> Prop) s (p : prog E R) :
      follows step Q s p ->
      forall W (h : handler E W) w,
        exists s', monitor step s (run h p w).1.2 = Some s' /\ Q s' (run h p w).1.1.
    Proof.
      intros Hp W h. induction Hp as [s r Hq | s X e k Hd Hk IH]; intros w.
      - exists s. split; [reflexivity | exact Hq].
      - simpl. destruct (h X e w) as [x w1].
        specialize (Hd x). destruct (step s (Ev X e x)) as [s1 |] eqn:Hs; [| contradiction].
        destruct (IH x s1 Hs w1) as (s' & Hm & Hq).
        destruct (run h (k x) w1) as [[r t] w2]. simpl in *.
        rewrite Hs. exists s'. split; assumption.
    Qed.

    (** A program that makes no call of the kind [P], for a monitor that
        stays where it is on the other calls. *)
Lemma follows_avoids {R} (P : event E -> bool) s (p : prog E R) :
      (forall ev, P ev = false -> step s ev = Some s) ->
      avoids P p -> follows step (fun s' _ => s' = s) s p.
    Proof.
      intros Hs Hp. induction Hp as [r | X e k He Hk IH].
      - apply follows_ret. reflexivity.
      - apply follows_vis.
        + intros x. rewrite (Hs _ (He x)). discriminate.
        + intros x s' Hx. rewrite (Hs _ (He x)) in Hx. injection Hx as <-. apply IH.
    Qed.

Lemma avoids_Forall (P : event E -> bool) {W R} (h : handler E W) (p : prog E R) w :
      avoids P p -> Forall (fun ev => P ev = false) (run h p w).1.2.
    Proof.
      intros Hp. revert w. induction Hp as [r | X e k He Hk IH]; intros w.
      - constructor.
      - simpl. destruct (h X e w) as [x w1]. specialize (IH x w1).
        destruct (run h (k x) w1) as [[r t] w2]. simpl in *.
        constructor; [apply He | exact IH].
    Qed.

  End Facts.

  (** The steps of a proof that a program makes no call of some kind. *)
Ltac avoid_step :=
    first
      [ apply avoids_ret
      | apply avoids_bind
      | apply avoids_vis; [intros; reflexivity | intros]
      | match goal with
        | |- avoids _ (match ?x with _ => _ end) => destruct x
        | |- avoids _ (if ?x then _ else _) => destruct x
        end
      | intros ].

End MonitorFacts.
Import MonitorFacts.

(** ** Names of the objects in Swift: back to the ids *)

Module SwiftV3Facts.
  Import GoStr Swift SwiftV3.

  (** A string of a known length is taken apart into its bytes. *)
Ltac explode s H :=
    repeat (destruct s as [| ? s]; [discriminate H |];
            cbn [String.length] in H; apply Nat.succ_inj in H);
    destruct s; [| discriminate H]; clear H.

Lemma append_empty_r (a : string) : a +:+ "" = a.
  Proof.
    induction a as [| c a IH]; [reflexivity |].
    change (String c (a +:+ "") = String c a). now rewrite IH.
  Qed.

Lemma append_byte_mid (a : string) (c : ascii) (b : string) :
    (a +:+ String c "") +:+ b = a +:+ String c b.
  Proof.
    induction a as [| x a IH]; [reflexivity |].
    change (String x ((a +:+ String c "") +:+ b) = String x (a +:+ String c b)).
    now rewrite IH.
  Qed.

Lemma length_append (a b : string) :
    String.length (a +:+ b) = (String.length a + String.length b)%nat.
  Proof.
    induction a as [| x a IH]; [reflexivity |].
    change (S (String.length (a +:+ b)) = S (String.length a + String.length b)).
    now rewrite IH.
  Qed.

  (** strings.SplitN cuts at the first slash. *)
Lemma SplitN2_first_slash (d i : string) : forall acc,
    has_slash d = false ->
    Afero.SplitN2 (d +:+ String "/" i) acc = [acc +:+ d; i].
  Proof.
    induction d as [| c d IH]; intros acc Hs.
    - change (Afero.SplitN2 (String "/" i) acc = [acc +:+ ""; i]).
      rewrite append_empty_r. reflexivity.
    - simpl in Hs. apply orb_false_iff in Hs as [Hc Hd].
      change (Afero.SplitN2 (String c (d +:+ String "/" i)) acc = [acc +:+ String c d; i]).
      cbn [Afero.SplitN2]. rewrite Hc. rewrite IH by exact Hd.
      now rewrite append_byte_mid.
  Qed.

  (** X1.  [makeDocIDV3] is the inverse of [MakeObjectNameV3] on the ids
      of the usual lengths: from the name of the object of a document id of
      32 bytes and an internal id of 16 bytes, it gives back both ids. *)
Theorem makeDocIDV3_of_name (docID internalID : string)
    (Hdoc : String.length docID = 32%nat)
    (Hint : String.length internalID = 16%nat) :
    makeDocIDV3 (MakeObjectNameV3 docID internalID) = (docID, internalID).
  Proof.
    explode docID Hdoc. explode internalID Hint.
    vm_compute. reflexivity.
  Qed.

Lemma makeDocIDV3_of_name_witness :
    makeDocIDV3 (MakeObjectNameV3 "0123456789abcdef0123456789abcdef" "ABCDEFGHIJKLMNOP")
    = ("0123456789abcdef0123456789abcdef", "ABCDEFGHIJKLMNOP").
  Proof.
    exact (makeDocIDV3_of_name "0123456789abcdef0123456789abcdef" "ABCDEFGHIJKLMNOP"
             eq_refl eq_refl).
  Defined.

  (** X2.  For ids of other lengths, the name of the object is cut at its
      first slash: [makeDocIDV3] gives back both ids when the document id
      holds no slash and the name is not 51 bytes long. *)
Theorem makeDocIDV3_of_short_name (docID internalID : string)
    (Hlen : String.length docID <> 32%nat \/ String.length internalID <> 16%nat)
    (Hslash : has_slash docID = false)
    (Hnot51 : (String.length docID + String.length internalID)%nat <> 50%nat) :
    makeDocIDV3 (MakeObjectNameV3 docID internalID) = (docID, internalID).
  Proof.
    assert (Hname : MakeObjectNameV3 docID internalID = docID +:+ String "/" internalID).
    { unfold MakeObjectNameV3.
      destruct (Nat.eqb_spec (String.length docID) 32);
        destruct (Nat.eqb_spec (String.length internalID) 16); try reflexivity.
      destruct Hlen; contradiction. }
    rewrite Hname. unfold makeDocIDV3.
    rewrite length_append. cbn [String.length].
    destruct (Nat.eqb_spec (String.length docID + S (String.length internalID)) 51)
      as [He | _]; [lia |].
    cbn [negb]. rewrite SplitN2_first_slash by exact Hslash. reflexivity.
  Qed.

Lemma makeDocIDV3_of_short_name_witness :
    makeDocIDV3 (MakeObjectNameV3 "io.cozy.files.root-dir" "v1")
    = ("io.cozy.files.root-dir", "v1").
  Proof.
    apply makeDocIDV3_of_short_name; [left; discriminate | reflexivity | discriminate].
  Defined.

  (** The name of 51 bytes of two ids of other lengths is read as the
      name of a document id of 32 bytes: the ids do not come back. *)
Example makeDocIDV3_ambiguous :
    MakeObjectNameV3 "0123456789abcdef0123456789abcdef01" "ABCDEFGHIJKLMNOP"
    = "0123456789abcdef0123456789abcdef01/ABCDEFGHIJKLMNOP"
    /\ makeDocIDV3 "0123456789abcdef0123456789abcdef01/ABCDEFGHIJKLMNOP"
       = ("0123456789abcdef012345789abdef01", "ABCDEFGHIJKLMNOP").
  Proof. split; reflexivity. Qed.

  (** X3.  [MakeObjectNameV3] is the inverse of [makeDocIDV3] on the names
      of 51 bytes that have their slashes at the bytes 22, 28 and 34; the
      ids that [makeDocIDV3] reads in a name of 51 bytes are 32 and 16 bytes
      long. *)
Theorem name_of_makeDocIDV3 (objName : string)
    (Hlen : String.length objName = 51%nat) :
    String.length (makeDocIDV3 objName).1 = 32%nat
    /\ String.length (makeDocIDV3 objName).2 = 16%nat
    /\ (String.get 22 objName = Some "/"%char ->
        String.get 28 objName = Some "/"%char ->
        String.get 34 objName = Some "/"%char ->
        MakeObjectNameV3 (makeDocIDV3 objName).1 (makeDocIDV3 objName).2 = objName).
  Proof.
    explode objName Hlen.
    split; [reflexivity | split; [reflexivity |]].
    intros H1 H2 H3. cbn in H1, H2, H3.
    injection H1 as ->. injection H2 as ->. injection H3 as ->.
    vm_compute. reflexivity.
  Qed.

Lemma name_of_makeDocIDV3_witness :
    MakeObjectNameV3
      (makeDocIDV3 "0123456789abcdef012345/6789a/bcdef/ABCDEFGHIJKLMNOP").1
      (makeDocIDV3 "0123456789abcdef012345/6789a/bcdef/ABCDEFGHIJKLMNOP").2
    = "0123456789abcdef012345/6789a/bcdef/ABCDEFGHIJKLMNOP".
  Proof.
    apply (proj2 (proj2 (name_of_makeDocIDV3
                           "0123456789abcdef012345/6789a/bcdef/ABCDEFGHIJKLMNOP" eq_refl)));
      reflexivity.
  Defined.

End SwiftV3Facts.

(** ** The afero back-end: more on the creation of files *)

Module AferoMoreFacts.
  Import GoStr Path Afero AferoMore AferoSamples AferoMoreSamples.

  (** X4.  [safeRenameFile] and [safeRenameDir] never overwrite: either
      they rename once, between two clean absolute paths and just after
      the file system said that the destination does not exist (and, for a
      directory, the destination is not below the source), or they rename
      nothing and return an error. *)
Theorem safeRename_never_overwrites W (h : handler aferoE W) (w0 : W)
    (oldpath newpath : string) :
    (let out := run h (safeRenameFile oldpath newpath) w0 in
     renamed_safely oldpath newpath out.1.2 out.1.1
     \/ (out.1.1 <> None /\ filter (fun ev => is_rename ev = true) out.1.2 = []))
    /\ (let out := run h (safeRenameDir oldpath newpath) w0 in
        (renamed_safely oldpath newpath out.1.2 out.1.1
         /\ HasPrefix (Clean newpath) (Clean oldpath +:+ "/") = false)
        \/ (out.1.1 <> None /\ filter (fun ev => is_rename ev = true) out.1.2 = [])).
  Proof.
    split; cbv zeta.
    - unfold safeRenameFile, renamed_safely. cbv zeta.
      destruct (IsAbs (Clean newpath)) eqn:Hn, (IsAbs (Clean oldpath)) eqn:Ho;
        cbn [negb orb]; try (right; split; [discriminate | reflexivity]).
      rewrite run_bind, run_call.
      destruct (h _ (FsStat (Clean newpath)) w0) as [[e |] w1]; cbn [fst snd].
      + destruct (bool_decide (e = ErrNotExist)) eqn:He; cbn [negb].
        * apply bool_decide_eq_true in He. subst e. rewrite run_call. cbn.
          left. repeat split.
        * right. split; [discriminate | reflexivity].
      + right. split; [discriminate | reflexivity].
    - unfold safeRenameDir, renamed_safely. cbv zeta.
      destruct (IsAbs (Clean newpath)) eqn:Hn, (IsAbs (Clean oldpath)) eqn:Ho;
        cbn [negb orb]; try (right; split; [discriminate | reflexivity]).
      destruct (HasPrefix (Clean newpath) (Clean oldpath +:+ "/")) eqn:Hp;
        [right; split; [discriminate | reflexivity] |].
      rewrite run_bind, run_call.
      destruct (h _ (FsStat (Clean newpath)) w0) as [[e |] w1]; cbn [fst snd].
      + destruct (bool_decide (e = ErrNotExist)) eqn:He; cbn [negb].
        * apply bool_decide_eq_true in He. subst e. rewrite run_call. cbn.
          left. repeat split.
        * right. split; [discriminate | reflexivity].
      + right. split; [discriminate | reflexivity].
  Qed.

  (** A file is renamed when the destination is free, and not when there
      is something at the destination. *)
Example safeRenameFile_runs :
    run fine (safeRenameFile "/docs/a/../b.txt" "/docs//c.txt") tt
    = (None, [Ev _ (FsStat "/docs/c.txt") (Some ErrNotExist);
              Ev _ (FsRename "/docs/b.txt" "/docs/c.txt") None], tt)
    /\ run occupied (safeRenameFile "/docs/b.txt" "/docs/c.txt") tt
       = (Some ErrExist, [Ev _ (FsStat "/docs/c.txt") None], tt).
  Proof. split; reflexivity. Qed.

Lemma accepted_app t1 t2 : accepted (t1 ++ t2) = accepted t1 + accepted t2.
  Proof.
    induction t1 as [| [X e x] t1 IH]; [reflexivity |].
    destruct e; simpl; try exact IH. destruct x as [n [e |]]; simpl; lia.
  Qed.


  (** What one write does to the handle. *)
Lemma Write_step W (h : handler aferoE W) w0 f p :
    let out := run h (Write f p) w0 in
    let f' := out.1.1.1 in
    newdoc f' = newdoc f /\ olddoc f' = olddoc f /\ tmppath f' = tmppath f
    /\ size f' = size f /\ maxsize f' = maxsize f /\ capsize f' = capsize f
    /\ w f' = w f + accepted out.1.2
    /\ match out.1.1.2.2 with
       | Some e => err f' = Some e /\ hash f' = hash f
       | None => err f' = err f /\ hash f' = hash f ++ p /\ within_limits f'
       end.
  Proof.
    cbv zeta. unfold Write. rewrite run_bind.
    destruct (run h _ w0) as [[f1 t1] w1] eqn:Hmeta.
    assert (Hf1 : newdoc f1 = newdoc f /\ olddoc f1 = olddoc f /\ tmppath f1 = tmppath f
                  /\ size f1 = size f /\ maxsize f1 = maxsize f /\ capsize f1 = capsize f
                  /\ w f1 = w f /\ err f1 = err f /\ hash f1 = hash f /\ accepted t1 = 0).
    { destruct (meta f); simpl in Hmeta.
      - destruct (h _ (MetaWrite p) w0) as [[e|] w2]; simpl in Hmeta.
        + destruct (bool_decide (e = ErrClosedPipe)); simpl in Hmeta.
          * injection Hmeta as <- <- _. repeat split.
          * destruct (h _ (MetaAbort e) w2). injection Hmeta as <- <- _. repeat split.
        + injection Hmeta as <- <- _. repeat split.
      - injection Hmeta as <- <- _. repeat split. }
    destruct Hf1 as (H1 & H2 & H3 & H4 & H5 & H6 & H7 & H8 & H9 & H10).
    rewrite run_bind, run_call.
    destruct (h _ (FWrite p) w1) as [[n [e|]] w2]; cbn [fst snd].
    - cbn. rewrite accepted_app, H10. cbn. repeat split; try assumption; lia.
    - cbn [set_w w maxsize size].
      destruct ((maxsize f1 >=? 0) && (w f1 + n >? maxsize f1)) eqn:Hmax;
        [| destruct ((size f1 >=? 0) && (w f1 + n >? size f1)) eqn:Hsz];
        cbn; rewrite accepted_app, H10; cbn; unfold set_hash, set_w, set_err; cbn;
        repeat split; try assumption; try lia.
      + congruence.
      + simpl. intros Hm. rewrite Z.geb_leb, Z.gtb_ltb in Hmax.
        apply andb_false_iff in Hmax.
        destruct Hmax as [Hx | Hx]; [apply Z.leb_gt in Hx | apply Z.ltb_ge in Hx]; lia.
      + simpl. intros Hm. rewrite Z.geb_leb, Z.gtb_ltb in Hsz.
        apply andb_false_iff in Hsz.
        destruct Hsz as [Hx | Hx]; [apply Z.leb_gt in Hx | apply Z.ltb_ge in Hx]; lia.
  Qed.


  Section CloseMore.
    Variable md5 : bytes -> bytes.
    Variable TrashDirName VersionsDirName : string.
    Variable NewVersion : FileDoc -> Version.
    Variable merge_meta : Metadata -> Metadata -> Metadata.

Let Close := Close md5 TrashDirName VersionsDirName NewVersion merge_meta.
Let Close_checks := Close_checks md5 TrashDirName VersionsDirName NewVersion.
Let Close_locked := Close_locked TrashDirName VersionsDirName NewVersion.
Let WriteAllClose := WriteAllClose md5 TrashDirName VersionsDirName NewVersion merge_meta.
Let badly_indexed := badly_indexed md5.
Let step := moves_step VersionsDirName NewVersion.

    (** *** The documents that reach the index *)

Ltac avoid_ix H :=
      first
        [ apply avoids_ret
        | apply avoids_bind
        | apply avoids_vis;
          [intros; first [reflexivity | unfold badly_indexed, AferoMore.badly_indexed; cbn; rewrite H; reflexivity]
          | intros]
        | match goal with
          | |- avoids _ (match ?x with _ => _ end) => destruct x
          | |- avoids _ (if ?x then _ else _) => destruct x
          end
        | intros ].

Lemma cleanOldVersions_ix f l : avoids (badly_indexed f) (cleanOldVersions VersionsDirName l).
    Proof.
      induction l as [| v l IH]; simpl.
      - apply avoids_ret.
      - unfold cleanOldVersion, call. simpl.
        repeat first [ exact IH | progress avoid_ix IH ].
    Qed.

Lemma Close_locked_ix f nd :
      as_written md5 f nd = true -> avoids (badly_indexed f) (Close_locked f nd).
    Proof.
      intros Hg. unfold Close_locked, Afero.Close_locked, call.
      repeat first [ apply cleanOldVersions_ix | progress avoid_ix Hg ].
    Qed.

Lemma Close_checks_ix f nd1 : avoids (badly_indexed f) (Close_checks f nd1).
    Proof.
      unfold Close_checks, Afero.Close_checks. cbv zeta.
      set (nd2 := match MD5Sum nd1 with None => _ | Some _ => nd1 end).
      destruct (bytes_Equal (MD5Sum nd2) (Some (md5 (hash f)))) eqn:Hh; cbn [negb];
        [| apply avoids_ret].
      set (nd3 := if size f <? 0 then _ else nd2).
      assert (Hh3 : bytes_Equal (MD5Sum nd3) (Some (md5 (hash f))) = true).
      { subst nd3. destruct (size f <? 0); exact Hh. }
      destruct (ByteSize nd3 =? w f) eqn:Hs; cbn [negb]; [| apply avoids_ret].
      assert (Hg : as_written md5 f nd3 = true).
      { unfold as_written. rewrite Hh3, Hs. reflexivity. }
      unfold call. fold Close_locked.
      repeat first [ apply Close_locked_ix; exact Hg | progress avoid_ix Hg ].
    Qed.

Lemma Close_ix f : avoids (badly_indexed f) (Close f).
    Proof.
      unfold Close, Afero.Close, Afero.Close_body, Close_deferred, call. fold Close_checks.
      repeat first [ apply Close_checks_ix | progress avoid_ix Close_checks_ix ].
    Qed.

    (** X5.  Whatever the collaborators answer, every document that [Close]
        hands to the index, to be created or updated, carries the hash of
        the bytes that were written to the handle and their number. *)
Theorem Close_indexes_what_was_written W (h : handler aferoE W) (w0 : W)
      (f : aferoFileCreation) :
      Forall (fun ev => match indexed_doc ev with
                        | Some d => bytes_Equal (MD5Sum d) (Some (md5 (hash f))) = true
                                    /\ ByteSize d = w f
                        | None => True
                        end)
        (run h (Close f) w0).1.2.
    Proof.
      pose proof (avoids_Forall (badly_indexed f) h (Close f) w0 (Close_ix f)) as Hall.
      eapply Forall_impl; [exact Hall |].
      intros ev Hev. unfold badly_indexed, AferoMore.badly_indexed in Hev.
      destruct (indexed_doc ev) as [d |]; [| exact I].
      apply negb_false_iff in Hev. unfold as_written in Hev.
      apply andb_true_iff in Hev as [Hh Hs]. split; [exact Hh | lia].
    Qed.

    (** *** The lock of the VFS *)









    (** *** What [Close] accepts *)






    (** *** A write that failed *)

Lemma Close_with_error W (h : handler aferoE W) w0 f e :
      err f = Some e ->
      (run h (Close f) w0).1.1.2 = Some e
      /\ filter (fun ev => publishes ev = true) (run h (Close f) w0).1.2 = [].
    Proof.
      intros He. unfold Close, Afero.Close, Afero.Close_body, Close_deferred, call.
      rewrite He. simpl.
      destruct (h _ FClose w0) as [[e0 |] w1]; destruct (meta f); simpl;
        repeat match goal with
               | |- context [h ?X ?c ?w] => destruct (h X c w) as [? ?]; simpl
               | |- context [match ?x with Ok _ => _ | Error _ => _ end] => destruct x; simpl
               | |- context [match olddoc f with Some _ => _ | None => _ end] =>
                   destruct (olddoc f); simpl
               | |- context [IsCouchError e] => destruct (IsCouchError e); simpl
               end;
        split; reflexivity.
    Qed.

    (** X8.  The error of a write stays with the handle: when [Write]
        has returned an error, [Close] returns this error, whatever the
        collaborators answer then, and it creates or updates nothing in the
        index and moves no file. *)
Theorem failed_write_is_not_published W (h : handler aferoE W) (w0 : W)
      (f : aferoFileCreation) (p : bytes) (e : error)
      (Hwrite : (run h (Write f p) w0).1.1.2.2 = Some e) :
      forall W' (h' : handler aferoE W') (w1 : W'),
        (run h' (Close (run h (Write f p) w0).1.1.1) w1).1.1.2 = Some e
        /\ filter (fun ev => publishes ev = true)
             (run h' (Close (run h (Write f p) w0).1.1.1) w1).1.2 = [].
    Proof.
      intros W' h' w1. apply Close_with_error.
      pose proof (Write_step W h w0 f p) as Hw. cbv zeta in Hw.
      rewrite Hwrite in Hw. tauto.
    Qed.

    (** *** The moves of the files *)









  End CloseMore.

  (** *** Runs *)

  (** "hello" is written in two chunks to a new file and the handle is
      closed: the document is created in the index with the lock held, and
      the temporary file goes to the path of the document. *)
Example WriteAllClose_run :
    (run fine (sample_WriteAllClose fresh_handle hello_chunks) tt).1.1.2 = None
    /\ map afero_label (run fine (sample_WriteAllClose fresh_handle hello_chunks) tt).1.2
       = ["Write"; "Write"; "Close"; "Lock"; "DirChildExists"; "FilePath";
          "CreateNamedFileDoc"; "Rename /hello.txt123 /docs/hello.txt"; "Unlock"].
  Proof. split; vm_compute; reflexivity. Qed.


Lemma failed_write_is_not_published_witness :
    (run fine (sample_Close (run fine (Write small_handle hello) tt).1.1.1) tt).1.1.2
    = Some ErrFileTooBig
    /\ filter (fun ev => publishes ev = true)
         (run fine (sample_Close (run fine (Write small_handle hello) tt).1.1.1) tt).1.2
       = [].
  Proof.
    apply (failed_write_is_not_published toy_md5 "/.cozy_trash" "/.cozy_versions"
             sample_version sample_merge unit fine tt small_handle hello ErrFileTooBig
             eq_refl unit fine tt).
  Defined.

  (** A new content for an existing file cannot be moved to its place:
      the old content, which had gone to its version path, comes back at
      once. *)
Example Close_moves_back :
    (run stuck_tmp (sample_Close update_handle) tt).1.1.2 = Some (Other "rename failed")
    /\ map afero_label (run stuck_tmp (sample_Close update_handle) tt).1.2
       = ["Close"; "Lock"; "FilePath"; "UpdateFileDoc";
          "MkdirAll /.cozy_versions/0123/456789abcdef0123456789abcdef";
          "Rename /docs/hello.txt /.cozy_versions/0123/456789abcdef0123456789abcdef/ABCDEFGHIJKLMNOP";
          "Rename /hello.txt123 /docs/hello.txt";
          "Rename /.cozy_versions/0123/456789abcdef0123456789abcdef/ABCDEFGHIJKLMNOP /docs/hello.txt";
          "Unlock"; "Remove /hello.txt123"].
  Proof. split; vm_compute; reflexivity. Qed.

End AferoMoreFacts.

(** ** The upload of files: locks, handles, and the creation of new files *)

Module UploadMoreFacts.
  Import GoStr Upload UploadTrace UploadMore UploadSamples UploadMoreSamples.

  Section Receive.
    Context {H : Helpers}.

    (** *** The lock of the file *)

Lemma file_lock_held n ev :
      is_lock ev = false -> filelock_step (Some n, true) ev = Some (Some n, true).
    Proof.
      destruct ev as [X [] x]; try discriminate; intros _; cbn;
        try reflexivity; rewrite ?orb_true_r; reflexivity.
    Qed.

Lemma UploadNewFile_no_lock s target body : avoids is_lock (UploadNewFile s target body).
    Proof.
      unfold UploadNewFile, parentOfNewFile, createAfterExist, copyFileContent, call.
      repeat avoid_step.
    Qed.

Lemma UploadExistingFile_no_lock s target current body :
      avoids is_lock (UploadExistingFile s target current body).
    Proof.
      unfold UploadExistingFile, prepareFileWithAncestors, applyUpload, uploadLostConflict,
        uploadWonConflict, acceptContent, uploadThenRename, updateAfterExist,
        copyFileContent, call.
      repeat avoid_step.
    Qed.

Lemma SyncFile_locked_no_lock s target sid : avoids is_lock (SyncFile_locked s target sid).
    Proof.
      unfold SyncFile_locked, createUploadKey, updateFileMetadata, prepareFileWithAncestors,
        updateAfterExist, call.
      repeat avoid_step.
    Qed.

    (** The lock of the target is taken, or released. *)
Ltac lock_call target :=
      apply follows_vis;
      [ intros ?; cbn; fold (lock_name target);
        rewrite bool_decide_eq_true_2 by reflexivity; discriminate
      | intros ? ? Hs; cbn in Hs; fold (lock_name target) in Hs;
        rewrite bool_decide_eq_true_2 in Hs by reflexivity; injection Hs as <- ].

Lemma SyncFile_lock s (target : FileDocWithRevisions) :
      follows filelock_step (fun st _ => st = (Some (lock_name target), false))
        (Some (lock_name target), false) (SyncFile s target).
    Proof.
      unfold SyncFile. destruct (_ =? _)%nat; [apply follows_ret; reflexivity |].
      cbv zeta. unfold call at 1. cbn [bind].
      lock_call target.
      match goal with x : option error |- _ => destruct x as [e |] end;
        cbn [bool_decide decide_rel].
      - apply follows_ret. reflexivity.
      - rewrite bool_decide_eq_true_2 by reflexivity.
        eapply follows_bind.
        + apply (follows_avoids filelock_step is_lock);
            [apply file_lock_held | apply SyncFile_locked_no_lock].
        + cbv beta. intros s' r ->. unfold call. cbn [bind].
          lock_call target. apply follows_ret. reflexivity.
    Qed.

Lemma HandleFileUpload_lock s key body :
      follows filelock_step (fun st _ => st.2 = false) (None, false)
        (HandleFileUpload s key body).
    Proof.
      unfold HandleFileUpload.
      unfold call at 1. cbn [bind].
      apply follows_vis; [intros [[t |] | e]; discriminate |].
      intros rt s' Hs.
      eapply follows_bind with (Q1 := fun st _ => st.2 = false).
      2: { cbv beta. intros st r Hst. unfold call. cbn [bind].
           apply follows_vis; [intros x; cbn; discriminate |].
           intros x s'' Hs'. cbn in Hs'. injection Hs' as <-.
           apply follows_ret. exact Hst. }
      destruct rt as [[target |] | e]; cbn in Hs; injection Hs as <-;
        try (apply follows_ret; reflexivity).
      unfold call at 1. cbn [bind].
      lock_call target.
      match goal with x : option error |- _ => destruct x as [e |] end;
        cbn [bool_decide decide_rel bind].
      { apply follows_ret. reflexivity. }
      rewrite bool_decide_eq_true_2 by reflexivity.
      unfold call at 1. cbn [bind].
      apply follows_vis; [intros x; discriminate |].
      intros rc s' Hs. cbn in Hs. injection Hs as <-.
      eapply follows_bind with (Q1 := fun st _ => st = (Some (lock_name target), true)).
      - destruct rc as [current | e].
        + apply (follows_avoids filelock_step is_lock);
            [apply file_lock_held | apply UploadExistingFile_no_lock].
        + destruct (negb _); [apply follows_ret; reflexivity |].
          apply (follows_avoids filelock_step is_lock);
            [apply file_lock_held | apply UploadNewFile_no_lock].
      - cbv beta. intros s' r ->. unfold call at 1. cbn [bind].
        lock_call target. apply follows_ret. reflexivity.
    Qed.

    (** X10.  Whatever the instance answers, [SyncFile] and
        [HandleFileUpload] work under the lock of the file: the lock that
        they take is the one named after the id of the target, they take it
        at most once and release it when they have taken it (also when they
        return an error), and they make every call to the VFS and to CouchDB
        with the lock held; only the store of the upload keys is read, and
        the body of the request closed, without it. *)
Theorem file_lock_discipline W (h : handler upE W) (w0 : W) (s : Sharing) :
      (forall target : FileDocWithRevisions,
         monitor filelock_step (Some (lock_name target), false)
           (run h (SyncFile s target) w0).1.2
         = Some (Some (lock_name target), false))
      /\ (forall key body,
            exists name,
              monitor filelock_step (None, false)
                (run h (HandleFileUpload s key body) w0).1.2
              = Some (name, false)).
    Proof.
      split.
      - intros target.
        destruct (follows_run filelock_step _ _ _ (SyncFile_lock s target) W h w0)
          as (s' & Hm & ->). exact Hm.
      - intros key body.
        destruct (follows_run filelock_step _ _ _ (HandleFileUpload_lock s key body) W h w0)
          as ([name held] & Hm & Hq). cbn in Hq. subst held. exists name. exact Hm.
    Qed.

    (** *** The handles of the files *)

Ltac hstep :=
      cbn [bind];
      first
        [ apply follows_ret; reflexivity
        | match goal with
          | |- follows _ _ _ (bind (match ?x with _ => _ end) _) => destruct x
          | |- follows _ _ _ (bind (if ?x then _ else _) _) => destruct x
          | |- follows _ _ _ (bind (bind (match ?x with _ => _ end) _) _) => destruct x
          | |- follows _ _ _ (bind (bind (if ?x then _ else _) _) _) => destruct x
          | |- follows _ _ _ (bind (bind (bind (match ?x with _ => _ end) _) _) _) =>
              destruct x
          | |- follows _ _ _ (bind (bind (bind (if ?x then _ else _) _) _) _) =>
              destruct x
          | |- follows _ _ _ (match ?x with _ => _ end) => destruct x
          | |- follows _ _ _ (if ?x then _ else _) => destruct x
          | |- follows _ _ NoHandle (Vis (CreateFile _ _ _) _) =>
              apply follows_vis;
              [ intros [? | ?]; discriminate
              | intros [? | ?] ? Hs; cbn in Hs; injection Hs as <- ]
          | |- follows _ _ (Open ?f) (Vis (IoCopy ?f _) _) =>
              apply follows_vis;
              [ intros ?; cbn; rewrite bool_decide_eq_true_2 by reflexivity; discriminate
              | intros ? ? Hs; cbn in Hs;
                rewrite bool_decide_eq_true_2 in Hs by reflexivity; injection Hs as <- ]
          | |- follows _ _ (Filled ?f) (Vis (FileClose ?f) _) =>
              apply follows_vis;
              [ intros ?; cbn; rewrite bool_decide_eq_true_2 by reflexivity; discriminate
              | intros ? ? Hs; cbn in Hs;
                rewrite bool_decide_eq_true_2 in Hs by reflexivity; injection Hs as <- ]
          | |- follows _ _ NoHandle (Vis _ _) =>
              apply follows_vis;
              [ intros ?; discriminate
              | intros ? ? Hs; cbn in Hs; injection Hs as <- ]
          end ].

Lemma UploadNewFile_handles s target body :
      follows handle_step (fun st _ => st = NoHandle) NoHandle (UploadNewFile s target body).
    Proof.
      unfold UploadNewFile, parentOfNewFile, createAfterExist, copyFileContent, call.
      cbv zeta. repeat hstep.
    Qed.

Lemma UploadExistingFile_handles s target current body :
      follows handle_step (fun st _ => st = NoHandle) NoHandle
        (UploadExistingFile s target current body).
    Proof.
      unfold UploadExistingFile, prepareFileWithAncestors, applyUpload, uploadLostConflict,
        uploadWonConflict, acceptContent, uploadThenRename, updateAfterExist,
        copyFileContent, call.
      cbv zeta. repeat hstep.
    Qed.

Lemma HandleFileUpload_handles s key body :
      follows handle_step (fun st _ => st = NoHandle) NoHandle (HandleFileUpload s key body).
    Proof.
      unfold HandleFileUpload, call. cbn [bind].
      apply follows_vis; [intros ?; discriminate |].
      intros rt s' Hs. cbn in Hs. injection Hs as <-.
      eapply follows_bind with (Q1 := fun st _ => st = NoHandle);
        [| intros ? ? ->; repeat hstep].
      destruct rt as [[target |] | e]; [| repeat hstep ..].
      cbn [bind].
      apply follows_vis; [intros ?; discriminate |].
      intros x s' Hs. cbn in Hs. injection Hs as <-.
      destruct x as [e |]; [repeat hstep |].
      cbn [bind].
      apply follows_vis; [intros ?; discriminate |].
      intros rc s' Hs. cbn in Hs. injection Hs as <-.
      eapply follows_bind with (Q1 := fun st _ => st = NoHandle);
        [| intros ? ? ->; repeat hstep].
      destruct rc as [current | e].
      - apply UploadExistingFile_handles.
      - destruct (negb _); [repeat hstep |]. apply UploadNewFile_handles.
    Qed.

Lemma SyncFile_no_handle s target : avoids uses_handle (SyncFile s target).
    Proof.
      unfold SyncFile, SyncFile_locked, createUploadKey, updateFileMetadata,
        prepareFileWithAncestors, updateAfterExist, call.
      repeat avoid_step.
    Qed.

    (** X11.  Whatever the instance answers, [HandleFileUpload] leaves no
        file open: a file that the VFS has opened for writing gets a content
        copied to it at once and is closed next, also when the copy fails,
        and no other file is opened before.  [SyncFile] opens no file for
        writing, copies no content and closes no file. *)
Theorem files_opened_are_closed W (h : handler upE W) (w0 : W) (s : Sharing) :
      (forall key body,
         monitor handle_step NoHandle (run h (HandleFileUpload s key body) w0).1.2
         = Some NoHandle)
      /\ (forall target,
            filter (fun ev => uses_handle ev = true) (run h (SyncFile s target) w0).1.2 = []).
    Proof.
      split.
      - intros key body.
        destruct (follows_run handle_step _ _ _ (HandleFileUpload_handles s key body) W h w0)
          as (s' & Hm & ->). exact Hm.
      - intros target. apply avoids_filter. apply SyncFile_no_handle.
    Qed.

    (** *** The body of the request *)

    (** X12.  Whatever the instance answers, the last call of
        [HandleFileUpload] closes the body of the request.  For a key that
        the store of the upload keys does not know, [HandleFileUpload] returns
        ErrMissingFileMetadata and does nothing else: no lock is taken, no
        file is looked for. *)
Theorem HandleFileUpload_closes_body W (h : handler upE W) (w0 : W)
      (s : Sharing) (key : string) (body : Reader) :
      (exists pre, (run h (HandleFileUpload s key body) w0).1.2
                   = pre ++ [Ev _ (ReaderClose body) tt])
      /\ ((h _ (StoreGet key) w0).1 = Ok None ->
          (run h (HandleFileUpload s key body) w0).1.1 = Some ErrMissingFileMetadata
          /\ (run h (HandleFileUpload s key body) w0).1.2
             = [Ev _ (StoreGet key) (Ok None); Ev _ (ReaderClose body) tt]).
    Proof.
      unfold HandleFileUpload. rewrite run_bind, run_call.
      destruct (h _ (StoreGet key) w0) as [rt w1]. cbn [fst snd].
      rewrite run_bind.
      destruct (run h (match rt with
                       | Ok (Some target) => _
                       | Ok None => _
                       | Error e => _
                       end) w1) as [[r t] w2] eqn:Hmid.
      rewrite run_bind, run_call.
      destruct (h _ (ReaderClose body) w2) as [[] w3]. cbn [fst snd run app].
      split.
      - exists (Ev _ (StoreGet key) rt :: t). reflexivity.
      - intros ->. cbn in Hmid. injection Hmid as <- <- _. split; reflexivity.
    Qed.

    (** *** The creation of a new file *)




  End Receive.

  (** *** Runs *)

  (** A new file is received with its key, in the initial synchronization
      of a sharing. *)
Example HandleFileUpload_new_file :
    (run (with_key won_upload None None)
       (sample_HandleFileUpload initial_sharing "key1" body) tt).1.1 = None
    /\ map label (run (with_key won_upload None None)
                    (sample_HandleFileUpload initial_sharing "key1" body) tt).1.2
       = ["StoreGet"; "Lock"; "FileByID f1"; "DirByID d0"; "GetFileJSON";
          "CreateFile f1 hi.txt"; "IoCopy"; "FileClose"; "countReceivedFiles";
          "Unlock"; "ReaderClose"].
  Proof. split; vm_compute; reflexivity. Qed.

  (** A key that the store does not know: nothing is done. *)
Example HandleFileUpload_unknown_key :
    (run (instance_with None None)
       (sample_HandleFileUpload initial_sharing "key0" body) tt).1.1
    = Some ErrMissingFileMetadata
    /\ map label (run (instance_with None None)
                    (sample_HandleFileUpload initial_sharing "key0" body) tt).1.2
       = ["StoreGet"; "ReaderClose"].
  Proof. split; vm_compute; reflexivity. Qed.

  (** The same, when the path of the file is taken: the file is created
      under the name that was found for it. *)
Example HandleFileUpload_path_taken :
    map label (run (crowded won_upload)
                 (sample_HandleFileUpload initial_sharing "key1" body) tt).1.2
    = ["StoreGet"; "Lock"; "FileByID f1"; "DirByID d0"; "GetFileJSON";
       "CreateFile f1 hi.txt"; "DocPath"; "resolveConflictSamePath";
       "CreateFile f1 hi (2).txt"; "IoCopy"; "FileClose";
       "countReceivedFiles"; "Unlock"; "ReaderClose"].
  Proof. vm_compute. reflexivity. Qed.

  (** A new content is received for a file whose local revision loses:
      two files are opened, one after the other, and both are closed. *)
Example HandleFileUpload_two_files :
    map label (run (with_key won_upload (Some local_file) (Some local_entry))
                 (sample_HandleFileUpload sample_sharing "key1" body) tt).1.2
    = ["StoreGet"; "Lock"; "FileByID f1"; "GetShared"; "FileByID f1-2-b";
       "conflictName hello.txt"; "OpenFile f1";
       "CreateFile f1-2-b hello.txt (conflict)"; "IoCopy"; "FileClose";
       "ReaderClose"; "CreateFile hello.txt over f1"; "IoCopy";
       "FileClose"; "UpdateFileDoc hello.txt to hi.txt"; "Unlock";
       "ReaderClose"].
  Proof. vm_compute. reflexivity. Qed.

End UploadMoreFacts.

(** ** The sender of a file: the exchange with the peer *)

Module SenderMoreFacts.
  Import GoStr Upload UploadTrace Sender SenderMore SenderSamples SenderMoreSamples.

  Section Send.
    Context {H : Helpers}.

Lemma append_is_assoc (a b c : string) : (a +:+ b) +:+ c = a +:+ (b +:+ c).
    Proof.
      induction a as [| x a IH]; [reflexivity |].
      change (String x ((a +:+ b) +:+ c) = String x (a +:+ (b +:+ c))).
      f_equal. exact IH.
    Qed.

Lemma prefix_append (p q : string) : String.prefix p (p +:+ q) = true.
    Proof.
      induction p as [| c p IH]; [destruct q; reflexivity |].
      change (String.prefix (String c p) (String c (p +:+ q)) = true).
      cbn [String.prefix]. destruct (ascii_dec c c); [exact IH | contradiction].
    Qed.

Lemma files_path_app s (x : string) :
      "/sharings/" +:+ SID s +:+ "/io.cozy.files/" +:+ x = files_path s +:+ x.
    Proof. unfold files_path. now rewrite !append_is_assoc. Qed.

Lemma uploadFile_sending s m file ruleIndex :
      follows (sending_step s) (fun st _ => no_reader st = true) NothingSent
        (uploadFile s m file ruleIndex).
    Proof.
      unfold uploadFile.
      destruct (trashed_of file); [apply follows_ret; reflexivity |].
      destruct (FindCredentials s m) as [creds |]; [| apply follows_ret; reflexivity].
      destruct (url_Parse _) as [u | e]; [| apply follows_ret; reflexivity].
      destruct (string_of file "_id") as [origFileID |]; [| apply follows_ret; reflexivity].
      cbv zeta.
      destruct (string_of _ "_id") as [xoredFileID |]; [| apply follows_ret; reflexivity].
      destruct (json_Marshal _) as [body | e]; [| apply follows_ret; reflexivity].
      destruct (AccessToken creds) as [token |]; [| apply follows_ret; reflexivity].
      set (opts := {| ReqMethod := "PUT"; ReqPath := _ |}).
      assert (Hmeta : forall r, sending_step s NothingSent (Ev _ (HttpReq opts) r)
                                = Some (MetaSent opts false r)).
      { intros r. cbn. rewrite files_path_app. unfold HasPrefix. rewrite prefix_append.
        reflexivity. }
      unfold call at 1. cbn [bind].
      apply follows_vis; [intros x; rewrite Hmeta; discriminate |].
      intros r s' Hs. rewrite Hmeta in Hs. injection Hs as <-. clear Hmeta.
      (* the token is refreshed, or not *)
      eapply follows_bind with
        (Q1 := fun st r' => exists refreshed, st = MetaSent opts refreshed r').
      { destruct r as [[res |] err]; cbn [fst snd]; [| apply follows_ret; eauto].
        destruct (status_class res =? 4) eqn:H4; [| apply follows_ret; eauto].
        unfold call.
        apply follows_vis.
        - intros x. cbn. rewrite bool_decide_eq_true_2 by reflexivity. rewrite H4.
          discriminate.
        - intros x s' Hs. cbn in Hs. rewrite bool_decide_eq_true_2 in Hs by reflexivity.
          rewrite H4 in Hs. injection Hs as <-. apply follows_ret. eauto. }
      cbv beta. intros st [r1 err1] [refreshed ->]. cbn [fst snd].
      destruct err1 as [e |]; [apply follows_ret; reflexivity |].
      destruct r1 as [res |]; [| apply follows_ret; reflexivity].
      assert (Hclose : forall st (out : option error), no_reader st = true ->
                follows (sending_step s) (fun st _ => no_reader st = true) st
                  (bind (call (ResBodyClose res)) (fun _ => Ret out))).
      { intros st out Hst. unfold call. cbn [bind].
        apply follows_vis.
        - intros x. destruct st; try discriminate Hst; discriminate.
        - intros x s' Hs. destruct st; try discriminate Hst; cbn in Hs; injection Hs as <-;
            apply follows_ret; reflexivity. }
      eapply follows_bind with (Q1 := fun st _ => no_reader st = true);
        [| intros st out Hst; apply Hclose; exact Hst].
      destruct (StatusCode res =? 204) eqn:H204; [apply follows_ret; reflexivity |].
      unfold call at 1. cbn [bind].
      apply follows_vis.
      { intros x. cbn. rewrite bool_decide_eq_true_2 by reflexivity. rewrite H204.
        discriminate. }
      intros k s' Hs. cbn in Hs. rewrite bool_decide_eq_true_2 in Hs by reflexivity.
      rewrite H204 in Hs. cbn in Hs. injection Hs as <-.
      destruct k as [key | e]; [| apply follows_ret; reflexivity].
      unfold sendContent. unfold call at 1. cbn [bind].
      apply follows_vis; [intros x; discriminate |].
      intros rf s' Hs. cbn in Hs. injection Hs as <-.
      destruct rf as [fileDoc | e]; [| apply follows_ret; reflexivity].
      unfold call at 1. cbn [bind].
      apply follows_vis; [intros x; discriminate |].
      intros rc s' Hs. cbn in Hs. injection Hs as <-.
      destruct rc as [content | e]; [| apply follows_ret; reflexivity].
      cbv zeta.
      set (opts2 := {| ReqMethod := "PUT"; ReqPath := _ |}).
      assert (Hcont : forall r, sending_step s (Reading key content) (Ev _ (HttpReq opts2) r)
                                = Some (ContentSent content)).
      { intros r0. cbn. rewrite bool_decide_eq_true_2 by reflexivity.
        rewrite files_path_app, String.eqb_refl. reflexivity. }
      unfold call at 1. cbn [bind].
      apply follows_vis; [intros x; rewrite Hcont; discriminate |].
      intros r2 s' Hs. rewrite Hcont in Hs. injection Hs as <-. clear Hcont.
      eapply follows_bind with (Q1 := fun st _ => st = ContentSent content).
      { destruct r2 as [[res2 |] [e2 |]]; cbn [fst snd];
          try (apply follows_ret; reflexivity).
        unfold call. cbn [bind].
        apply follows_vis; [intros x; discriminate |].
        intros x s' Hs. cbn in Hs. injection Hs as <-. apply follows_ret. reflexivity. }
      cbv beta. intros st r3 ->. unfold call. cbn [bind].
      apply follows_vis.
      { intros x. cbn. rewrite bool_decide_eq_true_2 by reflexivity. discriminate. }
      intros x s' Hs. cbn in Hs. rewrite bool_decide_eq_true_2 in Hs by reflexivity.
      injection Hs as <-. apply follows_ret. reflexivity.
    Qed.

    (** X14.  Whatever the peer and the instance answer, [uploadFile]
        talks to the peer in one order.  Its first request is a PUT of the
        document under the path of the files of the sharing; it refreshes
        the token only after an answer of status 4xx, at most once, for this
        request; it reads a key only in an answer without error whose status
        is not 204; it opens the file only once it has the key; its second
        and last request is a PUT of the open file to the key; and the file
        that it has opened for reading is closed when it returns. *)
Theorem uploadFile_exchange W (h : handler upE W) (w0 : W)
      (s : Sharing) (m : Member) (file : JSONMap) (ruleIndex : Z) :
      exists st,
        monitor (sending_step s) NothingSent (run h (uploadFile s m file ruleIndex) w0).1.2
        = Some st
        /\ no_reader st = true.
    Proof.
      exact (follows_run (sending_step s) _ _ _ (uploadFile_sending s m file ruleIndex) W h w0).
    Qed.

Lemma uploadFile_answers s m file ruleIndex :
      follows answer_step after_last None (uploadFile s m file ruleIndex).
    Proof.
      unfold uploadFile.
      destruct (trashed_of file); [apply follows_ret; exact I |].
      destruct (FindCredentials s m) as [creds |]; [| apply follows_ret; exact I].
      destruct (url_Parse _) as [u | e]; [| apply follows_ret; exact I].
      destruct (string_of file "_id") as [origFileID |]; [| apply follows_ret; exact I].
      cbv zeta.
      destruct (string_of _ "_id") as [xoredFileID |]; [| apply follows_ret; exact I].
      destruct (json_Marshal _) as [body | e]; [| apply follows_ret; exact I].
      destruct (AccessToken creds) as [token |]; [| apply follows_ret; exact I].
      unfold call at 1. cbn [bind].
      apply follows_vis; [intros x; discriminate |].
      intros r s' Hs. cbn in Hs. injection Hs as <-.
      eapply follows_bind with (Q1 := fun st r' => st = Some r').
      { destruct r as [[res |] err]; cbn [fst snd]; [| apply follows_ret; reflexivity].
        destruct (status_class res =? 4); [| apply follows_ret; reflexivity].
        unfold call.
        apply follows_vis; [intros x; discriminate |].
        intros x s' Hs. cbn in Hs. injection Hs as <-. apply follows_ret. reflexivity. }
      cbv beta. intros st [r1 err1] ->. cbn [fst snd].
      destruct err1 as [e |].
      { apply follows_ret. destruct r1 as [res |]; reflexivity. }
      destruct r1 as [res |]; [| apply follows_ret; reflexivity].
      assert (Hclose : forall st (out : option error), after_last st out ->
                follows answer_step after_last st
                  (bind (call (ResBodyClose res)) (fun _ => Ret out))).
      { intros st out Hst. unfold call. cbn [bind].
        apply follows_vis; [intros x; discriminate |].
        intros x s' Hs. cbn in Hs. injection Hs as <-. apply follows_ret. exact Hst. }
      eapply follows_bind with (Q1 := after_last);
        [| intros st out Hst; apply Hclose; exact Hst].
      destruct (StatusCode res =? 204) eqn:H204; [apply follows_ret; intros _; reflexivity |].
      assert (Hno : forall out, after_last (Some (Some res, None)) out).
      { intros out H204'. rewrite H204' in H204. discriminate. }
      unfold call at 1. cbn [bind].
      apply follows_vis; [intros x; discriminate |].
      intros k s' Hs. cbn in Hs. injection Hs as <-.
      destruct k as [key | e]; [| apply follows_ret; apply Hno].
      unfold sendContent. unfold call at 1. cbn [bind].
      apply follows_vis; [intros x; discriminate |].
      intros rf s' Hs. cbn in Hs. injection Hs as <-.
      destruct rf as [fileDoc | e]; [| apply follows_ret; apply Hno].
      unfold call at 1. cbn [bind].
      apply follows_vis; [intros x; discriminate |].
      intros rc s' Hs. cbn in Hs. injection Hs as <-.
      destruct rc as [content | e]; [| apply follows_ret; apply Hno].
      cbv zeta. unfold call at 1. cbn [bind].
      apply follows_vis; [intros x; discriminate |].
      intros r2 s' Hs. cbn in Hs. injection Hs as <-.
      eapply follows_bind with (Q1 := fun st r3 => st = Some r2 /\ after_last (Some r2) r3).
      { destruct r2 as [[res2 |] [e2 |]]; cbn [fst snd];
          try (apply follows_ret; split; reflexivity).
        unfold call. cbn [bind].
        apply follows_vis; [intros x; discriminate |].
        intros x s' Hs. cbn in Hs. injection Hs as <-. apply follows_ret.
        split; [reflexivity | intros _; reflexivity]. }
      cbv beta. intros st r3 [-> Hr3]. unfold call. cbn [bind].
      apply follows_vis; [intros x; discriminate |].
      intros x s' Hs. cbn in Hs. injection Hs as <-. apply follows_ret. exact Hr3.
    Qed.

    (** X15.  Whatever the peer and the instance answer, what [uploadFile]
        returns follows from the last answer of the peer (to a request, or
        to the refresh of the token): with an error and a response of status
        5xx, ErrInternalServerError; with an error otherwise, this error;
        without error and with the status 204, nil; and a panic when the
        peer gave neither a response nor an error. *)
Theorem uploadFile_result W (h : handler upE W) (w0 : W)
      (s : Sharing) (m : Member) (file : JSONMap) (ruleIndex : Z) :
      exists last,
        monitor answer_step None (run h (uploadFile s m file ruleIndex) w0).1.2 = Some last
        /\ after_last last (run h (uploadFile s m file ruleIndex) w0).1.1.
    Proof.
      exact (follows_run answer_step _ _ _ (uploadFile_answers s m file ruleIndex) W h w0).
    Qed.

  End Send.

  (** *** Runs *)

  (** The peer asks for the content: the metadata, the key, the content. *)
Example uploadFile_two_requests :
    (run peer_wants_content (sample_uploadFile kept_file) tt).1.1 = None
    /\ map label (run peer_wants_content (sample_uploadFile kept_file) tt).1.2
       = ["PUT /sharings/s1/io.cozy.files/f1/metadata"; "DecodeKey"; "FileByID f1";
          "OpenFile f1"; "PUT /sharings/s1/io.cozy.files/key1"; "ResBodyClose";
          "ReaderClose"; "ResBodyClose"].
  Proof. split; vm_compute; reflexivity. Qed.

  (** The peer is in trouble. *)
Example uploadFile_unavailable :
    (run peer_unavailable (sample_uploadFile kept_file) tt).1.1 = Some ErrInternalServerError
    /\ map label (run peer_unavailable (sample_uploadFile kept_file) tt).1.2
       = ["PUT /sharings/s1/io.cozy.files/f1/metadata"].
  Proof. split; vm_compute; reflexivity. Qed.

End SenderMoreFacts.

(** ** The revocation of a sharing *)

Module RevokeMoreFacts.
  Import Revoke RevokeMore RevokeSamples RevokeMoreSamples.

Lemma removeSharingTriggers_run W (h : handler revE W) ids : forall w,
    exists l,
      (run h (removeSharingTriggers ids) w).1.2 = map deletion l
      /\ map fst l `prefix_of` filter (fun id => id <> "") ids
      /\ match (run h (removeSharingTriggers ids) w).1.1 with
         | None => map fst l = filter (fun id => id <> "") ids
                   /\ Forall (fun c => tolerated c.2 = true) l
         | Some e => tolerated (Some e) = false
                     /\ exists l0 id, l = l0 ++ [(id, Some e)]
                                      /\ Forall (fun c => tolerated c.2 = true) l0
         end.
  Proof.
    induction ids as [| id ids IH]; intros w.
    - exists []. cbn. split; [reflexivity |]. split; [apply prefix_nil |].
      split; [reflexivity | constructor].
    - cbn [removeSharingTriggers]. rewrite run_bind. unfold removeSharingTrigger.
      destruct (String.eqb_spec id "") as [-> | Hid]; cbn [negb].
      + cbn [run]. destruct (IH w) as (l & Ht & Hp & Hr).
        destruct (run h (removeSharingTriggers ids) w) as [[r t] w2]. cbn [fst snd app] in *.
        exists l. rewrite filter_cons_False by (intros Hn; apply Hn; reflexivity).
        auto.
      + rewrite run_bind, run_call.
        destruct (h _ (DeleteTrigger id) w) as [a w1] eqn:Hh. cbn [fst snd].
        rewrite filter_cons_True by exact Hid.
        assert (Hgo : tolerated a = true ->
                  exists l,
                    Ev _ (DeleteTrigger id) a :: (run h (removeSharingTriggers ids) w1).1.2
                    = map deletion l
                    /\ map fst l `prefix_of` id :: filter (fun id => id <> "") ids
                    /\ match (run h (removeSharingTriggers ids) w1).1.1 with
                       | None => map fst l = id :: filter (fun id => id <> "") ids
                                 /\ Forall (fun c => tolerated c.2 = true) l
                       | Some e => tolerated (Some e) = false
                                   /\ exists l0 id, l = l0 ++ [(id, Some e)]
                                        /\ Forall (fun c => tolerated c.2 = true) l0
                       end).
        { intros Ha. destruct (IH w1) as (l & Ht & Hp & Hr).
          exists ((id, a) :: l). cbn [map fst snd].
          split; [unfold deletion at 1; cbn; f_equal; exact Ht |].
          split; [apply prefix_cons; exact Hp |].
          destruct ((run h (removeSharingTriggers ids) w1).1.1) as [e' |].
          - destruct Hr as (Htol & l0 & id' & -> & Hl0). split; [exact Htol |].
            exists ((id, a) :: l0), id'.
            split; [reflexivity |]. constructor; [exact Ha | exact Hl0].
          - destruct Hr as [Hm Hf]. split; [f_equal; exact Hm |].
            constructor; [exact Ha | exact Hf]. }
        destruct a as [e |].
        * destruct (decide (e = ErrNotFoundTrigger)) as [-> | He].
          -- rewrite bool_decide_eq_true_2 by reflexivity. cbn [negb run].
             specialize (Hgo eq_refl).
             destruct (run h (removeSharingTriggers ids) w1) as [[r t] w2].
             cbn [fst snd app] in *. exact Hgo.
          -- rewrite bool_decide_eq_false_2 by exact He. cbn [negb run fst snd app].
             exists [(id, Some e)]. cbn [map fst snd].
             split; [reflexivity |].
             split; [apply prefix_cons, prefix_nil |].
             split; [cbn; apply bool_decide_eq_false_2; exact He |].
             exists [], id. split; [reflexivity | constructor].
        * cbn [run]. specialize (Hgo eq_refl).
          destruct (run h (removeSharingTriggers ids) w1) as [[r t] w2].
          cbn [fst snd app] in *. exact Hgo.
  Qed.

  (** X16.  Whatever the answers of the job system, [RemoveTriggers]
      only deletes triggers: the non-empty identifiers of the sharing, in
      the order TrackID, TrackIDs, ReplicateID, UploadID, each one at most
      once, as long as the deletions answer nil or ErrNotFoundTrigger.  It
      returns nil when all of them were deleted so, and the sharing has
      then no trigger left; at the first other error it stops, returns this
      error, and the sharing keeps its triggers. *)
Theorem RemoveTriggers_outcome W (h : handler revE W) (w : W) (s : Sharing) :
    exists l,
      (run h (RemoveTriggers s) w).1.2 = map deletion l
      /\ map fst l `prefix_of` filter (fun id => id <> "") (trigger_ids s)
      /\ match (run h (RemoveTriggers s) w).1.1.2 with
         | None => map fst l = filter (fun id => id <> "") (trigger_ids s)
                   /\ Forall (fun c => tolerated c.2 = true) l
                   /\ (run h (RemoveTriggers s) w).1.1.1 = set_Triggers no_triggers s
         | Some e => tolerated (Some e) = false
                     /\ (exists l0 id, l = l0 ++ [(id, Some e)]
                                       /\ Forall (fun c => tolerated c.2 = true) l0)
                     /\ (run h (RemoveTriggers s) w).1.1.1 = s
         end.
  Proof.
    unfold RemoveTriggers. cbv zeta. rewrite run_bind.
    destruct (removeSharingTriggers_run W h (trigger_ids s) w) as (l & Ht & Hp & Hr).
    unfold trigger_ids in *. cbv zeta in *.
    destruct (run h (removeSharingTriggers _) w) as [[[e |] t] w1]; cbn [fst snd run app] in *;
      exists l; rewrite app_nil_r; intuition.
  Qed.

  (** *** The members *)

Lemma revokeFirstRecipient_at i ms :
    ((forall k m, ms !! k = Some m -> (i + k = 0)%nat \/ MemberInstance m = "")
     /\ revokeFirstRecipient i ms = ms)
    \/ (exists k m,
          ms !! k = Some m /\ (0 < i + k)%nat /\ MemberInstance m <> ""
          /\ (forall j m', (j < k)%nat -> ms !! j = Some m' ->
                           (i + j = 0)%nat \/ MemberInstance m' = "")
          /\ revokeFirstRecipient i ms = <[k := set_MemberStatus MemberStatusRevoked m]> ms).
  Proof.
    revert i. induction ms as [| m ms IH]; intros i.
    - left. split; [intros k m Hk; discriminate | reflexivity].
    - cbn [revokeFirstRecipient].
      destruct ((0 <? i)%nat && negb (String.eqb (MemberInstance m) "")) eqn:Hc.
      + right. apply andb_prop in Hc as [Hi Hm]. apply Nat.ltb_lt in Hi.
        apply negb_true_iff, String.eqb_neq in Hm.
        exists 0%nat, m. split; [reflexivity |]. split; [lia |]. split; [exact Hm |].
        split; [intros j m' Hj; lia | reflexivity].
      + assert (Hhead : (i + 0 = 0)%nat \/ MemberInstance m = "").
        { apply andb_false_iff in Hc as [Hi | Hm].
          - left. apply Nat.ltb_ge in Hi. lia.
          - right. apply negb_false_iff, String.eqb_eq in Hm. exact Hm. }
        destruct (IH (S i)) as [[Hall Heq] | (k & m1 & Hk & Hpos & Hinst & Hbefore & Heq)].
        * left. split; [| rewrite Heq; reflexivity].
          intros [| k] m1 Hk; cbn in Hk.
          -- injection Hk as <-. exact Hhead.
          -- destruct (Hall k m1 Hk) as [Hz | Hm1]; [lia | right; exact Hm1].
        * right. exists (S k), m1. split; [exact Hk |]. split; [lia |].
          split; [exact Hinst |]. split; [| rewrite Heq; reflexivity].
          intros [| j] m' Hj Hm'; cbn in Hm'.
          -- injection Hm' as <-. exact Hhead.
          -- destruct (Hbefore j m' ltac:(lia) Hm') as [Hz | Hm1]; [lia | right; exact Hm1].
  Qed.

  (** X17.  An iteration of the loop of [RevokeByNotification] marks at
      most one member as revoked: the first one after the owner that has
      an instance.  The owner and the members before and after it are
      left as they are, and nothing changes when no member has an
      instance. *)
Theorem markRevoked_members (s : Sharing) :
    ((forall k m, Members s !! k = Some m -> k = 0%nat \/ MemberInstance m = "")
     /\ Members (markRevoked s) = Members s)
    \/ (exists k m,
          Members s !! k = Some m /\ (0 < k)%nat /\ MemberInstance m <> ""
          /\ (forall j m', (j < k)%nat -> Members s !! j = Some m' ->
                           j = 0%nat \/ MemberInstance m' = "")
          /\ Members (markRevoked s)
             = <[k := set_MemberStatus MemberStatusRevoked m]> (Members s)).
  Proof.
    cbn [markRevoked Members].
    destruct (revokeFirstRecipient_at 0 (Members s))
      as [[Hall Heq] | (k & m & Hk & Hpos & Hinst & Hbefore & Heq)].
    - left. split; [exact Hall | exact Heq].
    - right. exists k, m. repeat split; try assumption.
  Qed.

Lemma revokeFirstRecipient_twice i ms :
    revokeFirstRecipient i (revokeFirstRecipient i ms) = revokeFirstRecipient i ms.
  Proof.
    revert i. induction ms as [| m ms IH]; intros i; [reflexivity |].
    cbn [revokeFirstRecipient].
    destruct ((0 <? i)%nat && negb (String.eqb (MemberInstance m) "")) eqn:Hc.
    - cbn [revokeFirstRecipient set_MemberStatus MemberInstance]. rewrite Hc. reflexivity.
    - cbn [revokeFirstRecipient]. rewrite Hc, IH. reflexivity.
  Qed.

  (** X18.  Marking a sharing as revoked twice is the same as marking
      it once: an iteration of the loop of [RevokeByNotification] on a
      sharing that is already marked writes nothing new in it. *)
Theorem markRevoked_idempotent (s : Sharing) : markRevoked (markRevoked s) = markRevoked s.
  Proof.
    unfold markRevoked. cbn [SID SRev Owner NbFiles Rules Members].
    rewrite revokeFirstRecipient_twice. reflexivity.
  Qed.

Lemma readOnly_revokeFirstRecipient i ms :
    readOnlyOfFirstRecipient i (revokeFirstRecipient i ms) = readOnlyOfFirstRecipient i ms.
  Proof.
    revert i. induction ms as [| m ms IH]; intros i; [reflexivity |].
    cbn [revokeFirstRecipient].
    destruct ((0 <? i)%nat && negb (String.eqb (MemberInstance m) "")) eqn:Hc.
    - apply andb_prop in Hc as [Hi Hm]. apply Nat.ltb_lt in Hi.
      cbn [readOnlyOfFirstRecipient set_MemberStatus MemberInstance MemberReadOnly].
      destruct (Nat.eqb_spec i 0); [lia |]. rewrite Hm. reflexivity.
    - cbn [readOnlyOfFirstRecipient]. rewrite IH. reflexivity.
  Qed.

  (** X19.  The member that [RevokeByNotification] marks as revoked is
      the one whose read-only flag [ReadOnlyFlag] returns, and only its
      status changes: the flag of the sharing is the same after the
      revocation. *)
Theorem ReadOnlyFlag_markRevoked (s : Sharing) :
    ReadOnlyFlag (markRevoked s) = ReadOnlyFlag s.
  Proof.
    unfold ReadOnlyFlag. cbn [markRevoked Owner Members].
    destruct (Owner s); cbn [negb]; [reflexivity |].
    apply readOnly_revokeFirstRecipient.
  Qed.

  (** *** The documents that a revocation saves *)

  Section Saved.
    Context {H : Helpers}.

Lemma updateLoop_saved W (h : handler revE W) n : forall s w,
      Forall (fun ev => saved_revoked ev = true) (run h (updateLoop n s) w).1.2
      /\ (n <> 0%nat -> updates (run h (updateLoop n s) w).1.2 <> []).
    Proof.
      induction n as [| n IH]; intros s w.
      - split; [constructor | intros Hn; contradiction].
      - cbn [updateLoop]. rewrite run_bind, run_call.
        destruct (h _ (UpdateSharing (markRevoked s)) w) as [[rev | e] w1]; cbn [fst snd].
        + split; [repeat constructor | intros _; discriminate].
        + destruct (IsConflictError e); cbn [negb].
          * rewrite run_bind, run_call.
            destruct (h _ (GetSharing (SID (markRevoked s))) w1) as [[s' | e'] w2];
              cbn [fst snd].
            -- destruct (IH s' w2) as [Hs _].
               destruct (run h (updateLoop n s') w2) as [[r t] w3]. cbn [fst snd app] in *.
               split; [repeat constructor; exact Hs | intros _; discriminate].
            -- split; [repeat constructor | intros _; discriminate].
          * split; [repeat constructor | intros _; discriminate].
    Qed.

    (** X20.  Whatever the sharing and the answers of the instance, every
        document of the sharing that [RevokeByNotification] saves is
        inactive, without credentials and without triggers; and the
        function returns nil exactly when it has tried to save the
        document, whatever the save answered. *)
Theorem RevokeByNotification_saves W (h : handler revE W) (w : W) (s : Sharing) :
      Forall (fun ev => saved_revoked ev = true) (run h (RevokeByNotification s) w).1.2
      /\ ((run h (RevokeByNotification s) w).1.1.2 = None
          <-> updates (run h (RevokeByNotification s) w).1.2 <> []).
    Proof.
      unfold RevokeByNotification.
      destruct (Owner s).
      { split; [constructor | split; [discriminate | intros Hn; contradiction]]. }
      rewrite run_bind.
      pose proof (avoids_Forall is_update h (revokeSteps s) w
                    (RevokeFacts.steps_no_update s)) as Hf.
      pose proof (avoids_filter is_update h (revokeSteps s) w
                    (RevokeFacts.steps_no_update s)) as Hu.
      destruct (run h (revokeSteps s) w) as [[[s1 [e |]] t1] w1]; cbn [fst snd] in *.
      - cbn [run fst snd]. rewrite app_nil_r. split.
        + eapply Forall_impl; [exact Hf |]. intros [X c x] Hc. cbn in Hc.
          unfold saved_revoked, is_update in *. cbn in *. destruct c; try reflexivity.
          discriminate.
        + unfold updates. rewrite Hu. split; [discriminate | intros Hn; contradiction].
      - rewrite run_bind.
        destruct (updateLoop_saved W h 3 s1 w1) as [Hs Hn].
        destruct (run h (updateLoop 3 s1) w1) as [[s2 t2] w2]. cbn [fst snd run app] in *.
        rewrite app_nil_r. split.
        + apply Forall_app. split; [| exact Hs].
          eapply Forall_impl; [exact Hf |]. intros [X c x] Hc. cbn in Hc.
          unfold saved_revoked, is_update in *. cbn in *. destruct c; try reflexivity.
          discriminate.
        + split; [intros _ | reflexivity].
          unfold updates in *. rewrite filter_app, Hu. cbn [app]. apply Hn. discriminate.
    Qed.

  End Saved.

  (** *** The end of a sharing without recipient *)

Lemma removeSharingTriggers_closing s ids :
    hasReadyMember (Members s) = false ->
    (forall id, id ∈ ids -> id ∈ trigger_ids s) ->
    follows (closing_step s) (fun st _ => st = Cleaning) Cleaning (removeSharingTriggers ids).
  Proof.
    intros Hr. induction ids as [| id ids IH]; intros Hin; [apply follows_ret; reflexivity |].
    cbn [removeSharingTriggers].
    assert (Hrest : forall e : option error,
              follows (closing_step s) (fun st _ => st = Cleaning) Cleaning
                match e with Some e' => Ret (Some e') | None => removeSharingTriggers ids end).
    { intros [e |]; [apply follows_ret; reflexivity |].
      apply IH. intros id' Hid'. apply Hin. right. exact Hid'. }
    unfold removeSharingTrigger.
    destruct (String.eqb_spec id "") as [-> | Hid]; cbn [negb]; [apply (Hrest None) |].
    assert (Hstep : forall a, closing_step s Cleaning (Ev _ (DeleteTrigger id) a) = Some Cleaning).
    { intros a. cbn. rewrite Hr. cbn [negb andb].
      rewrite bool_decide_eq_true_2 by exact Hid.
      rewrite bool_decide_eq_true_2 by (apply Hin; left). reflexivity. }
    unfold call. cbn [bind].
    apply follows_vis; [intros a; rewrite Hstep; discriminate |].
    intros a st Hst. rewrite Hstep in Hst. injection Hst as <-.
    destruct a as [e |]; [| apply (Hrest None)].
    destruct (negb (bool_decide (e = ErrNotFoundTrigger))); cbn [bind];
      [apply (Hrest (Some e)) | apply (Hrest None)].
  Qed.

Lemma NoMoreRecipient_closing s :
    follows (closing_step s) (closing_end s) Cleaning (NoMoreRecipient s).
  Proof.
    unfold NoMoreRecipient, closing_end.
    destruct (hasReadyMember (Members s)) eqn:Hr.
    - unfold updateDoc, call. cbn [bind].
      apply follows_vis.
      + intros r. cbn. rewrite Hr. rewrite bool_decide_eq_true_2 by reflexivity. discriminate.
      + intros r st Hst. cbn in Hst. rewrite Hr in Hst.
        rewrite bool_decide_eq_true_2 in Hst by reflexivity. injection Hst as <-.
        destruct r; apply follows_ret; cbn; [reflexivity | exact I].
    - eapply follows_bind with
        (Q1 := fun st rt => st = Cleaning
                            /\ (rt.2 = None -> rt.1 = set_Triggers no_triggers s)).
      + unfold RemoveTriggers. cbv zeta.
        eapply follows_bind;
          [apply (removeSharingTriggers_closing s (trigger_ids s) Hr); auto |].
        cbv beta. intros st [e |] ->; apply follows_ret; cbn; split; try reflexivity.
        discriminate.
      + cbv beta. intros st [s1 [e |]] [-> Hs1]; cbn [fst snd] in *;
          [apply follows_ret; exact I |].
        rewrite (Hs1 eq_refl). cbv zeta. unfold updateDoc, call. cbn [bind].
        apply follows_vis.
        * intros r. cbn. rewrite Hr. rewrite bool_decide_eq_true_2 by reflexivity.
          discriminate.
        * intros r st Hst. cbn in Hst. rewrite Hr in Hst.
          rewrite bool_decide_eq_true_2 in Hst by reflexivity. injection Hst as <-.
          destruct r as [rev | e]; cbn [is_ok fst snd]; [| apply follows_ret; exact I].
          apply follows_vis.
          -- intros a. cbn. rewrite String.eqb_refl. discriminate.
          -- intros a st Hst. cbn in Hst. rewrite String.eqb_refl in Hst.
             injection Hst as <-. apply follows_ret. cbn. destruct a; [exact I | reflexivity].
  Qed.

  (** X21.  Whatever the answers of the instance, [NoMoreRecipient]
      saves the document of the sharing once at most.  When a member is
      ready it saves the sharing as it is, and makes no other call;
      otherwise it deletes triggers of the sharing first, saves the sharing
      inactive and without triggers, and removes the shared references only
      after this save succeeded.  It returns nil only after the save, and
      the removal of the references when no member is ready. *)
Theorem NoMoreRecipient_protocol W (h : handler revE W) (w : W) (s : Sharing) :
    exists st,
      monitor (closing_step s) Cleaning (run h (NoMoreRecipient s) w).1.2 = Some st
      /\ closing_end s st (run h (NoMoreRecipient s) w).1.1.
  Proof.
    exact (follows_run (closing_step s) _ _ _ (NoMoreRecipient_closing s) W h w).
  Qed.

  (** *** The steps of a revocation *)

  Section Steps.
    Context {H : Helpers}.

Lemma removeSharingTriggers_revoking s ids :
      (forall id, id ∈ ids -> id ∈ trigger_ids s) ->
      follows (revoking_step s)
        (fun st r => match r with Some e => st = Stopped e | None => st = ClientDeleted end)
        ClientDeleted (removeSharingTriggers ids).
    Proof.
      induction ids as [| id ids IH]; intros Hin; [apply follows_ret; reflexivity |].
      cbn [removeSharingTriggers].
      assert (Hrest : follows (revoking_step s)
                (fun st r => match r with Some e => st = Stopped e | None => st = ClientDeleted end)
                ClientDeleted (removeSharingTriggers ids)).
      { apply IH. intros id' Hid'. apply Hin. right. exact Hid'. }
      unfold removeSharingTrigger.
      destruct (String.eqb_spec id "") as [-> | Hid]; cbn [negb bind]; [exact Hrest |].
      assert (Hstep : forall a, revoking_step s ClientDeleted (Ev _ (DeleteTrigger id) a)
                = Some (if tolerated a then ClientDeleted else after a ClientDeleted)).
      { intros a. cbn.
        rewrite bool_decide_eq_true_2 by exact Hid.
        rewrite bool_decide_eq_true_2 by (apply Hin; left). reflexivity. }
      unfold call. cbn [bind].
      apply follows_vis; [intros a; rewrite Hstep; discriminate |].
      intros a st Hst. rewrite Hstep in Hst. injection Hst as <-.
      destruct a as [e |]; cbn [tolerated after]; [| exact Hrest].
      destruct (bool_decide (e = ErrNotFoundTrigger)); cbn [negb bind];
        [exact Hrest | apply follows_ret; reflexivity].
    Qed.

Lemma updateLoop_revoking s n : forall s1 st,
      can_save st = true ->
      follows (revoking_step s)
        (fun st' _ => st' = match n with O => st | S _ => Saving end)
        st (updateLoop n s1).
    Proof.
      induction n as [| n IH]; intros s1 st Hst; [apply follows_ret; reflexivity |].
      cbn [updateLoop]. unfold call. cbn [bind].
      apply follows_vis; [intros r; cbn; rewrite Hst; discriminate |].
      intros r st' Hs. cbn in Hs. rewrite Hst in Hs. injection Hs as <-.
      destruct r as [rev | e]; [apply follows_ret; reflexivity |].
      destruct (negb (IsConflictError e)); [apply follows_ret; reflexivity |].
      apply follows_vis; [intros r; discriminate |].
      intros r st' Hs. cbn in Hs. injection Hs as <-.
      destruct r as [s' | e']; [| apply follows_ret; reflexivity].
      eapply follows_weaken; [| apply (IH s' Saving eq_refl)].
      cbv beta. intros st' _ ->. destruct n; reflexivity.
    Qed.

    (** The steps before the loop: they end stopped by a failure, or where
        the sharing may be saved. *)
Lemma revokeSteps_revoking s :
      follows (revoking_step s)
        (fun st r => match r.2 with
                     | Some e => st = Stopped e
                                 \/ (st = Begin /\ e = GoPanic "index out of range")
                     | None => can_save st = true
                     end)
        Begin (revokeSteps s).
    Proof.
      unfold revokeSteps.
      destruct (Members s) as [| m0 ms] eqn:Hm;
        [apply follows_ret; right; split; reflexivity |].
      destruct (SharingCredentials s) as [| c0 cs] eqn:Hc;
        [apply follows_ret; right; split; reflexivity |].
      unfold call at 1. cbn [bind].
      apply follows_vis.
      { intros a. cbn. rewrite Hm, Hc. cbn.
        rewrite !bool_decide_eq_true_2 by reflexivity. discriminate. }
      intros a st Hst. cbn in Hst. rewrite Hm, Hc in Hst. cbn in Hst.
      rewrite !bool_decide_eq_true_2 in Hst by reflexivity. injection Hst as <-.
      destruct a as [e |]; [apply follows_ret; left; reflexivity |]. cbn [after].
      eapply follows_bind with
        (Q1 := fun st rt => match rt.2 with
                            | Some e => st = Stopped e
                            | None => st = ClientDeleted /\ rt.1 = set_Triggers no_triggers s
                            end).
      { unfold RemoveTriggers. cbv zeta.
        eapply follows_bind;
          [apply (removeSharingTriggers_revoking s (trigger_ids s)); auto |].
        cbv beta. intros st [e |] ->; apply follows_ret; cbn; [reflexivity |].
        split; reflexivity. }
      cbv beta. intros st [s1 [e |]] Hrt; cbn [fst snd] in *;
        [apply follows_ret; left; exact Hrt |].
      destruct Hrt as [-> ->]. cbv zeta.
      unfold call at 1. cbn [bind].
      apply follows_vis.
      { intros a. cbn. rewrite Hm. cbn. rewrite bool_decide_eq_true_2 by reflexivity.
        discriminate. }
      intros a st Hst. cbn in Hst. rewrite Hm in Hst. cbn in Hst.
      rewrite bool_decide_eq_true_2 in Hst by reflexivity. injection Hst as <-.
      destruct a as [e |]; [apply follows_ret; left; reflexivity |]. cbn [after].
      unfold call at 1. cbn [bind].
      apply follows_vis.
      { intros a. cbn. rewrite String.eqb_refl. discriminate. }
      intros a st Hst. cbn in Hst. rewrite String.eqb_refl in Hst. injection Hst as <-.
      destruct a as [e |]; [apply follows_ret; left; reflexivity |]. cbn [after].
      eapply follows_bind with
        (Q1 := fun st e4 => match e4 with
                            | Some e => st = Stopped e
                            | None => st = RefsRemoved \/ st = DirRemoved
                            end).
      { assert (Hdir : has_sharing_dir (set_Triggers no_triggers s) = true ->
                  follows (revoking_step s)
                    (fun st e4 => match e4 with
                                  | Some e => st = Stopped e
                                  | None => st = RefsRemoved \/ st = DirRemoved
                                  end) RefsRemoved (call RemoveSharingDir)).
        { intros Hd. unfold call. apply follows_vis.
          - intros a. cbn. rewrite Hd. discriminate.
          - intros a st Hst. cbn in Hst. rewrite Hd in Hst. injection Hst as <-.
            apply follows_ret. destruct a; [reflexivity | right; reflexivity]. }
        unfold has_sharing_dir in Hdir.
        destruct (FirstFilesRule (set_Triggers no_triggers s)) as [rule |];
          [| apply follows_ret; left; reflexivity].
        destruct (String.eqb (RuleMime rule) "");
          [apply Hdir; reflexivity | apply follows_ret; left; reflexivity]. }
      cbv beta. intros st [e |] Hst; [apply follows_ret; left; exact Hst |].
      eapply follows_bind with
        (Q1 := fun st e5 => match e5 with
                            | Some e => st = Stopped e
                            | None => can_save st = true
                            end);
        [| intros st' e5 He5; apply follows_ret; destruct e5; [left |]; exact He5].
      assert (Hstart : can_save st = true) by (destruct Hst as [-> | ->]; reflexivity).
      assert (Horg : forall v0, organization_of (set_Triggers no_triggers s) = Some v0 ->
                follows (revoking_step s)
                  (fun st e5 => match e5 with
                                | Some e => st = Stopped e
                                | None => can_save st = true
                                end) st (RemoveBitwardenOrganization v0)).
      { intros v0 Hv. unfold RemoveBitwardenOrganization, call. cbn [bind].
        assert (Hget : forall a, revoking_step s st (Ev _ (GetOrganization v0) a)
                  = Some (match a with
                          | Some e => if IsNotFoundError e then OrgGone else Stopped e
                          | None => OrgFound v0
                          end)).
        { intros a. destruct Hst as [-> | ->]; cbn; rewrite Hv;
            rewrite bool_decide_eq_true_2 by reflexivity; reflexivity. }
        apply follows_vis; [intros a; rewrite Hget; discriminate |].
        intros a st' Hs. rewrite Hget in Hs. injection Hs as <-.
        destruct a as [e |].
        - destruct (IsNotFoundError e); apply follows_ret; reflexivity.
        - apply follows_vis; [intros a; cbn; rewrite String.eqb_refl; discriminate |].
          intros a st' Hs. cbn in Hs. rewrite String.eqb_refl in Hs. injection Hs as <-.
          apply follows_ret. destruct a; reflexivity. }
      unfold organization_of in Horg.
      destruct (FirstBitwardenOrganizationRule (set_Triggers no_triggers s)) as [rule |];
        [| apply follows_ret; exact Hstart].
      destruct (RuleValues rule) as [| v0 vs]; [apply follows_ret; exact Hstart |].
      apply Horg. reflexivity.
    Qed.

Lemma RevokeByNotification_revoking s :
      follows (revoking_step s) revoking_end Begin (RevokeByNotification s).
    Proof.
      unfold RevokeByNotification, revoking_end.
      destruct (Owner s); [apply follows_ret; right; split; [| left]; reflexivity |].
      eapply follows_bind; [apply revokeSteps_revoking |].
      cbv beta. intros st [s1 [e |]] Hst; cbn [fst snd] in *.
      - apply follows_ret. cbn. destruct Hst as [-> | [-> ->]]; [left | right]; auto.
      - eapply follows_bind; [apply (updateLoop_revoking s 3 s1 st Hst) |].
        cbv beta. intros st' s2 ->. apply follows_ret. reflexivity.
    Qed.

    (** X22.  Whatever the sharing and the answers of the instance,
        [RevokeByNotification] takes its steps in one order, each one after
        the success of the one before: the OAuth client of the first
        member, the triggers of the sharing, the sequence numbers, the
        shared references, the directory of the sharing when its first files
        rule has no mime type, the organization of its bitwarden rule
        (deleted only when it was found), and then the document.  Nothing
        follows a step that failed, and its error is what the function
        returns; a trigger or an organization that was not found is no
        failure. *)
Theorem RevokeByNotification_steps W (h : handler revE W) (w : W) (s : Sharing) :
      exists st,
        monitor (revoking_step s) Begin (run h (RevokeByNotification s) w).1.2 = Some st
        /\ revoking_end st (run h (RevokeByNotification s) w).1.1.
    Proof.
      exact (follows_run (revoking_step s) _ _ _ (RevokeByNotification_revoking s) W h w).
    Qed.

  End Steps.

  (** *** Runs *)

  (** A trigger that is not found does not stop the removal. *)
Example RemoveTriggers_not_found :
    sample_RemoveTriggers (Some ErrNotFoundTrigger)
    = (set_Triggers no_triggers with_triggers, None,
       ["DeleteTrigger t1"; "DeleteTrigger t2"; "DeleteTrigger r1"]).
  Proof. vm_compute. reflexivity. Qed.

  (** Another error does, and the sharing keeps its triggers. *)
Example RemoveTriggers_stops :
    sample_RemoveTriggers (Some (Other "no job system"))
    = (with_triggers, Some (Other "no job system"),
       ["DeleteTrigger t1"; "DeleteTrigger t2"]).
  Proof. vm_compute. reflexivity. Qed.

  (** A sharing with a ready member is saved, and nothing else. *)
Example NoMoreRecipient_ready :
    sample_NoMoreRecipient with_triggers = (None, ["UpdateSharing"]).
  Proof. vm_compute. reflexivity. Qed.

  (** A sharing without ready member is closed. *)
Example NoMoreRecipient_closes :
    sample_NoMoreRecipient without_recipient
    = (None, ["DeleteTrigger t1"; "DeleteTrigger t2"; "DeleteTrigger r1";
              "UpdateSharing"; "RemoveSharedRefs"]).
  Proof. vm_compute. reflexivity. Qed.

  (** A revocation, and one that a trigger stops. *)
Example RevokeByNotification_run :
    sample_RevokeByNotification None
    = (None, ["DeleteOAuthClient"; "DeleteTrigger t1"; "DeleteTrigger t2";
              "DeleteTrigger r1"; "ClearLastSequenceNumbers"; "RemoveSharedRefs";
              "RemoveSharingDir"; "UpdateSharing"])
    /\ sample_RevokeByNotification (Some (Other "no job system"))
       = (Some (Other "no job system"),
          ["DeleteOAuthClient"; "DeleteTrigger t1"; "DeleteTrigger t2"]).
  Proof. split; vm_compute; reflexivity. Qed.

End RevokeMoreFacts.

(** ** The channels of a notification *)

Module CenterFacts.
  Import Center.

Lemma ensureMailFallback_from_spec rest channels :
    ensureMailFallback_from rest channels
    = if bool_decide ("mail" ∈ rest) then channels else channels ++ ["mail"].
  Proof.
    induction rest as [| c rest IH]; cbn [ensureMailFallback_from].
    - rewrite bool_decide_eq_false_2 by (apply not_elem_of_nil). reflexivity.
    - destruct (String.eqb_spec c "mail") as [-> | Hc].
      + rewrite bool_decide_eq_true_2 by (apply list_elem_of_here). reflexivity.
      + rewrite IH. destruct (decide ("mail" ∈ rest)) as [Hin | Hin].
        * rewrite !bool_decide_eq_true_2; [reflexivity | | exact Hin].
          apply list_elem_of_further. exact Hin.
        * rewrite !bool_decide_eq_false_2; [reflexivity | | exact Hin].
          intros Hin'. apply elem_of_cons in Hin' as [Heq | Hin']; [| exact (Hin Hin')].
          apply Hc. symmetry. exact Heq.
  Qed.

  (** X23.  [ensureMailFallback] returns the channels as they are when
      "mail" is one of them, and the channels followed by "mail"
      otherwise: "mail" is always a channel of the result, the given
      channels keep their order at its head, and a second call changes
      nothing. *)
Theorem ensureMailFallback_spec (channels : list string) :
    ensureMailFallback channels
    = (if bool_decide ("mail" ∈ channels) then channels else channels ++ ["mail"])
    /\ "mail" ∈ ensureMailFallback channels
    /\ channels `prefix_of` ensureMailFallback channels
    /\ ensureMailFallback (ensureMailFallback channels) = ensureMailFallback channels.
  Proof.
    unfold ensureMailFallback. rewrite !ensureMailFallback_from_spec.
    destruct (decide ("mail" ∈ channels)) as [Hin | Hin].
    - rewrite !bool_decide_eq_true_2 by exact Hin.
      repeat split; [exact Hin | reflexivity].
    - rewrite !bool_decide_eq_false_2 by exact Hin.
      assert (Hm : "mail" ∈ channels ++ ["mail"])
        by (apply elem_of_app; right; apply list_elem_of_here).
      rewrite bool_decide_eq_true_2 by exact Hm.
      repeat split; [exact Hm | apply prefix_app_r; reflexivity].
  Qed.

Example ensureMailFallback_runs :
    ensureMailFallback [] = ["mail"]
    /\ ensureMailFallback ["mobile"; "sms"] = ["mobile"; "sms"; "mail"]
    /\ ensureMailFallback ["mail"; "mobile"] = ["mail"; "mobile"].
  Proof. repeat split. Qed.

End CenterFacts.

(** ** The synchronization of a file: a key or an update *)

Module SyncMoreFacts.
  Import GoStr Upload UploadTrace SyncMore UploadSamples.

  Section Sync.
    Context {H : Helpers}.

Ltac sstep :=
      cbn [bind];
      first
        [ apply follows_ret; cbn; first [reflexivity | split; [reflexivity | discriminate]]
        | match goal with
          | |- follows _ _ _ (bind (match ?x with _ => _ end) _) => destruct x
          | |- follows _ _ _ (bind (if ?x then _ else _) _) => destruct x
          | |- follows _ _ _ (bind (bind (match ?x with _ => _ end) _) _) => destruct x
          | |- follows _ _ _ (bind (bind (if ?x then _ else _) _) _) => destruct x
          | |- follows _ _ _ (match ?x with _ => _ end) => destruct x
          | |- follows _ _ _ (if ?x then _ else _) => destruct x
          | |- follows _ _ Deciding (Vis (UpdateFileDoc _ _ _) _) => fail 1
          | |- follows _ _ Deciding (Vis _ _) =>
              apply follows_vis;
              [ intros ?; cbn; rewrite ?bool_decide_eq_true_2 by reflexivity; discriminate
              | intros ? ? Hs; cbn in Hs;
                rewrite ?bool_decide_eq_true_2 in Hs by reflexivity; injection Hs as <- ]
          end ].

Lemma updateAfterExist_syncing target indexer olddoc newdoc :
      follows (syncing_step target)
        (fun st e => exists a, st = Updated a /\ (e = None -> a = None))
        (Updated (Some ErrExist)) (updateAfterExist indexer olddoc newdoc).
    Proof.
      unfold updateAfterExist, call. cbn [bind].
      apply follows_vis; [intros x; discriminate |].
      intros rp st Hs. cbn in Hs. injection Hs as <-.
      destruct rp as [pth | errp]; [| apply follows_ret; eexists; split; [reflexivity | discriminate]].
      apply follows_vis; [intros x; discriminate |].
      intros rn st Hs. cbn in Hs. injection Hs as <-.
      destruct rn as [name | errr]; [| apply follows_ret; eexists; split; [reflexivity | discriminate]].
      destruct (negb _);
        (apply follows_vis; [intros x; discriminate |];
         intros a st Hs; cbn in Hs; injection Hs as <-;
         apply follows_ret; exists a; split; [reflexivity | intros Ha; exact Ha]).
    Qed.

Lemma updateFileMetadata_syncing s target current ref :
      follows (syncing_step target)
        (fun st e => st = Deciding \/ exists a, st = Updated a /\ (e = None -> a = None))
        Deciding (updateFileMetadata s target current ref).
    Proof.
      unfold updateFileMetadata. cbv zeta.
      destruct (detectConflict _ _) eqn:Hc; try (apply follows_ret; left; reflexivity).
      all: (eapply follows_bind with (Q1 := fun st _ => st = Deciding);
            [ unfold prepareFileWithAncestors, call; repeat sstep | ]).
      all: cbv beta; intros st rp ->.
      all: destruct (rp.2); [apply follows_ret; left; reflexivity |].
      all: destruct (index _ _); [| apply follows_ret; left; reflexivity].
      all: unfold call at 1; cbn [bind].
      all: apply follows_vis; [intros x; discriminate |].
      all: intros a st Hs; cbn in Hs; injection Hs as <-.
      all: case_bool_decide as Ha;
        [ subst a; eapply follows_weaken; [| apply updateAfterExist_syncing];
          cbv beta; intros st e Hq; right; exact Hq
        | apply follows_ret; right; exists a; split; [reflexivity | intros Hn; exact Hn] ].
    Qed.

Lemma SyncFile_syncing s target :
      follows (syncing_step target) syncing_end Deciding (SyncFile s target).
    Proof.
      assert (Hkey : follows (syncing_step target) syncing_end Deciding (createUploadKey target)).
      { unfold createUploadKey, call. cbn [bind].
        apply follows_vis.
        - intros r. cbn. rewrite bool_decide_eq_true_2 by reflexivity. discriminate.
        - intros r st Hs. cbn in Hs. rewrite bool_decide_eq_true_2 in Hs by reflexivity.
          injection Hs as <-. destruct r; apply follows_ret; reflexivity. }
      unfold SyncFile. destruct (_ =? _)%nat; [apply follows_ret; reflexivity |].
      cbv zeta. unfold call at 1. cbn [bind].
      apply follows_vis; [intros x; discriminate |].
      intros lockerr st Hs. cbn in Hs. injection Hs as <-.
      destruct lockerr as [e |]; [apply follows_ret; reflexivity |].
      eapply follows_bind with (Q1 := syncing_end).
      2: { cbv beta. intros st r Hr. unfold call. cbn [bind].
           apply follows_vis; [intros x; discriminate |].
           intros x st' Hs. cbn in Hs. injection Hs as <-. apply follows_ret. exact Hr. }
      unfold SyncFile_locked. unfold call at 1. cbn [bind].
      apply follows_vis; [intros x; discriminate |].
      intros rc st Hs. cbn in Hs. injection Hs as <-.
      destruct rc as [current | e].
      - unfold call at 1. cbn [bind].
        apply follows_vis; [intros x; discriminate |].
        intros rr st Hs. cbn in Hs. injection Hs as <-.
        destruct rr as [ref | e]; [| destruct (IsNotFoundError e); apply follows_ret; reflexivity].
        destruct (Infos ref !! SID s) as [infos |]; [| apply follows_ret; reflexivity].
        destruct (Removed infos && negb (Dissociated infos));
          [apply follows_ret; reflexivity |].
        destruct (FindRev ref (DocRev target)); [apply follows_ret; reflexivity |].
        destruct (negb _); [exact Hkey |].
        eapply follows_bind; [apply updateFileMetadata_syncing |].
        cbv beta. intros st e [-> | (a & -> & Ha)]; apply follows_ret;
          [reflexivity | split; [reflexivity | exact Ha]].
      - destruct (bool_decide (e = ErrNotExist)); [| apply follows_ret; reflexivity].
        destruct (findRuleForNewFile s target); [exact Hkey | apply follows_ret; reflexivity].
    Qed.

    (** X24.  Whatever the instance answers, [SyncFile] asks for an upload
        key or updates the document, never both.  It asks for a key once at
        most, for its target, and only releases the lock after; it returns a
        key exactly when the store gave this key, and then no error, and it
        returns the error of the store when it gave none.  It updates the
        document a second time only when the first update found the path
        taken; after an update it returns nil only if the last update
        succeeded.  And it creates, opens, writes and closes no file. *)
Theorem SyncFile_key_or_update W (h : handler upE W) (w0 : W)
      (s : Sharing) (target : FileDocWithRevisions) :
      exists st,
        monitor (syncing_step target) Deciding (run h (SyncFile s target) w0).1.2 = Some st
        /\ syncing_end st (run h (SyncFile s target) w0).1.1.
    Proof.
      exact (follows_run (syncing_step target) _ _ _ (SyncFile_syncing s target) W h w0).
    Qed.

  End Sync.

  (** *** Runs *)

  (** A file that the instance does not have: a key is asked. *)
Example SyncFile_asks_key :
    (run (instance_with None None)
       (sample_SyncFile sample_sharing (payload "hello.txt" "d0" "1-a" md5_a ["1-a"])) tt).1.1
    = (Some "key1", None)
    /\ map label
         (run (instance_with None None)
            (sample_SyncFile sample_sharing (payload "hello.txt" "d0" "1-a" md5_a ["1-a"]))
            tt).1.2
       = ["Lock"; "FileByID f1"; "StoreSave"; "Unlock"].
  Proof. split; vm_compute; reflexivity. Qed.

  (** A file that was renamed by the peer: the document is updated. *)
Example SyncFile_updates :
    (run (instance_with (Some (file_doc "hello.txt" "d0" "1-a" md5_a))
            (Some (shared_entry ["1-a"] false false)))
       (sample_SyncFile sample_sharing (payload "hi.txt" "d0" "2-b" md5_a ["2-b"; "1-a"]))
       tt).1.1
    = (None, None)
    /\ map label
         (run (instance_with (Some (file_doc "hello.txt" "d0" "1-a" md5_a))
                 (Some (shared_entry ["1-a"] false false)))
            (sample_SyncFile sample_sharing (payload "hi.txt" "d0" "2-b" md5_a ["2-b"; "1-a"]))
            tt).1.2
       = ["Lock"; "FileByID f1"; "GetShared"; "UpdateFileDoc hello.txt to hi.txt"; "Unlock"].
  Proof. split; vm_compute; reflexivity. Qed.

End SyncMoreFacts.

